(** * aseprite_importer: parser and frame compositor

    A shallow embedding of [aseprite_importer.cpp]: the single-pass parser of
    .ase files (header, frames, chunks, palettes, layers, cels) and the
    example compositor [AsepriteGetEntireFrameRGBA] with its colour
    arithmetic.

    Conventions of the model.
    - [uint8_t], [uint16_t], [uint32_t] and [int] values are integers in [Z];
      fields read from the file are built by the little-endian readers below
      and so are in range by construction.  Arithmetic on [int] is exact
      (signed overflow is not defined by the language); the conversions of
      a [uint32_t] to [int] are written out.
    - [malloc] and [realloc] are taken to succeed.
    - [float] is IEEE-754 binary32 (precision 24, emax 128), every operation
      rounded to nearest-even, as on a target that evaluates [float]
      expressions in single precision.
    - Pointers into the file and into cel data are byte offsets; a
      dereference outside the object, or of memory that [malloc] returned and
      nobody wrote, has no defined behaviour in C and is an [Err] outcome
      here. *)

From Stdlib Require Import ZArith Bool Lia SpecFloat.
From stdpp Require Import base option list list_numbers relations.

Local Open Scope Z_scope.

(** ** Single-precision arithmetic *)

Module F32.

Definition prec : Z := 24.
Definition emax : Z := 128.

Definition float : Type := spec_float.

Definition add : float -> float -> float := SFadd prec emax.
Definition sub : float -> float -> float := SFsub prec emax.
Definition mul : float -> float -> float := SFmul prec emax.
Definition div : float -> float -> float := SFdiv prec emax.
Definition opp : float -> float := SFopp.
Definition eqb : float -> float -> bool := SFeqb.
Definition ltb : float -> float -> bool := SFltb.

(** Conversion of an integer to [float] (exact for the small constants and
    the bytes the program converts). *)
Definition of_Z (n : Z) : float := binary_normalize prec emax n 0 false.

Definition zero : float := S754_zero false.
Definition one : float := of_Z 1.
Definition two : float := of_Z 2.
(** The literal [0.5f]. *)
Definition half : float := binary_normalize prec emax 1 (-1) false.
(** The literal [255.0f]. *)
Definition f255 : float := of_Z 255.

(** Conversion to an integer type discards the fractional part. *)
Definition trunc (x : float) : option Z :=
  match x with
  | S754_zero _ => Some 0
  | S754_finite s m e =>
      let n := match e with
               | Zneg p => Z.shiftr (Zpos m) (Zpos p)
               | _ => Z.shiftl (Zpos m) e
               end in
      Some (if s then - n else n)
  | _ => None
  end.

(** [(uint8_t)x].  When the truncated value does not fit the conversion is
    not defined by the language; the model takes what a [cvttss2si] to a
    32-bit register followed by a byte store gives. *)
Definition to_u8 (x : float) : Z :=
  match trunc x with
  | Some n => if (- 2 ^ 31 <=? n) && (n <? 2 ^ 31) then n mod 256 else 0
  | None => 0
  end.

End F32.

Declare Scope f32_scope.
Delimit Scope f32_scope with f32.
Infix "+" := F32.add : f32_scope.
Infix "-" := F32.sub : f32_scope.
Infix "*" := F32.mul : f32_scope.
Infix "/" := F32.div : f32_scope.
Infix "==" := F32.eqb (at level 70, no associativity) : f32_scope.
Infix "<?" := F32.ltb : f32_scope.

(** ** Colours *)

(** [aseprite_color]: the four bytes and the four normalised floats. *)
Record aseprite_color := {
  R8 : Z; G8 : Z; B8 : Z; A8 : Z;
  R : F32.float; G : F32.float; B : F32.float; A : F32.float
}.

(** [(aseprite_color){0}] *)
Definition zero_color : aseprite_color :=
  {| R8 := 0; G8 := 0; B8 := 0; A8 := 0;
     R := F32.zero; G := F32.zero; B := F32.zero; A := F32.zero |}.

(** [AsepriteColorFromR8G8B8A8], lines 174-187. *)
Definition AsepriteColorFromR8G8B8A8 (r8 g8 b8 a8 : Z) : aseprite_color :=
  {| R8 := r8; G8 := g8; B8 := b8; A8 := a8;
     R := (F32.of_Z r8 / F32.f255)%f32;
     G := (F32.of_Z g8 / F32.f255)%f32;
     B := (F32.of_Z b8 / F32.f255)%f32;
     A := (F32.of_Z a8 / F32.f255)%f32 |}.

(** A pixel of four bytes in memory order, the object behind a
    [uint32_t *] into a texture or behind [RGBA8]. *)
Record rgba8 := { px_r : Z; px_g : Z; px_b : Z; px_a : Z }.

(** [*(uint32_t * )p == 0] *)
Definition px_is_zero (p : rgba8) : bool :=
  (px_r p =? 0) && (px_g p =? 0) && (px_b p =? 0) && (px_a p =? 0).

(** [*((uint32_t * )Color.RGBA8)] *)
Definition RGBA8 (c : aseprite_color) : rgba8 :=
  {| px_r := R8 c; px_g := G8 c; px_b := B8 c; px_a := A8 c |}.

(** [AsepriteColorFromRGBA8], lines 189-199. *)
Definition AsepriteColorFromRGBA8 (p : rgba8) : aseprite_color :=
  AsepriteColorFromR8G8B8A8 (px_r p) (px_g p) (px_b p) (px_a p).

(** [AsepriteColorFromRGBA], lines 201-214. *)
Definition AsepriteColorFromRGBA (r g b a : F32.float) : aseprite_color :=
  {| R := r; G := g; B := b; A := a;
     R8 := F32.to_u8 (r * F32.f255)%f32;
     G8 := F32.to_u8 (g * F32.f255)%f32;
     B8 := F32.to_u8 (b * F32.f255)%f32;
     A8 := F32.to_u8 (a * F32.f255)%f32 |}.

(** ** Blend modes ([enum aseprite_blend_mode]) *)

Definition AsepriteBlendMode_Normal : Z := 0.
Definition AsepriteBlendMode_Multiply : Z := 1.
Definition AsepriteBlendMode_Screen : Z := 2.
Definition AsepriteBlendMode_Overlay : Z := 3.
Definition AsepriteBlendMode_Darken : Z := 4.
Definition AsepriteBlendMode_Lighten : Z := 5.
Definition AsepriteBlendMode_ColorDodge : Z := 6.
Definition AsepriteBlendMode_ColorBurn : Z := 7.
Definition AsepriteBlendMode_HardLight : Z := 8.
Definition AsepriteBlendMode_SoftLight : Z := 9.
Definition AsepriteBlendMode_Difference : Z := 10.
Definition AsepriteBlendMode_Exclusion : Z := 11.

(** [AsepriteMin] and [AsepriteAbs], lines 621-637. *)
Definition AsepriteMin (a b : F32.float) : F32.float :=
  if (b <? a)%f32 then b else a.

Definition AsepriteAbs (a : F32.float) : F32.float :=
  if (a <? F32.zero)%f32 then F32.opp a else a.

(** The per-channel value the [switch (BlendMode)] of
    [AsepriteCombineColors] computes; the source writes it out three times,
    for red, green and blue.  [s] is the source channel, [d] the destination
    channel. *)
Definition BlendChannel (BlendMode : Z) (s d : F32.float) : F32.float :=
  let one := F32.one in
  let two := F32.two in
  let half := F32.half in
  (match BlendMode with
   | 1 => s * d
   | 2 => one - (one - s) * (one - d)
   | 3 => if d <? half then two * s * d
          else one - two * (one - s) * (one - d)
   | 4 => if d <? s then d else s
   | 5 => if s <? d then d else s
   | 6 => AsepriteMin (if s == one then one else d / (one - s)) one
   | 7 => if s == F32.zero then F32.zero
          else one - AsepriteMin ((one - d) / s) one
   | 8 => if s <? half then two * s * d
          else one - two * (one - s) * (one - d)
   | 9 => (one - two * s) * d * d + two * d * s
   | 10 => AsepriteAbs (d - s)
   | 11 => half - two * (d - half) * (s - half)
   | _ => s
   end)%f32.

(** [OutAlpha] of [AsepriteCombineColors]. *)
Definition OutAlpha (Src Dest : aseprite_color) : F32.float :=
  (A Src + A Dest * (F32.one - A Src))%f32.

(** The alpha-compositing line of [AsepriteCombineColors] for one channel:
    [blend] is the blended channel, [d] the destination channel. *)
Definition CompositeChannel (Src Dest : aseprite_color) (blend d : F32.float)
  : F32.float :=
  let OneOverOutAlpha := (F32.one / OutAlpha Src Dest)%f32 in
  ((blend * A Src + d * A Dest * (F32.one - A Src)) * OneOverOutAlpha)%f32.

(** [AsepriteCombineColors], lines 639-740. *)
Definition AsepriteCombineColors (Src Dest : aseprite_color) (BlendMode : Z)
  : aseprite_color :=
  if (OutAlpha Src Dest == F32.zero)%f32 then
    AsepriteColorFromRGBA F32.zero F32.zero F32.zero F32.zero
  else
    let OutRed := BlendChannel BlendMode (R Src) (R Dest) in
    let OutGreen := BlendChannel BlendMode (G Src) (G Dest) in
    let OutBlue := BlendChannel BlendMode (B Src) (B Dest) in
    AsepriteColorFromRGBA
      (CompositeChannel Src Dest OutRed (R Dest))
      (CompositeChannel Src Dest OutGreen (G Dest))
      (CompositeChannel Src Dest OutBlue (B Dest))
      (OutAlpha Src Dest).

(** ** Outcomes and memory *)

(** The source has one run-time check, the [Assert] of the compositor.
    Everything else that can go wrong is behaviour the language leaves
    undefined; the model names it instead of guessing a result. *)
Inductive error :=
| FrameIndexOutOfRange  (* the compositor's [Assert] *)
| OutOfBounds           (* access outside the object pointed into *)
| Uninitialised         (* use of a value that was never written *)
| BadPointer.           (* access through a null or indeterminate pointer *)

Inductive outcome (T : Type) :=
| Ok (v : T)
| Err (e : error).
Arguments Ok {T} v.
Arguments Err {T} e.

Definition bind {T U} (m : outcome T) (k : T -> outcome U) : outcome U :=
  match m with
  | Ok v => k v
  | Err e => Err e
  end.

Notation "'let*' x ':=' m 'in' k" := (bind m (fun x => k))
  (at level 10, x pattern, m at level 100, k at level 200).

(** A pointer returned by [malloc] (or never assigned at all). *)
Inductive ptr (T : Type) :=
| Wild                   (* never assigned *)
| Null
| Block (cells : list T).
Arguments Wild {T}.
Arguments Null {T}.
Arguments Block {T} cells.

(** [p[i]] as an rvalue. *)
Definition load {T} (cells : list T) (i : Z) : outcome T :=
  if i <? 0 then Err OutOfBounds
  else match cells !! Z.to_nat i with
       | Some v => Ok v
       | None => Err OutOfBounds
       end.

(** [p[i] = v]. *)
Definition store {T} (cells : list T) (i : Z) (v : T) : outcome (list T) :=
  if (0 <=? i) && (i <? Z.of_nat (length cells))
  then Ok (<[Z.to_nat i := v]> cells)
  else Err OutOfBounds.

(** A cell of an array that [malloc] returned holds nothing until it is
    written. *)
Definition fresh_array {T} (n : Z) : list (option T) :=
  replicate (Z.to_nat n) None.

Definition initialised {T} (v : option T) : outcome T :=
  match v with
  | Some x => Ok x
  | None => Err Uninitialised
  end.

Definition deref {T} (p : ptr T) : outcome (list T) :=
  match p with
  | Block cells => Ok cells
  | _ => Err BadPointer
  end.

(** ** Reading the file: little-endian fields at a byte offset *)

Section Readers.
(** The bytes the caller loaded; a byte is reduced modulo 256 when read. *)
Variable FileData : list Z.

Definition read_u8 (At : Z) : outcome Z :=
  let* b := load FileData At in Ok (b mod 256).

Definition read_u16 (At : Z) : outcome Z :=
  let* b0 := read_u8 At in
  let* b1 := read_u8 (At + 1) in
  Ok (b0 + 256 * b1).

Definition read_u32 (At : Z) : outcome Z :=
  let* lo := read_u16 At in
  let* hi := read_u16 (At + 2) in
  Ok (lo + 65536 * hi).

(** [int16_t]: two's complement. *)
Definition read_i16 (At : Z) : outcome Z :=
  let* u := read_u16 At in
  Ok (if u <? 32768 then u else u - 65536).

(** [memcpy] of [n] bytes out of the file. *)
Fixpoint read_bytes (At : Z) (n : nat) : outcome (list Z) :=
  match n with
  | O => Ok []
  | S n' =>
      let* b := read_u8 At in
      let* rest := read_bytes (At + 1) n' in
      Ok (b :: rest)
  end.
End Readers.

(** Conversion of a [uint32_t] to [int]. *)
Definition to_int (u : Z) : Z := (u + 2 ^ 31) mod 2 ^ 32 - 2 ^ 31.

(** ** The structures of the file format ([#pragma pack(1)]) *)

Record aseprite_header := {
  hdr_FileSize : Z;
  hdr_MagicNumber : Z;
  hdr_Frames : Z;
  hdr_WidthInPixels : Z;
  hdr_HeightInPixels : Z;
  hdr_ColorDepth : Z;
  hdr_Flags : Z;
  hdr_Speed : Z;
  hdr_TransparentPaletteEntry : Z;
  hdr_NumberOfColors : Z
}.
Definition sizeof_aseprite_header : Z := 128.

Record aseprite_frame_header := {
  fh_BytesInFrame : Z;
  fh_MagicNumber : Z;
  fh_ChunksInFrame : Z;
  fh_FrameDuration : Z
}.
Definition sizeof_aseprite_frame_header : Z := 16.

Record aseprite_chunk_header := {
  ch_ChunkSize : Z;
  ch_ChunkType : Z
}.
Definition sizeof_aseprite_chunk_header : Z := 6.

Record aseprite_palette_header := {
  ph_NewPaletteSize : Z;
  ph_FirstColorIndexToChange : Z;
  ph_LastColorIndexToChange : Z
}.
Definition sizeof_aseprite_palette_header : Z := 20.

Record aseprite_palette_entry := {
  pe_Flags : Z;
  pe_Red : Z;
  pe_Green : Z;
  pe_Blue : Z;
  pe_Alpha : Z
}.
Definition sizeof_aseprite_palette_entry : Z := 6.

Record aseprite_layer_header := {
  lh_Flags : Z;
  lh_LayerType : Z;
  lh_LayerChild : Z;
  lh_DefaultLayerWidthInPixels : Z;
  lh_DefaultLayerHeightInPixels : Z;
  lh_BlendMode : Z;
  lh_Opacity : Z
}.
Definition sizeof_aseprite_layer_header : Z := 16.

Record aseprite_cel_header := {
  cel_LayerIndex : Z;
  cel_XPos : Z;
  cel_YPos : Z;
  cel_Opacity : Z;
  cel_CelType : Z
}.
Definition sizeof_aseprite_cel_header : Z := 16.

Section ReadStructs.
Variable FileData : list Z.

Definition read_aseprite_header (At : Z) : outcome aseprite_header :=
  let* FileSize := read_u32 FileData At in
  let* MagicNumber := read_u16 FileData (At + 4) in
  let* Frames := read_u16 FileData (At + 6) in
  let* WidthInPixels := read_u16 FileData (At + 8) in
  let* HeightInPixels := read_u16 FileData (At + 10) in
  let* ColorDepth := read_u16 FileData (At + 12) in
  let* Flags := read_u32 FileData (At + 14) in
  let* Speed := read_u16 FileData (At + 18) in
  let* TransparentPaletteEntry := read_u8 FileData (At + 28) in
  let* NumberOfColors := read_u16 FileData (At + 32) in
  let* _ := read_u8 FileData (At + 127) in
  Ok {| hdr_FileSize := FileSize; hdr_MagicNumber := MagicNumber;
        hdr_Frames := Frames; hdr_WidthInPixels := WidthInPixels;
        hdr_HeightInPixels := HeightInPixels; hdr_ColorDepth := ColorDepth;
        hdr_Flags := Flags; hdr_Speed := Speed;
        hdr_TransparentPaletteEntry := TransparentPaletteEntry;
        hdr_NumberOfColors := NumberOfColors |}.

Definition read_aseprite_frame_header (At : Z)
  : outcome aseprite_frame_header :=
  let* BytesInFrame := read_u32 FileData At in
  let* MagicNumber := read_u16 FileData (At + 4) in
  let* ChunksInFrame := read_u16 FileData (At + 6) in
  let* FrameDuration := read_u16 FileData (At + 8) in
  let* _ := read_u8 FileData (At + 15) in
  Ok {| fh_BytesInFrame := BytesInFrame; fh_MagicNumber := MagicNumber;
        fh_ChunksInFrame := ChunksInFrame;
        fh_FrameDuration := FrameDuration |}.

Definition read_aseprite_chunk_header (At : Z)
  : outcome aseprite_chunk_header :=
  let* ChunkSize := read_u32 FileData At in
  let* ChunkType := read_u16 FileData (At + 4) in
  Ok {| ch_ChunkSize := ChunkSize; ch_ChunkType := ChunkType |}.

Definition read_aseprite_palette_header (At : Z)
  : outcome aseprite_palette_header :=
  let* NewPaletteSize := read_u32 FileData At in
  let* First := read_u32 FileData (At + 4) in
  let* Last := read_u32 FileData (At + 8) in
  let* _ := read_u8 FileData (At + 19) in
  Ok {| ph_NewPaletteSize := NewPaletteSize;
        ph_FirstColorIndexToChange := First;
        ph_LastColorIndexToChange := Last |}.

Definition read_aseprite_palette_entry (At : Z)
  : outcome aseprite_palette_entry :=
  let* Flags := read_u16 FileData At in
  let* Red := read_u8 FileData (At + 2) in
  let* Green := read_u8 FileData (At + 3) in
  let* Blue := read_u8 FileData (At + 4) in
  let* Alpha := read_u8 FileData (At + 5) in
  Ok {| pe_Flags := Flags; pe_Red := Red; pe_Green := Green;
        pe_Blue := Blue; pe_Alpha := Alpha |}.

Definition read_aseprite_layer_header (At : Z)
  : outcome aseprite_layer_header :=
  let* Flags := read_u16 FileData At in
  let* LayerType := read_u16 FileData (At + 2) in
  let* LayerChild := read_u16 FileData (At + 4) in
  let* DefaultW := read_u16 FileData (At + 6) in
  let* DefaultH := read_u16 FileData (At + 8) in
  let* BlendMode := read_u16 FileData (At + 10) in
  let* Opacity := read_u8 FileData (At + 12) in
  let* _ := read_u8 FileData (At + 15) in
  Ok {| lh_Flags := Flags; lh_LayerType := LayerType;
        lh_LayerChild := LayerChild;
        lh_DefaultLayerWidthInPixels := DefaultW;
        lh_DefaultLayerHeightInPixels := DefaultH;
        lh_BlendMode := BlendMode; lh_Opacity := Opacity |}.

Definition read_aseprite_cel_header (At : Z)
  : outcome aseprite_cel_header :=
  let* LayerIndex := read_u16 FileData At in
  let* XPos := read_i16 FileData (At + 2) in
  let* YPos := read_i16 FileData (At + 4) in
  let* Opacity := read_u8 FileData (At + 6) in
  let* CelType := read_u16 FileData (At + 7) in
  let* _ := read_u8 FileData (At + 15) in
  Ok {| cel_LayerIndex := LayerIndex; cel_XPos := XPos; cel_YPos := YPos;
        cel_Opacity := Opacity; cel_CelType := CelType |}.
End ReadStructs.

(** ** The parsed document *)

(** [aseprite_layer]: one cel.  A cell of a freshly allocated cel array has
    no field written yet. *)
Record aseprite_layer := {
  layer_Header : option aseprite_cel_header;
  layer_DataWidth : option Z;
  layer_DataHeight : option Z;
  layer_Data : ptr Z
}.

Definition fresh_layer : aseprite_layer :=
  {| layer_Header := None; layer_DataWidth := None;
     layer_DataHeight := None; layer_Data := Wild |}.

Record aseprite_layer_info := {
  info_Header : aseprite_layer_header;
  info_Name : list Z
}.

Record aseprite_palette := {
  pal_Header : option aseprite_palette_header;
  pal_NumColors : option Z;
  pal_Colors : ptr (option aseprite_color)
}.

Record aseprite_frame := {
  frame_Header : option aseprite_frame_header;
  frame_NumLayers : Z;
  frame_Layers : ptr aseprite_layer
}.

Record aseprite_file := {
  file_Header : aseprite_header;
  file_NumFrames : Z;
  file_Frames : list aseprite_frame;
  file_Palette : aseprite_palette;
  file_NumLayers : Z;
  file_LayerInfo : list (option aseprite_layer_info)
}.

Record aseprite_string := {
  str_Length : Z;
  str_String : Z   (* offset of the first character *)
}.

Record aseprite_parser := {
  At : Z;
  AvailableLayers : Z;
  UsesNewPalette : bool
}.

Definition set_Palette (File : aseprite_file) (p : aseprite_palette)
  : aseprite_file :=
  {| file_Header := file_Header File; file_NumFrames := file_NumFrames File;
     file_Frames := file_Frames File; file_Palette := p;
     file_NumLayers := file_NumLayers File;
     file_LayerInfo := file_LayerInfo File |}.

Definition set_Frames (File : aseprite_file) (fs : list aseprite_frame)
  : aseprite_file :=
  {| file_Header := file_Header File; file_NumFrames := file_NumFrames File;
     file_Frames := fs; file_Palette := file_Palette File;
     file_NumLayers := file_NumLayers File;
     file_LayerInfo := file_LayerInfo File |}.

Definition set_LayerInfo (File : aseprite_file) (n : Z)
  (li : list (option aseprite_layer_info)) : aseprite_file :=
  {| file_Header := file_Header File; file_NumFrames := file_NumFrames File;
     file_Frames := file_Frames File; file_Palette := file_Palette File;
     file_NumLayers := n; file_LayerInfo := li |}.

(** ** Chunk types, layer flags, cel types *)

Definition AsepriteChunk_OldPalette : Z := 0x0004.
Definition AsepriteChunk_OldPalette2 : Z := 0x0011.
Definition AsepriteChunk_Layer : Z := 0x2004.
Definition AsepriteChunk_Cel : Z := 0x2005.
Definition AsepriteChunk_Mask : Z := 0x2016.
Definition AsepriteChunk_Path : Z := 0x2017.
Definition AsepriteChunk_FrameTags : Z := 0x2018.
Definition AsepriteChunk_Palette : Z := 0x2019.
Definition AsepriteChunk_UserData : Z := 0x2020.

Definition AsepriteLayerFlags_Visible : Z := 1.

Definition AsepriteCelType_Raw : Z := 0.
Definition AsepriteCelType_Linked : Z := 1.
Definition AsepriteCelType_Compressed : Z := 2.

(** ** The parser *)

Section Parser.
(** The bytes of the file. *)
Variable FileData : list Z.

(** [tinfl_decompress_mem_to_heap] of tinfl.c, which is not part of this
    file: compressed bytes to decompressed bytes, or nothing (a null
    pointer) when the stream is rejected. *)
Variable tinfl_decompress_mem_to_heap : list Z -> option (list Z).

(** What [Frame->NumLayers] holds in the frame array as [malloc] returned
    it, by frame index: the parser compares this value before it ever
    writes the field. *)
Variable fresh_NumLayers : nat -> Z.

(** [AsepriteParseString], lines 312-320. *)
Definition AsepriteParseString (Data : Z) : outcome aseprite_string :=
  let* Length := read_u16 FileData Data in
  Ok {| str_Length := Length; str_String := Data + 2 |}.

(** The [for] loop of [AsepriteParsePalette], [n] iterations from
    [EntryIndex] on. *)
Fixpoint AsepriteParsePalette_loop (n : nat) (EntryIndex ChunkData : Z)
    (Colors : list (option aseprite_color))
  : outcome (list (option aseprite_color)) :=
  match n with
  | O => Ok Colors
  | S n' =>
      let* PaletteEntry := read_aseprite_palette_entry FileData ChunkData in
      let ChunkData := ChunkData + sizeof_aseprite_palette_entry in
      let* ChunkData :=
        if pe_Flags PaletteEntry =? 1 then
          let* ColorName := AsepriteParseString ChunkData in
          Ok (ChunkData + 2 + str_Length ColorName)
        else Ok ChunkData in
      let* Colors :=
        store Colors EntryIndex
          (Some (AsepriteColorFromR8G8B8A8
                   (pe_Red PaletteEntry) (pe_Green PaletteEntry)
                   (pe_Blue PaletteEntry) (pe_Alpha PaletteEntry))) in
      AsepriteParsePalette_loop n' (EntryIndex + 1) ChunkData Colors
  end.

(** [AsepriteParsePalette], lines 322-348.  [EntryIndex] is an [int]
    initialised from a [uint32_t] and compared with a [uint32_t]: the
    loop runs for the indices from first to last, none when last is below
    first.  The table is the one [malloc] has just returned, sized by the
    [uint32_t] of the header; [NumColors] is an [int] and gets that value
    converted. *)
Definition AsepriteParsePalette (File : aseprite_file) (ChunkData : Z)
  : outcome aseprite_file :=
  let* PaletteHeader := read_aseprite_palette_header FileData ChunkData in
  let ChunkData := ChunkData + sizeof_aseprite_palette_header in
  let Colors := fresh_array (ph_NewPaletteSize PaletteHeader) in
  let First := ph_FirstColorIndexToChange PaletteHeader in
  let Last := ph_LastColorIndexToChange PaletteHeader in
  let* Colors :=
    AsepriteParsePalette_loop (Z.to_nat (Last + 1 - First))
      (to_int First) ChunkData Colors in
  Ok (set_Palette File
        {| pal_Header := Some PaletteHeader;
           pal_NumColors :=
             Some (to_int (ph_NewPaletteSize PaletteHeader));
           pal_Colors := Block Colors |}).

(** The inner loop of [AsepriteParseOldPalette]: [n] colours from
    [ColorIndex] on.  Returns the advanced cursor with the table. *)
Fixpoint AsepriteParseOldPalette_colors (n : nat) (ColorIndex ChunkData : Z)
    (Colors : list (option aseprite_color))
  : outcome (Z * list (option aseprite_color)) :=
  match n with
  | O => Ok (ChunkData, Colors)
  | S n' =>
      let* Red := read_u8 FileData ChunkData in
      let* Green := read_u8 FileData (ChunkData + 1) in
      let* Blue := read_u8 FileData (ChunkData + 2) in
      let ChunkData := ChunkData + 3 in
      let* Colors :=
        store Colors ColorIndex
          (Some (AsepriteColorFromR8G8B8A8 Red Green Blue 255)) in
      AsepriteParseOldPalette_colors n' (ColorIndex + 1) ChunkData Colors
  end.

(** [NumColors16] *)
Definition NumColors16 (NumColors : Z) : Z :=
  if NumColors =? 0 then 256 else NumColors.

(** The outer loop of [AsepriteParseOldPalette]: [n] packets. *)
Fixpoint AsepriteParseOldPalette_packets (n : nat) (ChunkData : Z)
    (Colors : list (option aseprite_color))
  : outcome (Z * list (option aseprite_color)) :=
  match n with
  | O => Ok (ChunkData, Colors)
  | S n' =>
      let* StartIndex := read_u8 FileData ChunkData in
      let* NumColors := read_u8 FileData (ChunkData + 1) in
      let ChunkData := ChunkData + 2 in
      let* (ChunkData, Colors) :=
        AsepriteParseOldPalette_colors (Z.to_nat (NumColors16 NumColors))
          StartIndex ChunkData Colors in
      AsepriteParseOldPalette_packets n' ChunkData Colors
  end.

(** [AsepriteParseOldPalette], lines 350-378. *)
Definition AsepriteParseOldPalette (File : aseprite_file) (ChunkData : Z)
  : outcome aseprite_file :=
  let* Packets := read_u16 FileData ChunkData in
  let ChunkData := ChunkData + 2 in
  let Colors := fresh_array 256 in
  let* (_, Colors) :=
    AsepriteParseOldPalette_packets (Z.to_nat Packets) ChunkData Colors in
  Ok (set_Palette File
        {| pal_Header := pal_Header (file_Palette File);
           pal_NumColors := pal_NumColors (file_Palette File);
           pal_Colors := Block Colors |}).

(** [DataSize] of a cel: what is left of the chunk after the cel header
    and the two dimensions. *)
Definition cel_DataSize (ChunkLength : Z) : Z :=
  to_int (ChunkLength - sizeof_aseprite_cel_header - 2 * 2).

(** [AsepriteParseCel], lines 380-447.  A negative [DataSize] reaches
    [malloc] and [memcpy], or the inflater, as a huge size. *)
Definition AsepriteParseCel (Frame : aseprite_frame)
    (ChunkData ChunkLength : Z) : outcome aseprite_frame :=
  let* CelHeader := read_aseprite_cel_header FileData ChunkData in
  let ChunkData := ChunkData + sizeof_aseprite_cel_header in
  let* Layers := deref (frame_Layers Frame) in
  let* Layer := load Layers (cel_LayerIndex CelHeader) in
  let* Layer :=
    if cel_CelType CelHeader =? AsepriteCelType_Raw then
      let* WidthInPixels := read_u16 FileData ChunkData in
      let* HeightInPixels := read_u16 FileData (ChunkData + 2) in
      let ChunkData := ChunkData + 4 in
      let DataSize := cel_DataSize ChunkLength in
      if DataSize <? 0 then Err BadPointer else
      let* Data := read_bytes FileData ChunkData (Z.to_nat DataSize) in
      Ok {| layer_Header := Some CelHeader;
            layer_DataWidth := Some WidthInPixels;
            layer_DataHeight := Some HeightInPixels;
            layer_Data := Block Data |}
    else if cel_CelType CelHeader =? AsepriteCelType_Compressed then
      let* WidthInPixels := read_u16 FileData ChunkData in
      let* HeightInPixels := read_u16 FileData (ChunkData + 2) in
      let ChunkData := ChunkData + 4 in
      let DataSize := cel_DataSize ChunkLength in
      if DataSize <? 0 then Err OutOfBounds else
      let* Compressed := read_bytes FileData ChunkData (Z.to_nat DataSize) in
      Ok {| layer_Header := Some CelHeader;
            layer_DataWidth := Some WidthInPixels;
            layer_DataHeight := Some HeightInPixels;
            layer_Data :=
              match tinfl_decompress_mem_to_heap Compressed with
              | Some Data => Block Data
              | None => Null
              end |}
    else
      (* linked, or a type the switch does not list: header only *)
      Ok {| layer_Header := Some CelHeader;
            layer_DataWidth := layer_DataWidth Layer;
            layer_DataHeight := layer_DataHeight Layer;
            layer_Data := layer_Data Layer |} in
  let* Layers := store Layers (cel_LayerIndex CelHeader) Layer in
  Ok {| frame_Header := frame_Header Frame;
        frame_NumLayers := frame_NumLayers Frame;
        frame_Layers := Block Layers |}.

(** [AsepriteParseLayer], lines 449-508: [realloc] keeps what the array
    holds and adds cells nobody wrote. *)
Definition AsepriteParseLayer (File : aseprite_file)
    (Parser : aseprite_parser) (ChunkData : Z)
  : outcome (aseprite_file * aseprite_parser) :=
  let '(Parser, LayerInfo) :=
    if file_NumLayers File =? AvailableLayers Parser then
      let Available := AvailableLayers Parser * 2 in
      ({| At := At Parser; AvailableLayers := Available;
          UsesNewPalette := UsesNewPalette Parser |},
       resize (Z.to_nat Available) None (file_LayerInfo File))
    else (Parser, file_LayerInfo File) in
  let* LayerHeader := read_aseprite_layer_header FileData ChunkData in
  let ChunkData := ChunkData + sizeof_aseprite_layer_header in
  let* LayerName := AsepriteParseString ChunkData in
  let* Name :=
    read_bytes FileData (str_String LayerName)
      (Z.to_nat (str_Length LayerName)) in
  let* LayerInfo :=
    store LayerInfo (file_NumLayers File)
      (Some {| info_Header := LayerHeader; info_Name := Name ++ [0] |}) in
  Ok (set_LayerInfo File (file_NumLayers File + 1) LayerInfo, Parser).

(** The state one chunk step works on: the document, the frame being
    filled (an element of the document's frame array, handed over
    separately as in the source) and the parser. *)
Definition parse_state : Type :=
  aseprite_file * aseprite_frame * aseprite_parser.

Definition set_At (Parser : aseprite_parser) (p : Z) : aseprite_parser :=
  {| At := p; AvailableLayers := AvailableLayers Parser;
     UsesNewPalette := UsesNewPalette Parser |}.

(** [AsepriteParseChunk], lines 513-572. *)
Definition AsepriteParseChunk (File : aseprite_file)
    (Frame : aseprite_frame) (Parser : aseprite_parser)
  : outcome parse_state :=
  let* ChunkHeader := read_aseprite_chunk_header FileData (At Parser) in
  let ChunkData := At Parser + sizeof_aseprite_chunk_header in
  let Parser := set_At Parser (At Parser + ch_ChunkSize ChunkHeader) in
  let ChunkType := ch_ChunkType ChunkHeader in
  if ChunkType =? AsepriteChunk_OldPalette then
    if negb (UsesNewPalette Parser) then
      let* File := AsepriteParseOldPalette File ChunkData in
      Ok (File, Frame, Parser)
    else Ok (File, Frame, Parser)
  else if ChunkType =? AsepriteChunk_OldPalette2 then
    Ok (File, Frame, Parser)
  else if ChunkType =? AsepriteChunk_Layer then
    let* (File, Parser) := AsepriteParseLayer File Parser ChunkData in
    Ok (File, Frame, Parser)
  else if ChunkType =? AsepriteChunk_Cel then
    let Frame :=
      if negb (frame_NumLayers Frame =? file_NumLayers File) then
        {| frame_Header := frame_Header Frame;
           frame_NumLayers := file_NumLayers File;
           frame_Layers :=
             Block (replicate (Z.to_nat (file_NumLayers File))
                      fresh_layer) |}
      else Frame in
    let* Frame :=
      AsepriteParseCel Frame ChunkData
        (to_int (ch_ChunkSize ChunkHeader - sizeof_aseprite_chunk_header)) in
    Ok (File, Frame, Parser)
  else if ChunkType =? AsepriteChunk_Mask then
    Ok (File, Frame, Parser)
  else if ChunkType =? AsepriteChunk_Path then
    Ok (File, Frame, Parser)
  else if ChunkType =? AsepriteChunk_FrameTags then
    Ok (File, Frame, Parser)
  else if ChunkType =? AsepriteChunk_Palette then
    let Parser :=
      {| At := At Parser; AvailableLayers := AvailableLayers Parser;
         UsesNewPalette := true |} in
    let* File := AsepriteParsePalette File ChunkData in
    Ok (File, Frame, Parser)
  else if ChunkType =? AsepriteChunk_UserData then
    Ok (File, Frame, Parser)
  else
    Ok (File, Frame, Parser).

(** The chunk loop of [AsepriteParseFrame]. *)
Fixpoint AsepriteParseChunks (n : nat) (File : aseprite_file)
    (Frame : aseprite_frame) (Parser : aseprite_parser)
  : outcome parse_state :=
  match n with
  | O => Ok (File, Frame, Parser)
  | S n' =>
      let* (File, Frame, Parser) := AsepriteParseChunk File Frame Parser in
      AsepriteParseChunks n' File Frame Parser
  end.

(** [AsepriteParseFrame], lines 574-592. *)
Definition AsepriteParseFrame (File : aseprite_file)
    (Frame : aseprite_frame) (Parser : aseprite_parser)
  : outcome parse_state :=
  let* FrameHeader := read_aseprite_frame_header FileData (At Parser) in
  let Parser := set_At Parser (At Parser + sizeof_aseprite_frame_header) in
  let Frame :=
    {| frame_Header := Some FrameHeader;
       frame_NumLayers := frame_NumLayers Frame;
       frame_Layers := frame_Layers Frame |} in
  AsepriteParseChunks (Z.to_nat (fh_ChunksInFrame FrameHeader))
    File Frame Parser.

(** The frame loop of [AsepriteParseFile]: [n] frames from [FrameIndex]
    on; each frame is taken out of the frame array and put back. *)
Fixpoint AsepriteParseFrames (n : nat) (FrameIndex : Z)
    (File : aseprite_file) (Parser : aseprite_parser)
  : outcome (aseprite_file * aseprite_parser) :=
  match n with
  | O => Ok (File, Parser)
  | S n' =>
      let* Frame := load (file_Frames File) FrameIndex in
      let* (File, Frame, Parser) := AsepriteParseFrame File Frame Parser in
      let* Frames := store (file_Frames File) FrameIndex Frame in
      AsepriteParseFrames n' (FrameIndex + 1) (set_Frames File Frames) Parser
  end.

(** The frame array as [malloc] returned it. *)
Definition fresh_frames (n : nat) : list aseprite_frame :=
  map (fun i => {| frame_Header := None;
                   frame_NumLayers := fresh_NumLayers i;
                   frame_Layers := Wild |}) (seq 0 n).

(** The document and the parser before the first frame is read.  The
    palette of the result is not initialised. *)
Definition AsepriteParseFile_init
  : outcome (aseprite_file * aseprite_parser) :=
  let Parser := {| At := 0; AvailableLayers := 2;
                   UsesNewPalette := false |} in
  let* Header := read_aseprite_header FileData (At Parser) in
  let Parser := set_At Parser (At Parser + sizeof_aseprite_header) in
  Ok ({| file_Header := Header;
         file_NumFrames := hdr_Frames Header;
         file_Frames := fresh_frames (Z.to_nat (hdr_Frames Header));
         file_Palette := {| pal_Header := None; pal_NumColors := None;
                            pal_Colors := Wild |};
         file_NumLayers := 0;
         file_LayerInfo := fresh_array (AvailableLayers Parser) |},
      Parser).

(** [AsepriteParseFile], lines 594-619, with the parser it ends with. *)
Definition AsepriteParseFile_run
  : outcome (aseprite_file * aseprite_parser) :=
  let* (File, Parser) := AsepriteParseFile_init in
  AsepriteParseFrames (Z.to_nat (hdr_Frames (file_Header File))) 0
    File Parser.

Definition AsepriteParseFile : outcome aseprite_file :=
  let* (File, _) := AsepriteParseFile_run in Ok File.

End Parser.

(** ** The frame compositor *)

(** Modelled from the spec: the [Assert] macro is used by the compositor but
    not defined in this file.  The spec has the compositor fail with
    [FrameIndexOutOfRange] when the asserted condition on the frame index
    does not hold; a condition that holds lets the call go on. *)
Definition Assert (cond : bool) : outcome unit :=
  if cond then Ok tt else Err FrameIndexOutOfRange.

(** The destination texture: pixels of four bytes, addressed as the source
    does by a byte offset that is always a multiple of four. *)
Definition texture : Type := list rgba8.

Definition load_px (DestTexture : texture) (Dest : Z) : outcome rgba8 :=
  load DestTexture (Dest / 4).

Definition store_px (DestTexture : texture) (Dest : Z) (p : rgba8)
  : outcome texture :=
  store DestTexture (Dest / 4) p.

(** [LayerOpacity] *)
Definition LayerOpacity_of (Opacity : Z) : F32.float :=
  (F32.of_Z Opacity / F32.f255)%f32.

(** The [switch (ColorDepth)] of the pixel loop, lines 793-810: the source
    colour and the advanced [Source] pointer.  With a depth other than 8
    and 32 no case assigns [SourceColor]. *)
Definition FetchSourceColor (ColorDepth TransparentPaletteEntry : Z)
    (Palette : aseprite_palette) (CelData : ptr Z) (Source : Z)
  : outcome (aseprite_color * Z) :=
  if ColorDepth =? 8 then
    let* Cells := deref CelData in
    let* PaletteIndex := read_u8 Cells Source in
    let Source := Source + 1 in
    if PaletteIndex =? TransparentPaletteEntry then
      Ok (zero_color, Source)
    else
      let* Colors := deref (pal_Colors Palette) in
      let* Slot := load Colors PaletteIndex in
      let* Color := initialised Slot in
      Ok (Color, Source)
  else if ColorDepth =? 32 then
    let* Cells := deref CelData in
    let* r := read_u8 Cells Source in
    let* g := read_u8 Cells (Source + 1) in
    let* b := read_u8 Cells (Source + 2) in
    let* a := read_u8 Cells (Source + 3) in
    Ok (AsepriteColorFromRGBA8 {| px_r := r; px_g := g; px_b := b; px_a := a |},
        Source + 4)
  else Err Uninitialised.

(** The opacity adjustment of the pixel loop, lines 811-819. *)
Definition ApplyLayerOpacity (LayerOpacity : F32.float)
    (SourceColor : aseprite_color) : aseprite_color :=
  if (LayerOpacity == F32.zero)%f32 then zero_color
  else if negb (LayerOpacity == F32.one)%f32 then
    let a := (A SourceColor * LayerOpacity)%f32 in
    {| R8 := R8 SourceColor; G8 := G8 SourceColor; B8 := B8 SourceColor;
       A8 := F32.to_u8 (a * F32.f255)%f32;
       R := R SourceColor; G := G SourceColor; B := B SourceColor; A := a |}
  else SourceColor.

(** The write of the pixel loop, lines 820-827: the new value of [*Dest].
    [*SourceColor.RGBA8] is the first element of the byte array, the red
    byte. *)
Definition ComposePixel (LayerIndex BlendMode : Z)
    (SourceColor : aseprite_color) (Dest : rgba8) : rgba8 :=
  if (LayerIndex =? 0) || px_is_zero Dest then RGBA8 SourceColor
  else if negb (R8 SourceColor =? 0) then
    let DestColor := AsepriteColorFromRGBA8 Dest in
    let FinalColor := AsepriteCombineColors SourceColor DestColor BlendMode in
    RGBA8 FinalColor
  else Dest.

Section Compositor.
Variable File : aseprite_file.
Variables DestWidth DestHeight DestX DestY : Z.

Definition Palette : aseprite_palette := file_Palette File.
Definition ColorDepth : Z := hdr_ColorDepth (file_Header File).
Definition TransparentPaletteEntry : Z :=
  hdr_TransparentPaletteEntry (file_Header File).

(** The loop over [X], lines 786-829: [n] iterations from [X] on. *)
Fixpoint AsepriteFrame_row (LayerIndex BlendMode : Z)
    (LayerOpacity : F32.float) (CelData : ptr Z)
    (n : nat) (X Source Dest : Z) (DestTexture : texture)
  : outcome texture :=
  match n with
  | O => Ok DestTexture
  | S n' =>
      if X + DestX <? 0 then
        AsepriteFrame_row LayerIndex BlendMode LayerOpacity CelData
          n' (X + 1) Source Dest DestTexture
      else if X + DestX >=? DestWidth then Ok DestTexture
      else
        let* (SourceColor, Source) :=
          FetchSourceColor ColorDepth TransparentPaletteEntry Palette
            CelData Source in
        let SourceColor := ApplyLayerOpacity LayerOpacity SourceColor in
        let* Old := load_px DestTexture Dest in
        let* DestTexture :=
          store_px DestTexture Dest
            (ComposePixel LayerIndex BlendMode SourceColor Old) in
        AsepriteFrame_row LayerIndex BlendMode LayerOpacity CelData
          n' (X + 1) Source (Dest + 4) DestTexture
  end.

(** The loop over [Y], lines 777-830: [n] iterations from [Y] on. *)
Fixpoint AsepriteFrame_rows (LayerIndex BlendMode : Z)
    (LayerOpacity : F32.float) (CelData : ptr Z)
    (DestPitch DestStartX DataPitch StartY StartX : Z)
    (n : nat) (Y : Z) (DestTexture : texture) : outcome texture :=
  match n with
  | O => Ok DestTexture
  | S n' =>
      if Y + DestY <? 0 then
        AsepriteFrame_rows LayerIndex BlendMode LayerOpacity CelData
          DestPitch DestStartX DataPitch StartY StartX n' (Y + 1) DestTexture
      else if Y + DestY >=? DestHeight then Ok DestTexture
      else
        let Dest := (DestY + Y) * DestPitch + DestStartX in
        let Source := (StartY + Y) * DataPitch + StartX in
        let Width := hdr_WidthInPixels (file_Header File) in
        let* DestTexture :=
          AsepriteFrame_row LayerIndex BlendMode LayerOpacity CelData
            (Z.to_nat Width) 0 Source Dest DestTexture in
        AsepriteFrame_rows LayerIndex BlendMode LayerOpacity CelData
          DestPitch DestStartX DataPitch StartY StartX n' (Y + 1) DestTexture
  end.

(** The body of the loop over the layers, lines 759-830, for a layer that
    is not skipped. *)
Definition AsepriteFrame_layer (FrameNumber LayerIndex : Z)
    (LayerInfo : aseprite_layer_info) (DestTexture : texture)
  : outcome texture :=
  let BlendMode := lh_BlendMode (info_Header LayerInfo) in
  let* Frame := load (file_Frames File) FrameNumber in
  let* Layers := deref (frame_Layers Frame) in
  let* Layer := load Layers LayerIndex in
  let CelData := layer_Data Layer in
  let LayerOpacity := LayerOpacity_of (lh_Opacity (info_Header LayerInfo)) in
  let DestPitch := DestWidth * 4 in
  let DestStartX := if DestX <? 0 then 0 else DestX * 4 in
  let* DataWidth := initialised (layer_DataWidth Layer) in
  let DataPitch := if ColorDepth =? 32 then DataWidth * 4 else DataWidth in
  let* Header := initialised (layer_Header Layer) in
  let StartY := 0 - cel_YPos Header in
  let StartX := 0 - cel_XPos Header in
  let StartX := if ColorDepth =? 32 then StartX * 4 else StartX in
  let Height := hdr_HeightInPixels (file_Header File) in
  AsepriteFrame_rows LayerIndex BlendMode LayerOpacity CelData
    DestPitch DestStartX DataPitch StartY StartX
    (Z.to_nat Height) 0 DestTexture.

(** A layer is skipped when its opacity is zero or its visible flag is
    not set. *)
Definition layer_skipped (LayerInfo : aseprite_layer_info) : bool :=
  (lh_Opacity (info_Header LayerInfo) =? 0)
  || (Z.land (lh_Flags (info_Header LayerInfo)) AsepriteLayerFlags_Visible
      =? 0).

(** The loop over the layers: [n] iterations from [LayerIndex] on. *)
Fixpoint AsepriteFrame_layers (FrameNumber : Z) (n : nat) (LayerIndex : Z)
    (DestTexture : texture) : outcome texture :=
  match n with
  | O => Ok DestTexture
  | S n' =>
      let* Slot := load (file_LayerInfo File) LayerIndex in
      let* LayerInfo := initialised Slot in
      let* DestTexture :=
        if layer_skipped LayerInfo then Ok DestTexture
        else AsepriteFrame_layer FrameNumber LayerIndex LayerInfo
               DestTexture in
      AsepriteFrame_layers FrameNumber n' (LayerIndex + 1) DestTexture
  end.

(** [AsepriteGetEntireFrameRGBA], lines 742-832.  The document and the
    destination geometry are the parameters of this section, so they
    come first; the frame number and the texture follow. *)
Definition AsepriteGetEntireFrameRGBA (FrameNumber : Z)
    (DestTexture : texture) : outcome texture :=
  let* _ := Assert (FrameNumber <? file_NumFrames File) in
  AsepriteFrame_layers FrameNumber (Z.to_nat (file_NumLayers File)) 0
    DestTexture.

End Compositor.

(** ** The compositor as it acts on the destination

    [AsepriteGetEntireFrameRGBA] writes into the caller's buffer while it
    runs, so the buffer may have changed when a call does not come to its
    end.  The functions below go through the same loops and give, with
    the outcome, the destination as the call leaves it. *)

Definition effect : Type := (texture * outcome unit)%type.

Section CompositorEffect.
Variable File : aseprite_file.
Variables DestWidth DestHeight DestX DestY : Z.

(** The loop over [X], lines 786-829. *)
Fixpoint AsepriteFrame_row_effect (LayerIndex BlendMode : Z)
    (LayerOpacity : F32.float) (CelData : ptr Z)
    (n : nat) (X Source Dest : Z) (DestTexture : texture) : effect :=
  match n with
  | O => (DestTexture, Ok tt)
  | S n' =>
      if X + DestX <? 0 then
        AsepriteFrame_row_effect LayerIndex BlendMode LayerOpacity CelData
          n' (X + 1) Source Dest DestTexture
      else if X + DestX >=? DestWidth then (DestTexture, Ok tt)
      else
        match FetchSourceColor (ColorDepth File)
                (TransparentPaletteEntry File) (Palette File)
                CelData Source with
        | Err e => (DestTexture, Err e)
        | Ok (SourceColor, Source) =>
            let SourceColor := ApplyLayerOpacity LayerOpacity SourceColor in
            match load_px DestTexture Dest with
            | Err e => (DestTexture, Err e)
            | Ok Old =>
                match store_px DestTexture Dest
                        (ComposePixel LayerIndex BlendMode SourceColor Old)
                with
                | Err e => (DestTexture, Err e)
                | Ok DestTexture =>
                    AsepriteFrame_row_effect LayerIndex BlendMode
                      LayerOpacity CelData n' (X + 1) Source (Dest + 4)
                      DestTexture
                end
            end
        end
  end.

(** The loop over [Y], lines 777-830. *)
Fixpoint AsepriteFrame_rows_effect (LayerIndex BlendMode : Z)
    (LayerOpacity : F32.float) (CelData : ptr Z)
    (DestPitch DestStartX DataPitch StartY StartX : Z)
    (n : nat) (Y : Z) (DestTexture : texture) : effect :=
  match n with
  | O => (DestTexture, Ok tt)
  | S n' =>
      if Y + DestY <? 0 then
        AsepriteFrame_rows_effect LayerIndex BlendMode LayerOpacity CelData
          DestPitch DestStartX DataPitch StartY StartX n' (Y + 1) DestTexture
      else if Y + DestY >=? DestHeight then (DestTexture, Ok tt)
      else
        let Dest := (DestY + Y) * DestPitch + DestStartX in
        let Source := (StartY + Y) * DataPitch + StartX in
        let Width := hdr_WidthInPixels (file_Header File) in
        match AsepriteFrame_row_effect LayerIndex BlendMode LayerOpacity
                CelData (Z.to_nat Width) 0 Source Dest DestTexture with
        | (DestTexture, Err e) => (DestTexture, Err e)
        | (DestTexture, Ok _) =>
            AsepriteFrame_rows_effect LayerIndex BlendMode LayerOpacity
              CelData DestPitch DestStartX DataPitch StartY StartX
              n' (Y + 1) DestTexture
        end
  end.

(** The body of the loop over the layers, lines 759-830, for a layer
    that is not skipped: nothing is written before the loop over [Y]. *)
Definition AsepriteFrame_layer_effect (FrameNumber LayerIndex : Z)
    (LayerInfo : aseprite_layer_info) (DestTexture : texture) : effect :=
  let BlendMode := lh_BlendMode (info_Header LayerInfo) in
  let Setup :=
    let* Frame := load (file_Frames File) FrameNumber in
    let* Layers := deref (frame_Layers Frame) in
    let* Layer := load Layers LayerIndex in
    let* DataWidth := initialised (layer_DataWidth Layer) in
    let* Header := initialised (layer_Header Layer) in
    Ok (layer_Data Layer, DataWidth, Header) in
  match Setup with
  | Err e => (DestTexture, Err e)
  | Ok (CelData, DataWidth, Header) =>
      let LayerOpacity :=
        LayerOpacity_of (lh_Opacity (info_Header LayerInfo)) in
      let DestPitch := DestWidth * 4 in
      let DestStartX := if DestX <? 0 then 0 else DestX * 4 in
      let DataPitch :=
        if ColorDepth File =? 32 then DataWidth * 4 else DataWidth in
      let StartY := 0 - cel_YPos Header in
      let StartX := 0 - cel_XPos Header in
      let StartX := if ColorDepth File =? 32 then StartX * 4 else StartX in
      let Height := hdr_HeightInPixels (file_Header File) in
      AsepriteFrame_rows_effect LayerIndex BlendMode LayerOpacity CelData
        DestPitch DestStartX DataPitch StartY StartX
        (Z.to_nat Height) 0 DestTexture
  end.

(** The loop over the layers, lines 753-831. *)
Fixpoint AsepriteFrame_layers_effect (FrameNumber : Z) (n : nat)
    (LayerIndex : Z) (DestTexture : texture) : effect :=
  match n with
  | O => (DestTexture, Ok tt)
  | S n' =>
      match (let* Slot := load (file_LayerInfo File) LayerIndex in
             initialised Slot) with
      | Err e => (DestTexture, Err e)
      | Ok LayerInfo =>
          match (if layer_skipped LayerInfo then (DestTexture, Ok tt)
                 else AsepriteFrame_layer_effect FrameNumber LayerIndex
                        LayerInfo DestTexture) with
          | (DestTexture, Err e) => (DestTexture, Err e)
          | (DestTexture, Ok _) =>
              AsepriteFrame_layers_effect FrameNumber n' (LayerIndex + 1)
                DestTexture
          end
      end
  end.

(** [AsepriteGetEntireFrameRGBA], lines 742-832: the assertion is the
    first statement of the body. *)
Definition AsepriteGetEntireFrameRGBA_effect (FrameNumber : Z)
    (DestTexture : texture) : effect :=
  match Assert (FrameNumber <? file_NumFrames File) with
  | Err e => (DestTexture, Err e)
  | Ok _ =>
      AsepriteFrame_layers_effect FrameNumber
        (Z.to_nat (file_NumLayers File)) 0 DestTexture
  end.

End CompositorEffect.

(** What a caller that only looks at a call that returned sees of an
    effect. *)
Definition returned (e : effect) : outcome texture :=
  match e with
  | (DestTexture, Ok _) => Ok DestTexture
  | (_, Err e) => Err e
  end.


(** ** Notions the spec uses *)

(** The bottommost visible layer: the first layer descriptor, in ascending
    order, that the compositor does not skip. *)
Fixpoint first_visible (LayerInfo : list (option aseprite_layer_info))
    (LayerIndex : Z) : option Z :=
  match LayerInfo with
  | [] => None
  | Some Info :: rest =>
      if layer_skipped Info then first_visible rest (LayerIndex + 1)
      else Some LayerIndex
  | None :: rest => first_visible rest (LayerIndex + 1)
  end.

Definition bottommost_visible_layer (File : aseprite_file) : option Z :=
  first_visible (take (Z.to_nat (file_NumLayers File)) (file_LayerInfo File)) 0.

(** The type codes the [switch] of [AsepriteParseChunk] lists. *)
Definition recognised_chunk_types : list Z :=
  [AsepriteChunk_OldPalette; AsepriteChunk_OldPalette2; AsepriteChunk_Layer;
   AsepriteChunk_Cel; AsepriteChunk_Mask; AsepriteChunk_Path;
   AsepriteChunk_FrameTags; AsepriteChunk_Palette; AsepriteChunk_UserData].

(** ** The steps of a parse *)

Section Steps.
Variable FileData : list Z.
Variable tinfl_decompress_mem_to_heap : list Z -> option (list Z).

(** What [AsepriteParseFile] does between the header and its return, one
    move at a time: a chunk is dispatched, a frame header is read, or the
    frame loop goes on to the next element of the frame array. *)
Inductive parser_step : parse_state -> parse_state -> Prop :=
| step_chunk File Frame Parser s' :
    AsepriteParseChunk FileData tinfl_decompress_mem_to_heap
      File Frame Parser = Ok s' ->
    parser_step (File, Frame, Parser) s'
| step_frame_header File Frame Parser FrameHeader :
    read_aseprite_frame_header FileData (At Parser) = Ok FrameHeader ->
    parser_step (File, Frame, Parser)
      (File,
       {| frame_Header := Some FrameHeader;
          frame_NumLayers := frame_NumLayers Frame;
          frame_Layers := frame_Layers Frame |},
       set_At Parser (At Parser + sizeof_aseprite_frame_header))
| step_next_frame File Frame Parser FrameIndex Frames Frame' :
    store (file_Frames File) FrameIndex Frame = Ok Frames ->
    load Frames (FrameIndex + 1) = Ok Frame' ->
    parser_step (File, Frame, Parser)
      (set_Frames File Frames, Frame', Parser).

(** The chunk type at the cursor. *)
Definition chunk_type_at (s : parse_state) : outcome Z :=
  let* ChunkHeader := read_aseprite_chunk_header FileData (At (s.2)) in
  Ok (ch_ChunkType ChunkHeader).
End Steps.

(** A chunk step on a state. *)
Definition chunk_step (FileData : list Z)
    (tinfl_decompress_mem_to_heap : list Z -> option (list Z))
    (s : parse_state) : outcome parse_state :=
  let '(File, Frame, Parser) := s in
  AsepriteParseChunk FileData tinfl_decompress_mem_to_heap File Frame Parser.

Definition state_File (s : parse_state) : aseprite_file := s.1.1.
Definition state_Parser (s : parse_state) : aseprite_parser := s.2.

(** While no modern palette chunk has been seen, the palette table is
    either not allocated yet or the 256-entry table of the legacy
    decoder. *)
Definition legacy_table (s : parse_state) : Prop :=
  UsesNewPalette (state_Parser s) = false ->
  forall Colors,
    pal_Colors (file_Palette (state_File s)) = Block Colors ->
    length Colors = 256%nat.

(** ** Sample inputs *)

(** An inflater that rejects every stream; the samples hold raw cels only. *)
Definition no_inflate : list Z -> option (list Z) := fun _ => None.

(** Fresh frame memory whose layer count reads as -1. *)
Definition junk_NumLayers : nat -> Z := fun _ => -1.

(** The frame array element as the parser first meets it. *)
Definition junk_frame : aseprite_frame :=
  {| frame_Header := None; frame_NumLayers := -1; frame_Layers := Wild |}.

(** The all-zero pixel. *)
Definition zero_px : rgba8 := {| px_r := 0; px_g := 0; px_b := 0; px_a := 0 |}.

(** Encoders for the packed structures of the format, to write sample
    files down field by field. *)
Definition le16 (n : Z) : list Z := [n mod 256; n / 256 mod 256].
Definition le32 (n : Z) : list Z := le16 (n mod 65536) ++ le16 (n / 65536).
Definition zeros (n : nat) : list Z := replicate n 0.
Definition len {T} (l : list T) : Z := Z.of_nat (length l).

(** [aseprite_header]: one frame unless said otherwise, speed 100. *)
Definition sample_header (Frames Width Height Depth : Z) : list Z :=
  le32 0 ++ le16 0xA5E0 ++ le16 Frames ++ le16 Width ++ le16 Height
  ++ le16 Depth ++ le32 0 ++ le16 100 ++ zeros 8 ++ [0] ++ zeros 3
  ++ le16 0 ++ zeros 94.

(** [aseprite_frame_header] followed by the chunks of the frame. *)
Definition sample_frame (chunks : list (list Z)) : list Z :=
  let body := concat chunks in
  le32 (16 + len body) ++ le16 0xF1FA ++ le16 (len chunks) ++ le16 100
  ++ zeros 6 ++ body.

(** [aseprite_chunk_header] followed by the payload. *)
Definition sample_chunk (ChunkType : Z) (payload : list Z) : list Z :=
  le32 (6 + len payload) ++ le16 ChunkType ++ payload.

(** [aseprite_layer_header] and the layer name. *)
Definition sample_layer (Flags BlendMode Opacity : Z) (name : list Z)
  : list Z :=
  le16 Flags ++ le16 0 ++ le16 0 ++ le16 0 ++ le16 0 ++ le16 BlendMode
  ++ [Opacity] ++ zeros 3 ++ le16 (len name) ++ name.

(** [aseprite_cel_header] of a raw cel, its dimensions and its pixels. *)
Definition sample_raw_cel (LayerIndex XPos YPos Width Height : Z)
    (pixels : list Z) : list Z :=
  le16 LayerIndex ++ le16 (XPos mod 65536) ++ le16 (YPos mod 65536)
  ++ [255] ++ le16 AsepriteCelType_Raw ++ zeros 7
  ++ le16 Width ++ le16 Height ++ pixels.

(** A legacy palette payload of one packet. *)
Definition sample_old_palette (StartIndex : Z) (colors : list (Z * Z * Z))
  : list Z :=
  le16 1 ++ [StartIndex; len colors mod 256]
  ++ concat (map (fun '(r, g, b) => [r; g; b]) colors).

(** A modern palette payload: header and entries; an entry with a name
    has flag 1 and the name after it. *)
Definition sample_palette_entry (color : Z * Z * Z * Z)
    (name : option (list Z)) : list Z :=
  let '(r, g, b, a) := color in
  match name with
  | None => le16 0 ++ [r; g; b; a]
  | Some text => le16 1 ++ [r; g; b; a] ++ le16 (len text) ++ text
  end.

Definition sample_palette (NewPaletteSize First Last : Z)
    (entries : list (list Z)) : list Z :=
  le32 NewPaletteSize ++ le32 First ++ le32 Last ++ zeros 8 ++ concat entries.

(** A 1x1 document in 32-bit colour with one frame: layer 0 "bg" hidden
    (flags 0), layer 1 "fg" visible with normal blend and full opacity, and
    one raw 1x1 cel for layer 1 holding the pixel (255, 0, 0, 128). *)
Definition hidden_bottom_file : list Z :=
  sample_header 1 1 1 32
  ++ sample_frame
       [sample_chunk AsepriteChunk_Layer (sample_layer 0 0 255 [98; 103]);
        sample_chunk AsepriteChunk_Layer (sample_layer 1 0 255 [102; 103]);
        sample_chunk AsepriteChunk_Cel
          (sample_raw_cel 1 0 0 1 1 [255; 0; 0; 128])].

(** A 1x1 indexed document whose only chunk has type 0x0011 and holds one
    legacy palette packet: start 0, one colour (10, 20, 30). *)
Definition old_palette2_file : list Z :=
  sample_header 1 1 1 8
  ++ sample_frame
       [sample_chunk AsepriteChunk_OldPalette2
          (sample_old_palette 0 [(10, 20, 30)])].

(** The same document with chunk type 0x0004. *)
Definition old_palette_file : list Z :=
  sample_header 1 1 1 8
  ++ sample_frame
       [sample_chunk AsepriteChunk_OldPalette
          (sample_old_palette 0 [(10, 20, 30)])].

(** A modern palette chunk (size 2, indices 0 to 1: (1, 2, 3, 255) and
    (4, 5, 6, 255), the second one named "ab"), then the legacy chunk of
    [old_palette_file]. *)
Definition modern_then_legacy_file : list Z :=
  sample_header 1 1 1 8
  ++ sample_frame
       [sample_chunk AsepriteChunk_Palette
          (sample_palette 2 0 1
             [sample_palette_entry (1, 2, 3, 255) None;
              sample_palette_entry (4, 5, 6, 255) (Some [97; 98])]);
        sample_chunk AsepriteChunk_OldPalette
          (sample_old_palette 0 [(10, 20, 30)])].

(** Two modern palette chunks: the first sets a palette of size 2 to
    (1, 2, 3, 255) and (4, 5, 6, 255); the second declares size 2 again
    and changes index 1 only, to (7, 8, 9, 255). *)
Definition partial_update_file : list Z :=
  sample_header 1 1 1 8
  ++ sample_frame
       [sample_chunk AsepriteChunk_Palette
          (sample_palette 2 0 1
             [sample_palette_entry (1, 2, 3, 255) None;
              sample_palette_entry (4, 5, 6, 255) None]);
        sample_chunk AsepriteChunk_Palette
          (sample_palette 2 1 1
             [sample_palette_entry (7, 8, 9, 255) None])].

(** The state of [AsepriteParseFile] on [modern_then_legacy_file] once the
    frame header is read: the cursor stands at the first chunk, offset
    144. *)
Definition modern_then_legacy_start : parse_state :=
  ({| file_Header :=
        {| hdr_FileSize := 0; hdr_MagicNumber := 42464; hdr_Frames := 1;
           hdr_WidthInPixels := 1; hdr_HeightInPixels := 1;
           hdr_ColorDepth := 8; hdr_Flags := 0; hdr_Speed := 100;
           hdr_TransparentPaletteEntry := 0; hdr_NumberOfColors := 0 |};
      file_NumFrames := 1;
      file_Frames := [junk_frame];
      file_Palette := {| pal_Header := None; pal_NumColors := None;
                         pal_Colors := Wild |};
      file_NumLayers := 0;
      file_LayerInfo := [None; None] |},
   {| frame_Header :=
        Some {| fh_BytesInFrame := 71; fh_MagicNumber := 61946;
                fh_ChunksInFrame := 2; fh_FrameDuration := 100 |};
      frame_NumLayers := -1; frame_Layers := Wild |},
   {| At := 144; AvailableLayers := 2; UsesNewPalette := false |}).

(** A document with the two layers of [hidden_bottom_file]. *)
Definition two_layers_doc : aseprite_file :=
  let layer flags name :=
    Some {| info_Header :=
              {| lh_Flags := flags; lh_LayerType := 0; lh_LayerChild := 0;
                 lh_DefaultLayerWidthInPixels := 0;
                 lh_DefaultLayerHeightInPixels := 0;
                 lh_BlendMode := 0; lh_Opacity := 255 |};
            info_Name := name |} in
  {| file_Header :=
       {| hdr_FileSize := 0; hdr_MagicNumber := 42464; hdr_Frames := 1;
          hdr_WidthInPixels := 1; hdr_HeightInPixels := 1;
          hdr_ColorDepth := 32; hdr_Flags := 0; hdr_Speed := 100;
          hdr_TransparentPaletteEntry := 0; hdr_NumberOfColors := 0 |};
     file_NumFrames := 1;
     file_Frames := [junk_frame];
     file_Palette := {| pal_Header := None; pal_NumColors := None;
                        pal_Colors := Wild |};
     file_NumLayers := 2;
     file_LayerInfo := [layer 0 [98; 103; 0]; layer 1 [102; 103; 0]] |}.

(** The parser of [hidden_bottom_file] at its cel chunk, offset 196. *)
Definition at_cel_chunk : aseprite_parser :=
  {| At := 196; AvailableLayers := 2; UsesNewPalette := false |}.

(** The state of [AsepriteParseFile] on [partial_update_file] once the
    frame header is read. *)
Definition partial_update_start : parse_state :=
  (state_File modern_then_legacy_start,
   {| frame_Header :=
        Some {| fh_BytesInFrame := 86; fh_MagicNumber := 61946;
                fh_ChunksInFrame := 2; fh_FrameDuration := 100 |};
      frame_NumLayers := -1; frame_Layers := Wild |},
   {| At := 144; AvailableLayers := 2; UsesNewPalette := false |}).

(** A 2x1 document in 32-bit colour with one visible layer and one raw cel
    at offset (0, 0) that is 1 pixel wide and 2 pixels high: (255, 0, 0, 255)
    above (0, 0, 255, 255).  The cel covers column 0 of the canvas only. *)
Definition narrow_cel_file : list Z :=
  sample_header 1 2 1 32
  ++ sample_frame
       [sample_chunk AsepriteChunk_Layer (sample_layer 1 0 255 [76]);
        sample_chunk AsepriteChunk_Cel
          (sample_raw_cel 0 0 0 1 2 [255; 0; 0; 255; 0; 0; 255; 255])].

(** A 2x1 document in 32-bit colour with one visible layer and one raw 1x1
    cel at offset (1, 0) holding (255, 0, 0, 255): the cel covers column 1
    of the canvas only. *)
Definition offset_cel_file : list Z :=
  sample_header 1 2 1 32
  ++ sample_frame
       [sample_chunk AsepriteChunk_Layer (sample_layer 1 0 255 [76]);
        sample_chunk AsepriteChunk_Cel
          (sample_raw_cel 0 1 0 1 1 [255; 0; 0; 255])].

(** ** Decidable equality of colours, for checks by computation *)

#[local] Instance spec_float_eq_dec : EqDecision spec_float.
Proof. solve_decision. Defined.

#[local] Instance aseprite_color_eq_dec : EqDecision aseprite_color.
Proof. solve_decision. Defined.

#[local] Instance rgba8_eq_dec : EqDecision rgba8.
Proof. solve_decision. Defined.


(** ** Invariants of the document under construction *)

(** The layer table: as many cells as the parser has allocated, the
    descriptors in the first [NumLayers] of them. *)
Definition layer_table_ok (File : aseprite_file) (Parser : aseprite_parser)
  : Prop :=
  Z.of_nat (length (file_LayerInfo File)) = AvailableLayers Parser /\
  0 <= file_NumLayers File <= AvailableLayers Parser /\
  0 < AvailableLayers Parser /\
  forall i, 0 <= i < file_NumLayers File ->
    exists LayerInfo, load (file_LayerInfo File) i = Ok (Some LayerInfo).

(** The frame array: as many frames as the header declares. *)
Definition frames_ok (File : aseprite_file) : Prop :=
  file_NumFrames File = hdr_Frames (file_Header File) /\
  length (file_Frames File) = Z.to_nat (file_NumFrames File).

(** The cel array of a frame, once allocated, has the frame's recorded
    number of cells. *)
Definition cels_ok (Frame : aseprite_frame) : Prop :=
  forall Layers,
    frame_Layers Frame = Block Layers ->
    Z.of_nat (length Layers) = frame_NumLayers Frame.

(** Where [n] chunks end, going by their declared sizes alone. *)
Fixpoint chunks_end (FileData : list Z) (n : nat) (At : Z) : outcome Z :=
  match n with
  | O => Ok At
  | S n' =>
      let* ChunkHeader := read_aseprite_chunk_header FileData At in
      chunks_end FileData n' (At + ch_ChunkSize ChunkHeader)
  end.

(** A byte as a normalised channel. *)
Definition channel_of_byte (b : Z) : F32.float :=
  (F32.of_Z b / F32.f255)%f32.

(** The palette as the parser leaves it: with a modern palette chunk seen,
    the header of the last one, its declared size converted to [int] as
    the colour count, and a table of the declared size; without one,
    neither the header nor the colour count was ever written. *)
Definition palette_ok (File : aseprite_file) (Parser : aseprite_parser)
  : Prop :=
  if UsesNewPalette Parser then
    exists PaletteHeader Colors,
      pal_Header (file_Palette File) = Some PaletteHeader /\
      pal_NumColors (file_Palette File)
      = Some (to_int (ph_NewPaletteSize PaletteHeader)) /\
      pal_Colors (file_Palette File) = Block Colors /\
      length Colors = Z.to_nat (ph_NewPaletteSize PaletteHeader)
  else
    pal_Header (file_Palette File) = None /\
    pal_NumColors (file_Palette File) = None.

(** Every frame of the array from [FrameIndex] on, [n] of them, has its
    header. *)
Definition frames_read (Frames : list aseprite_frame) (FrameIndex : Z)
    (n : nat) : Prop :=
  forall i, FrameIndex <= i < FrameIndex + Z.of_nat n ->
    exists Frame FrameHeader,
      load Frames i = Ok Frame /\ frame_Header Frame = Some FrameHeader.

(** The layer table of [s'] extends the one of [s]. *)
Definition extends_layers (s s' : parse_state) : Prop :=
  file_NumLayers (state_File s) <= file_NumLayers (state_File s') /\
  forall i, 0 <= i < file_NumLayers (state_File s) ->
    load (file_LayerInfo (state_File s')) i
    = load (file_LayerInfo (state_File s)) i.

(** ** Further sample inputs *)

(** [aseprite_cel_header] with a given cel type, at offset (0, 0), and
    what follows it in the chunk. *)
Definition sample_cel (LayerIndex CelType : Z) (rest : list Z) : list Z :=
  le16 LayerIndex ++ le16 0 ++ le16 0 ++ [255] ++ le16 CelType ++ zeros 7
  ++ rest.

(** A frame whose cel array has one cell that nobody wrote. *)
Definition one_cell_frame : aseprite_frame :=
  {| frame_Header := None; frame_NumLayers := 1;
     frame_Layers := Block [fresh_layer] |}.

(** A frame whose one cel is a raw 1x1 cel holding (9, 8, 7, 6). *)
Definition one_cel_frame : aseprite_frame :=
  {| frame_Header := None; frame_NumLayers := 1;
     frame_Layers :=
       Block [{| layer_Header :=
                   Some {| cel_LayerIndex := 0; cel_XPos := 0; cel_YPos := 0;
                           cel_Opacity := 255; cel_CelType := 0 |};
                 layer_DataWidth := Some 1; layer_DataHeight := Some 1;
                 layer_Data := Block [9; 8; 7; 6] |}] |}.

(** An inflater for the samples: it answers a stream that starts with the
    byte 120 with the four bytes (1, 2, 3, 4) and rejects any other. *)
Definition sample_inflate (Compressed : list Z) : option (list Z) :=
  match Compressed with
  | 120 :: _ => Some [1; 2; 3; 4]
  | _ => None
  end.

(** A two-frame 1x1 document in 32-bit colour: a visible layer and a raw
    cel in the first frame, a linked cel in the second. *)
Definition two_frames_file : list Z :=
  sample_header 2 1 1 32
  ++ sample_frame
       [sample_chunk AsepriteChunk_Layer (sample_layer 1 0 255 [76]);
        sample_chunk AsepriteChunk_Cel
          (sample_raw_cel 0 0 0 1 1 [255; 0; 0; 255])]
  ++ sample_frame
       [sample_chunk AsepriteChunk_Cel
          (sample_cel 0 AsepriteCelType_Linked (le16 0))].

(** A 1x1 document with three layers, the third one read when the table
    of two cells is full. *)
Definition three_layers_file : list Z :=
  sample_header 1 1 1 32
  ++ sample_frame
       [sample_chunk AsepriteChunk_Layer (sample_layer 1 0 255 [97]);
        sample_chunk AsepriteChunk_Layer (sample_layer 1 0 255 [98]);
        sample_chunk AsepriteChunk_Layer (sample_layer 0 0 255 [99])].

(** Where [n] frames end, going by the chunk counts of the frame headers
    and the declared chunk sizes alone. *)
Fixpoint frames_end (FileData : list Z) (n : nat) (At : Z) : outcome Z :=
  match n with
  | O => Ok At
  | S n' =>
      let* FrameHeader := read_aseprite_frame_header FileData At in
      let* At :=
        chunks_end FileData (Z.to_nat (fh_ChunksInFrame FrameHeader))
          (At + sizeof_aseprite_frame_header) in
      frames_end FileData n' At
  end.

(** ** Checks over all bytes, by computation *)

(** The 256 bytes with their channels. *)
Definition byte_channels : list (Z * F32.float) :=
  map (fun b => (b, channel_of_byte b)) (seqZ 0 256).

Definition for_bytes (P : Z -> F32.float -> bool) : bool :=
  forallb (fun '(b, f) => P b f) byte_channels.

Definition for_byte_pairs (P : Z -> F32.float -> Z -> F32.float -> bool)
  : bool :=
  let table := byte_channels in
  forallb (fun '(a, fa) => forallb (fun '(b, fb) => P a fa b fb) table) table.

(** The composited channel when the source is opaque: the destination
    term is zero, the output alpha and its reciprocal are one. *)
Definition opaque_channel (blend : F32.float) : F32.float :=
  ((blend * F32.one + F32.zero) * F32.one)%f32.

(** A float that is zero or positive and finite. *)
Definition finite_nonneg (x : F32.float) : bool :=
  match x with
  | S754_zero false | S754_finite false _ _ => true
  | _ => false
  end.

(** ** Pixels of cel data *)

(** The pixel of four bytes at a byte offset of cel data. *)
Definition pixel_at (Cells : list Z) (Source : Z) : outcome rgba8 :=
  let* r := read_u8 Cells Source in
  let* g := read_u8 Cells (Source + 1) in
  let* b := read_u8 Cells (Source + 2) in
  let* a := read_u8 Cells (Source + 3) in
  Ok {| px_r := r; px_g := g; px_b := b; px_a := a |}.

(** A document whose layers are all hidden: the two layers of
    [two_layers_doc] with the visible flag cleared on both. *)
Definition hidden_layers_doc : aseprite_file :=
  let layer name :=
    Some {| info_Header :=
              {| lh_Flags := 0; lh_LayerType := 0; lh_LayerChild := 0;
                 lh_DefaultLayerWidthInPixels := 0;
                 lh_DefaultLayerHeightInPixels := 0;
                 lh_BlendMode := 0; lh_Opacity := 255 |};
            info_Name := name |} in
  {| file_Header := file_Header two_layers_doc;
     file_NumFrames := 1;
     file_Frames := [junk_frame];
     file_Palette := file_Palette two_layers_doc;
     file_NumLayers := 2;
     file_LayerInfo := [layer [98; 0]; layer [102; 0]] |}.

(** A 2x2 document in 32-bit colour with one visible layer at full
    opacity and a raw 2x2 cel at (0, 0) that covers the canvas. *)
Definition full_cel_file : list Z :=
  sample_header 1 2 2 32
  ++ sample_frame
       [sample_chunk AsepriteChunk_Layer (sample_layer 1 0 255 [76]);
        sample_chunk AsepriteChunk_Cel
          (sample_raw_cel 0 0 0 2 2
             [0; 1; 2; 3; 10; 11; 12; 13; 20; 21; 22; 23; 30; 31; 32; 33])].

(** A destination of [n] pixels, all (9, 9, 9, 9). *)
Definition grey_texture (n : nat) : texture :=
  replicate n {| px_r := 9; px_g := 9; px_b := 9; px_a := 9 |}.

(** A parsed 1x1 document in 32-bit colour: one visible layer at full
    opacity and one frame, [one_cel_frame]. *)
Definition one_layer_doc : aseprite_file :=
  {| file_Header := file_Header two_layers_doc;
     file_NumFrames := 1;
     file_Frames := [one_cel_frame];
     file_Palette := file_Palette two_layers_doc;
     file_NumLayers := 1;
     file_LayerInfo :=
       [Some {| info_Header :=
                  {| lh_Flags := 1; lh_LayerType := 0; lh_LayerChild := 0;
                     lh_DefaultLayerWidthInPixels := 0;
                     lh_DefaultLayerHeightInPixels := 0;
                     lh_BlendMode := 0; lh_Opacity := 255 |};
                info_Name := [76; 0] |}; None] |}.

(** The document [AsepriteParseFile] makes of [full_cel_file]. *)
Definition full_cel_doc : aseprite_file :=
  Eval vm_compute in
    match AsepriteParseFile full_cel_file no_inflate junk_NumLayers with
    | Ok File => File
    | Err _ => one_layer_doc
    end.

(** ** What the compositor reads *)

(** A cel, a frame and a document with everything blanked that the
    compositor has no use for: of a cel it keeps the position, the width
    and the data; of a frame the cel array; of the document everything but
    the frames. *)
Definition strip_layer (Layer : aseprite_layer) : aseprite_layer :=
  {| layer_Header :=
       (fun Header =>
          {| cel_LayerIndex := 0; cel_XPos := cel_XPos Header;
             cel_YPos := cel_YPos Header; cel_Opacity := 0;
             cel_CelType := 0 |}) <$> layer_Header Layer;
     layer_DataWidth := layer_DataWidth Layer;
     layer_DataHeight := None;
     layer_Data := layer_Data Layer |}.

Definition strip_frame (Frame : aseprite_frame) : aseprite_frame :=
  {| frame_Header := None;
     frame_NumLayers := 0;
     frame_Layers :=
       match frame_Layers Frame with
       | Block Layers => Block (map strip_layer Layers)
       | Null => Null
       | Wild => Wild
       end |}.

Definition strip_file (File : aseprite_file) : aseprite_file :=
  set_Frames File (map strip_frame (file_Frames File)).

(** ** The cel types *)

(** The [switch] on the cel type in [AsepriteParseCel], lines 395-446:
    the cel that goes into the slot of the layer index, [Old] being what
    the slot held and [ChunkData] standing after the cel header. *)
Definition cel_of_type (FileData : list Z)
    (tinfl_decompress_mem_to_heap : list Z -> option (list Z))
    (CelHeader : aseprite_cel_header) (Old : aseprite_layer)
    (ChunkData ChunkLength : Z) : outcome aseprite_layer :=
  if cel_CelType CelHeader =? AsepriteCelType_Raw then
    let* WidthInPixels := read_u16 FileData ChunkData in
    let* HeightInPixels := read_u16 FileData (ChunkData + 2) in
    let ChunkData := ChunkData + 4 in
    let DataSize := cel_DataSize ChunkLength in
    if DataSize <? 0 then Err BadPointer else
    let* Data := read_bytes FileData ChunkData (Z.to_nat DataSize) in
    Ok {| layer_Header := Some CelHeader;
          layer_DataWidth := Some WidthInPixels;
          layer_DataHeight := Some HeightInPixels;
          layer_Data := Block Data |}
  else if cel_CelType CelHeader =? AsepriteCelType_Compressed then
    let* WidthInPixels := read_u16 FileData ChunkData in
    let* HeightInPixels := read_u16 FileData (ChunkData + 2) in
    let ChunkData := ChunkData + 4 in
    let DataSize := cel_DataSize ChunkLength in
    if DataSize <? 0 then Err OutOfBounds else
    let* Compressed := read_bytes FileData ChunkData (Z.to_nat DataSize) in
    Ok {| layer_Header := Some CelHeader;
          layer_DataWidth := Some WidthInPixels;
          layer_DataHeight := Some HeightInPixels;
          layer_Data :=
            match tinfl_decompress_mem_to_heap Compressed with
            | Some Data => Block Data
            | None => Null
            end |}
  else
    Ok {| layer_Header := Some CelHeader;
          layer_DataWidth := layer_DataWidth Old;
          layer_DataHeight := layer_DataHeight Old;
          layer_Data := layer_Data Old |}.

(** ** The legacy palette, entry by entry *)

(** Where the colour of entry [i] comes from after [n] packets that start
    at [ChunkData]: the offset of its three bytes in the last packet whose
    range [start, start + count) holds [i], a count byte of 0 standing for
    256; nothing when no packet names the index. *)
Fixpoint legacy_source (FileData : list Z) (n : nat) (ChunkData i : Z)
  : outcome (option Z) :=
  match n with
  | O => Ok None
  | S n' =>
      let* StartIndex := read_u8 FileData ChunkData in
      let* NumColors := read_u8 FileData (ChunkData + 1) in
      let count := if NumColors =? 0 then 256 else NumColors in
      let* later :=
        legacy_source FileData n' (ChunkData + 2 + 3 * count) i in
      match later with
      | Some Source => Ok (Some Source)
      | None =>
          if (StartIndex <=? i) && (i <? StartIndex + count)
          then Ok (Some (ChunkData + 2 + 3 * (i - StartIndex)))
          else Ok None
      end
  end.

(** The colour of three bytes at an offset of the file, alpha 255. *)
Definition legacy_color (FileData : list Z) (Source : Z)
  : outcome aseprite_color :=
  let* Red := read_u8 FileData Source in
  let* Green := read_u8 FileData (Source + 1) in
  let* Blue := read_u8 FileData (Source + 2) in
  Ok (AsepriteColorFromR8G8B8A8 Red Green Blue 255).

(** What entry [i] of the table of a legacy chunk holds. *)
Definition legacy_entry (FileData : list Z) (n : nat) (ChunkData i : Z)
  : outcome (option aseprite_color) :=
  let* Source := legacy_source FileData n ChunkData i in
  match Source with
  | Some Source =>
      let* Color := legacy_color FileData Source in Ok (Some Color)
  | None => Ok None
  end.

(** The document has a palette table of 256 entries. *)
Definition has_legacy_table (File : aseprite_file) : Prop :=
  exists Colors,
    pal_Colors (file_Palette File) = Block Colors /\
    length Colors = 256%nat.

(** ** The chunk types of a file *)

(** The type codes of [n] chunks from [At] on, going by the declared
    sizes, and where the last one ends. *)
Fixpoint chunk_types (FileData : list Z) (n : nat) (At : Z)
  : outcome (list Z * Z) :=
  match n with
  | O => Ok ([], At)
  | S n' =>
      let* ChunkHeader := read_aseprite_chunk_header FileData At in
      let* (types, End) :=
        chunk_types FileData n' (At + ch_ChunkSize ChunkHeader) in
      Ok (ch_ChunkType ChunkHeader :: types, End)
  end.

(** The type codes of the chunks of [n] frames from [At] on. *)
Fixpoint frame_chunk_types (FileData : list Z) (n : nat) (At : Z)
  : outcome (list Z * Z) :=
  match n with
  | O => Ok ([], At)
  | S n' =>
      let* FrameHeader := read_aseprite_frame_header FileData At in
      let* (types, End) :=
        chunk_types FileData (Z.to_nat (fh_ChunksInFrame FrameHeader))
          (At + sizeof_aseprite_frame_header) in
      let* (rest, End) := frame_chunk_types FileData n' End in
      Ok (types ++ rest, End)
  end.

(** The type codes of all chunks of a file, in file order. *)
Definition file_chunk_types (FileData : list Z) : outcome (list Z) :=
  let* Header := read_aseprite_header FileData 0 in
  let* (types, _) :=
    frame_chunk_types FileData (Z.to_nat (hdr_Frames Header))
      sizeof_aseprite_header in
  Ok types.

(** ** Sample inputs for the palettes and the pixel loop *)

(** [sample_header] with a transparent palette entry. *)
Definition sample_header_transparent
    (Frames Width Height Depth Transparent : Z) : list Z :=
  le32 0 ++ le16 0xA5E0 ++ le16 Frames ++ le16 Width ++ le16 Height
  ++ le16 Depth ++ le32 0 ++ le16 100 ++ zeros 8 ++ [Transparent] ++ zeros 3
  ++ le16 0 ++ zeros 94.

(** A legacy palette payload of two packets that overlap: entries 1 to 3
    get (1, 1, 1), (2, 2, 2) and (3, 3, 3), then entries 2 to 3 get
    (20, 20, 20) and (30, 30, 30). *)
Definition two_packets : list Z :=
  le16 2 ++ [1; 3] ++ [1; 1; 1; 2; 2; 2; 3; 3; 3]
  ++ [2; 2] ++ [20; 20; 20; 30; 30; 30].

(** A 1x1 indexed document with one legacy palette chunk of type 0x0004
    that holds [two_packets], followed by a user data chunk. *)
Definition two_packets_file : list Z :=
  sample_header 1 1 1 8
  ++ sample_frame
       [sample_chunk AsepriteChunk_OldPalette two_packets;
        sample_chunk AsepriteChunk_UserData [0; 0; 0; 0]].

(** The state of [AsepriteParseFile] on [two_packets_file] once the frame
    header is read. *)
Definition two_packets_start : parse_state :=
  (state_File modern_then_legacy_start,
   {| frame_Header :=
        Some {| fh_BytesInFrame := 53; fh_MagicNumber := 61946;
                fh_ChunksInFrame := 2; fh_FrameDuration := 100 |};
      frame_NumLayers := -1; frame_Layers := Wild |},
   {| At := 144; AvailableLayers := 2; UsesNewPalette := false |}).

(** A 2x1 indexed document with transparent index 3: a modern palette of
    four colours, the one at index 3 opaque, one visible layer and a raw
    2x1 cel with the indices 3 and 1. *)
Definition indexed_file : list Z :=
  sample_header_transparent 1 2 1 8 3
  ++ sample_frame
       [sample_chunk AsepriteChunk_Palette
          (sample_palette 4 0 3
             [sample_palette_entry (1, 1, 1, 255) None;
              sample_palette_entry (10, 20, 30, 255) None;
              sample_palette_entry (2, 2, 2, 255) None;
              sample_palette_entry (200, 100, 50, 255) None]);
        sample_chunk AsepriteChunk_Layer (sample_layer 1 0 255 [76]);
        sample_chunk AsepriteChunk_Cel (sample_raw_cel 0 0 0 2 1 [3; 1])].

(** The document [AsepriteParseFile] makes of [indexed_file]. *)
Definition indexed_doc : aseprite_file :=
  Eval vm_compute in
    match AsepriteParseFile indexed_file no_inflate junk_NumLayers with
    | Ok File => File
    | Err _ => one_layer_doc
    end.

(** A 1x1 document in 32-bit colour with two visible layers at full
    opacity and normal blend: the cel of layer 0 holds the opaque red
    pixel (255, 0, 0, 255), the cel of layer 1 the opaque green pixel
    (0, 255, 0, 255). *)
Definition green_over_red_file : list Z :=
  sample_header 1 1 1 32
  ++ sample_frame
       [sample_chunk AsepriteChunk_Layer (sample_layer 1 0 255 [98; 103]);
        sample_chunk AsepriteChunk_Layer (sample_layer 1 0 255 [102; 103]);
        sample_chunk AsepriteChunk_Cel
          (sample_raw_cel 0 0 0 1 1 [255; 0; 0; 255]);
        sample_chunk AsepriteChunk_Cel
          (sample_raw_cel 1 0 0 1 1 [0; 255; 0; 255])].

(** The same document with the layers the other way round: red on layer
    1 over green on layer 0. *)
Definition red_over_green_file : list Z :=
  sample_header 1 1 1 32
  ++ sample_frame
       [sample_chunk AsepriteChunk_Layer (sample_layer 1 0 255 [98; 103]);
        sample_chunk AsepriteChunk_Layer (sample_layer 1 0 255 [102; 103]);
        sample_chunk AsepriteChunk_Cel
          (sample_raw_cel 0 0 0 1 1 [0; 255; 0; 255]);
        sample_chunk AsepriteChunk_Cel
          (sample_raw_cel 1 0 0 1 1 [255; 0; 0; 255])].

(** The two layers of [green_over_red_file] as a document. *)
Definition two_visible_layers_doc : aseprite_file :=
  let layer name :=
    Some {| info_Header :=
              {| lh_Flags := 1; lh_LayerType := 0; lh_LayerChild := 0;
                 lh_DefaultLayerWidthInPixels := 0;
                 lh_DefaultLayerHeightInPixels := 0;
                 lh_BlendMode := 0; lh_Opacity := 255 |};
            info_Name := name |} in
  {| file_Header := file_Header two_layers_doc;
     file_NumFrames := 1;
     file_Frames := [junk_frame];
     file_Palette := file_Palette two_layers_doc;
     file_NumLayers := 2;
     file_LayerInfo := [layer [98; 103; 0]; layer [102; 103; 0]] |}.

(** The frame of [green_over_red_file] when its second cel chunk is
    dispatched: two cells, the cel of layer 0 decoded. *)
Definition red_cel_frame : aseprite_frame :=
  {| frame_Header := None; frame_NumLayers := 2;
     frame_Layers :=
       Block [{| layer_Header :=
                   Some {| cel_LayerIndex := 0; cel_XPos := 0; cel_YPos := 0;
                           cel_Opacity := 255; cel_CelType := 0 |};
                 layer_DataWidth := Some 1; layer_DataHeight := Some 1;
                 layer_Data := Block [255; 0; 0; 255] |};
              fresh_layer] |}.

(** The parser of [green_over_red_file] at its second cel chunk. *)
Definition at_second_cel : aseprite_parser :=
  {| At := 226; AvailableLayers := 2; UsesNewPalette := false |}.


(** * Properties *)

(** ** The outcome monad *)

Lemma bind_Ok {T U} (m : outcome T) (k : T -> outcome U) (u : U) :
  bind m k = Ok u -> exists v, m = Ok v /\ k v = Ok u.
Proof. destruct m as [v|e]; simpl; [eauto | discriminate]. Qed.

(** Inversion of a successful sequence of monadic steps. *)
Ltac inv_ok H :=
  repeat match type of H with
         | bind _ _ = Ok _ =>
             let v := fresh "v" in
             let Hv := fresh "Hv" in
             apply bind_Ok in H as (v & Hv & H); simpl in H
         end.

(** ** Colour arithmetic *)

Lemma ColorFromRGBA_zero :
  AsepriteColorFromRGBA F32.zero F32.zero F32.zero F32.zero = zero_color.
Proof. reflexivity. Qed.

(** The blended channel of each mode, by the names of the enumeration.
    The four modes from hue to luminosity (12 to 15), like every value the
    [switch] does not list, take the source channel as normal mode does. *)
Lemma BlendChannel_modes (s d : F32.float) :
  let one := F32.one in
  let two := F32.two in
  let half := F32.half in
  (BlendChannel AsepriteBlendMode_Normal s d = s /\
   BlendChannel AsepriteBlendMode_Multiply s d = s * d /\
   BlendChannel AsepriteBlendMode_Screen s d
   = one - (one - s) * (one - d) /\
   BlendChannel AsepriteBlendMode_Overlay s d
   = (if d <? half then two * s * d
      else one - two * (one - s) * (one - d)) /\
   BlendChannel AsepriteBlendMode_Darken s d = (if d <? s then d else s) /\
   BlendChannel AsepriteBlendMode_Lighten s d = (if s <? d then d else s) /\
   BlendChannel AsepriteBlendMode_ColorDodge s d
   = AsepriteMin (if s == one then one else d / (one - s)) one /\
   BlendChannel AsepriteBlendMode_ColorBurn s d
   = (if s == F32.zero then F32.zero
      else one - AsepriteMin ((one - d) / s) one) /\
   BlendChannel AsepriteBlendMode_HardLight s d
   = (if s <? half then two * s * d
      else one - two * (one - s) * (one - d)) /\
   BlendChannel AsepriteBlendMode_SoftLight s d
   = (one - two * s) * d * d + two * d * s /\
   BlendChannel AsepriteBlendMode_Difference s d = AsepriteAbs (d - s) /\
   BlendChannel AsepriteBlendMode_Exclusion s d
   = half - two * (d - half) * (s - half))%f32 /\
  forall BlendMode, ~ (1 <= BlendMode <= 11) ->
    BlendChannel BlendMode s d = s.
Proof.
  cbv zeta. repeat split.
  intros BlendMode H. unfold BlendChannel.
  destruct BlendMode as [|p|p]; try reflexivity.
  do 4 (destruct p as [p|p|]; try reflexivity; try lia).
Qed.

(** The multiply case of the spec: (255, 0, 0, 255) over (0, 255, 0, 255)
    gives black at full alpha. *)
Example multiply_red_over_green :
  RGBA8 (AsepriteCombineColors (AsepriteColorFromR8G8B8A8 255 0 0 255)
           (AsepriteColorFromR8G8B8A8 0 255 0 255) AsepriteBlendMode_Multiply)
  = {| px_r := 0; px_g := 0; px_b := 0; px_a := 255 |}.
Proof. vm_compute. reflexivity. Qed.

(** An opaque source in normal mode replaces the destination colour. *)
Example normal_opaque_replaces :
  RGBA8 (AsepriteCombineColors (AsepriteColorFromR8G8B8A8 12 34 56 255)
           (AsepriteColorFromR8G8B8A8 200 100 50 255) AsepriteBlendMode_Normal)
  = {| px_r := 12; px_g := 34; px_b := 56; px_a := 255 |}.
Proof. vm_compute. reflexivity. Qed.

(** C2 (as stated) fails on the division: the source multiplies by the
    rounded reciprocal [1.0f / OutAlpha].  White at alpha 1 over white at
    alpha 10, normal blend: the red channel comes out one unit in the last
    place below the quotient, and the byte is 254 where the quotient
    gives 255. *)
Lemma C2_reciprocal_counterexample :
  let Src := AsepriteColorFromR8G8B8A8 255 255 255 1 in
  let Dest := AsepriteColorFromR8G8B8A8 255 255 255 10 in
  let BlendMode := AsepriteBlendMode_Normal in
  let quotient :=
    ((BlendChannel BlendMode (R Src) (R Dest) * A Src
      + R Dest * A Dest * (F32.one - A Src)) / OutAlpha Src Dest)%f32 in
  (OutAlpha Src Dest == F32.zero)%f32 = false /\
  R (AsepriteCombineColors Src Dest BlendMode) <> quotient /\
  R8 (AsepriteCombineColors Src Dest BlendMode) = 254 /\
  F32.to_u8 (quotient * F32.f255)%f32 = 255.
Proof. vm_compute. repeat split; congruence. Qed.

(** C2 (amended): the output alpha is [srcA + destA * (1 - srcA)]; when it
    compares equal to zero the result is the all-zero colour, and no
    quotient enters it; otherwise every colour channel is
    [(blendC * srcA + destC * destA * (1 - srcA)) * (1 / outAlpha)], each
    operation rounded to single precision, the alpha channel is the output
    alpha, and each byte is the truncation of 255 times its channel. *)
Theorem C2_combine_colors (Src Dest : aseprite_color) (BlendMode : Z) :
  let Out := AsepriteCombineColors Src Dest BlendMode in
  let outAlpha := (A Src + A Dest * (F32.one - A Src))%f32 in
  let channel (s d : F32.float) :=
    ((BlendChannel BlendMode s d * A Src + d * A Dest * (F32.one - A Src))
     * (F32.one / outAlpha))%f32 in
  ((outAlpha == F32.zero)%f32 = true ->
     Out = zero_color /\
     RGBA8 Out = {| px_r := 0; px_g := 0; px_b := 0; px_a := 0 |})
  /\
  ((outAlpha == F32.zero)%f32 = false ->
     A Out = outAlpha /\
     R Out = channel (R Src) (R Dest) /\
     G Out = channel (G Src) (G Dest) /\
     B Out = channel (B Src) (B Dest) /\
     RGBA8 Out = {| px_r := F32.to_u8 (R Out * F32.f255)%f32;
                    px_g := F32.to_u8 (G Out * F32.f255)%f32;
                    px_b := F32.to_u8 (B Out * F32.f255)%f32;
                    px_a := F32.to_u8 (A Out * F32.f255)%f32 |}).
Proof.
  cbv zeta. unfold AsepriteCombineColors, CompositeChannel, OutAlpha.
  split; intros Hz; rewrite Hz.
  - now rewrite ColorFromRGBA_zero.
  - repeat split.
Qed.

Lemma C2_combine_colors_witness :
  let Src := AsepriteColorFromR8G8B8A8 255 0 0 255 in
  let Dest := AsepriteColorFromR8G8B8A8 0 255 0 255 in
  RGBA8 (AsepriteCombineColors zero_color zero_color AsepriteBlendMode_Normal)
    = {| px_r := 0; px_g := 0; px_b := 0; px_a := 0 |}
  /\ A (AsepriteCombineColors Src Dest AsepriteBlendMode_Multiply)
     = (A Src + A Dest * (F32.one - A Src))%f32.
Proof.
  split.
  - exact (proj2 (proj1 (C2_combine_colors zero_color zero_color
                           AsepriteBlendMode_Normal) eq_refl)).
  - exact (proj1 (proj2 (C2_combine_colors
                           (AsepriteColorFromR8G8B8A8 255 0 0 255)
                           (AsepriteColorFromR8G8B8A8 0 255 0 255)
                           AsepriteBlendMode_Multiply) eq_refl)).
Defined.


(** ** The pixel loop *)

(** One iteration of the loop over [X] for a pixel that is not clipped:
    the source colour is fetched, scaled by the layer opacity, composed
    with the old destination pixel and stored; the loop goes on one source
    pixel and one destination pixel further. *)
Lemma AsepriteFrame_row_pixel File DestWidth DestX LayerIndex BlendMode
    LayerOpacity CelData n X Source Dest DestTexture SourceColor Source' Old :
  0 <= X + DestX < DestWidth ->
  FetchSourceColor (ColorDepth File) (TransparentPaletteEntry File)
    (Palette File) CelData Source = Ok (SourceColor, Source') ->
  load_px DestTexture Dest = Ok Old ->
  AsepriteFrame_row File DestWidth DestX LayerIndex BlendMode LayerOpacity
    CelData (S n) X Source Dest DestTexture
  = (let* DestTexture :=
       store_px DestTexture Dest
         (ComposePixel LayerIndex BlendMode
            (ApplyLayerOpacity LayerOpacity SourceColor) Old) in
     AsepriteFrame_row File DestWidth DestX LayerIndex BlendMode LayerOpacity
       CelData n (X + 1) Source' (Dest + 4) DestTexture).
Proof.
  intros HX Hfetch Hold. simpl.
  destruct (Z.ltb_spec (X + DestX) 0); [lia|].
  destruct (Z.geb_spec (X + DestX) DestWidth); [lia|].
  rewrite Hfetch. simpl. rewrite Hold. reflexivity.
Qed.

(** The test that lets a layer overwrite the destination is on the layer
    index being 0, not on the layer being the lowest one that is shown.
    In [hidden_bottom_file] layer 0 is hidden and layer 1 is the lowest
    visible layer; over the destination pixel (0, 255, 0, 255) its source
    pixel (255, 0, 0, 128) does not overwrite the destination but is
    blended with it. *)
Lemma layer_index_guard_example :
  let Src := AsepriteColorFromR8G8B8A8 255 0 0 128 in
  let Dest := {| px_r := 0; px_g := 255; px_b := 0; px_a := 255 |} in
  match AsepriteParseFile hidden_bottom_file no_inflate junk_NumLayers with
  | Ok File =>
      bottommost_visible_layer File = Some 1 /\
      AsepriteGetEntireFrameRGBA File 1 1 0 0 0 [Dest]
      = Ok [ComposePixel 1 AsepriteBlendMode_Normal Src Dest] /\
      ComposePixel 1 AsepriteBlendMode_Normal Src Dest
      = {| px_r := 128; px_g := 126; px_b := 0; px_a := 255 |} /\
      ComposePixel 1 AsepriteBlendMode_Normal Src Dest <> RGBA8 Src
  | Err _ => False
  end.
Proof. vm_compute. repeat split; congruence. Qed.

(** The test on the source pixel reads the first byte of [RGBA8] only: an
    opaque green source pixel (red byte 0) over a non-zero destination is
    dropped. *)
Lemma ComposePixel_red_byte_only :
  let Src := AsepriteColorFromR8G8B8A8 0 255 0 255 in
  let Dest := {| px_r := 255; px_g := 0; px_b := 0; px_a := 255 |} in
  px_is_zero (RGBA8 Src) = false /\
  ComposePixel 1 AsepriteBlendMode_Normal Src Dest = Dest.
Proof. vm_compute. split; reflexivity. Qed.

(** The three ways of the write of the pixel loop, by the tests the code
    makes: layer index 0 or an all-zero destination, then the red byte of
    the source. *)
Lemma ComposePixel_cases (LayerIndex BlendMode : Z)
    (SourceColor : aseprite_color) (Dest : rgba8) :
  (LayerIndex = 0 \/ px_is_zero Dest = true ->
     ComposePixel LayerIndex BlendMode SourceColor Dest = RGBA8 SourceColor)
  /\
  (LayerIndex <> 0 -> px_is_zero Dest = false -> R8 SourceColor <> 0 ->
     ComposePixel LayerIndex BlendMode SourceColor Dest
     = RGBA8 (AsepriteCombineColors SourceColor (AsepriteColorFromRGBA8 Dest)
                BlendMode))
  /\
  (LayerIndex <> 0 -> px_is_zero Dest = false -> R8 SourceColor = 0 ->
     ComposePixel LayerIndex BlendMode SourceColor Dest = Dest).
Proof.
  unfold ComposePixel. repeat split.
  - intros [-> | ->]; [reflexivity | now rewrite orb_true_r].
  - intros Hi Hd Hr. rewrite Hd.
    destruct (Z.eqb_spec LayerIndex 0); [contradiction|]. simpl.
    destruct (Z.eqb_spec (R8 SourceColor) 0); [contradiction | reflexivity].
  - intros Hi Hd Hs. rewrite Hd, Hs.
    destruct (Z.eqb_spec LayerIndex 0); [contradiction|]. reflexivity.
Qed.

(** ** Indexed colour *)

Lemma opacity_keeps_zero_color_bytes :
  Forall (fun Opacity =>
            ApplyLayerOpacity (LayerOpacity_of Opacity) zero_color = zero_color)
         (seqZ 0 256).
Proof. apply (bool_decide_unpack _). vm_compute. reflexivity. Qed.

Lemma opacity_keeps_zero_color (Opacity : Z) :
  0 <= Opacity < 256 ->
  ApplyLayerOpacity (LayerOpacity_of Opacity) zero_color = zero_color.
Proof.
  intros H. pose proof opacity_keeps_zero_color_bytes as HF.
  rewrite Forall_forall in HF. apply HF. apply elem_of_seqZ. lia.
Qed.


(** ** Arrays *)

Lemma store_Ok {T} (cells cells' : list T) (i : Z) (v : T) :
  store cells i v = Ok cells' ->
  0 <= i < Z.of_nat (length cells) /\ cells' = <[Z.to_nat i := v]> cells.
Proof.
  unfold store. destruct (Z.leb_spec 0 i); simpl; [|discriminate].
  destruct (Z.ltb_spec i (Z.of_nat (length cells))); [|discriminate].
  intros [= <-]. split; [lia | reflexivity].
Qed.

Lemma store_length {T} (cells cells' : list T) (i : Z) (v : T) :
  store cells i v = Ok cells' -> length cells' = length cells.
Proof. intros H. apply store_Ok in H as [_ ->]. apply length_insert. Qed.

Lemma load_store_eq {T} (cells cells' : list T) (i : Z) (v : T) :
  store cells i v = Ok cells' -> load cells' i = Ok v.
Proof.
  intros H. apply store_Ok in H as [Hi ->]. unfold load.
  destruct (Z.ltb_spec i 0); [lia|].
  rewrite list_lookup_insert_eq by lia. reflexivity.
Qed.

Lemma load_store_ne {T} (cells cells' : list T) (i j : Z) (v : T) :
  store cells i v = Ok cells' -> i <> j -> load cells' j = load cells j.
Proof.
  intros H Hne. apply store_Ok in H as [Hi ->]. unfold load.
  destruct (Z.ltb_spec j 0); [reflexivity|].
  rewrite list_lookup_insert_ne by lia. reflexivity.
Qed.

Lemma load_fresh_array {T} (n i : Z) :
  0 <= i < n -> load (fresh_array (T := T) n) i = Ok None.
Proof.
  intros H. unfold load, fresh_array. destruct (Z.ltb_spec i 0); [lia|].
  rewrite lookup_replicate_2 by lia. reflexivity.
Qed.

Lemma length_fresh_array {T} (n : Z) :
  length (fresh_array (T := T) n) = Z.to_nat n.
Proof. apply length_replicate. Qed.


(** ** The legacy palette decoder *)

Section OldPalette.
Variable FileData : list Z.

(** The inner loop writes [n] colours at consecutive indices from
    consecutive byte triples, alpha 255, and nothing else. *)
Lemma AsepriteParseOldPalette_colors_spec (n : nat) :
  forall ColorIndex ChunkData Colors ChunkData' Colors',
  AsepriteParseOldPalette_colors FileData n ColorIndex ChunkData Colors
  = Ok (ChunkData', Colors') ->
  ChunkData' = ChunkData + 3 * Z.of_nat n /\
  length Colors' = length Colors /\
  (forall k, 0 <= k < Z.of_nat n ->
     exists Red Green Blue,
       read_u8 FileData (ChunkData + 3 * k) = Ok Red /\
       read_u8 FileData (ChunkData + 3 * k + 1) = Ok Green /\
       read_u8 FileData (ChunkData + 3 * k + 2) = Ok Blue /\
       load Colors' (ColorIndex + k)
       = Ok (Some (AsepriteColorFromR8G8B8A8 Red Green Blue 255))) /\
  (forall i, ~ (ColorIndex <= i < ColorIndex + Z.of_nat n) ->
     load Colors' i = load Colors i).
Proof.
  induction n as [|n IH]; intros ColorIndex ChunkData Colors ChunkData'
    Colors' H; simpl in H.
  - injection H as <- <-. repeat split; [lia | intros; lia].
  - inv_ok H. rename v into Red, v0 into Green, v1 into Blue, v2 into C1.
    apply IH in H as (-> & Hlen & Hin & Hout).
    split; [lia|]. split; [rewrite Hlen; eapply store_length; eauto|].
    split.
    + intros k Hk. destruct (Z.eq_dec k 0) as [->|Hk0].
      * exists Red, Green, Blue.
        rewrite Z.mul_0_r, !Z.add_0_r.
        repeat split; try assumption.
        rewrite Hout by lia. eapply load_store_eq; eauto.
      * destruct (Hin (k - 1)) as (r & g & b & Hr & Hg & Hb & Hl); [lia|].
        exists r, g, b.
        replace (ChunkData + 3 * k) with (ChunkData + 3 + 3 * (k - 1)) by lia.
        replace (ColorIndex + k) with (ColorIndex + 1 + (k - 1)) by lia.
        auto.
    + intros i Hi. rewrite Hout by lia.
      eapply load_store_ne; eauto. lia.
Qed.

Lemma AsepriteParseOldPalette_packets_length (n : nat) :
  forall ChunkData Colors ChunkData' Colors',
  AsepriteParseOldPalette_packets FileData n ChunkData Colors
  = Ok (ChunkData', Colors') ->
  length Colors' = length Colors.
Proof.
  induction n as [|n IH]; intros ChunkData Colors ChunkData' Colors' H;
    simpl in H.
  - now injection H as <- <-.
  - inv_ok H. destruct v1 as [ChunkData1 Colors1]. simpl in H.
    apply IH in H. rewrite H.
    now apply AsepriteParseOldPalette_colors_spec in Hv1 as (_ & ? & _).
Qed.

(** One packet: start index, count byte with 0 standing for 256, then the
    colours of the indices from start to start + count - 1. *)
Lemma AsepriteParseOldPalette_packet (n : nat) ChunkData Colors res :
  AsepriteParseOldPalette_packets FileData (S n) ChunkData Colors = Ok res ->
  exists StartIndex NumColors Colors1,
    read_u8 FileData ChunkData = Ok StartIndex /\
    read_u8 FileData (ChunkData + 1) = Ok NumColors /\
    let count := if NumColors =? 0 then 256 else NumColors in
    (forall k, 0 <= k < count ->
       exists Red Green Blue,
         read_u8 FileData (ChunkData + 2 + 3 * k) = Ok Red /\
         read_u8 FileData (ChunkData + 2 + 3 * k + 1) = Ok Green /\
         read_u8 FileData (ChunkData + 2 + 3 * k + 2) = Ok Blue /\
         load Colors1 (StartIndex + k)
         = Ok (Some (AsepriteColorFromR8G8B8A8 Red Green Blue 255))) /\
    (forall i, ~ (StartIndex <= i < StartIndex + count) ->
       load Colors1 i = load Colors i) /\
    AsepriteParseOldPalette_packets FileData n (ChunkData + 2 + 3 * count)
      Colors1 = Ok res.
Proof.
  intros H. simpl in H. inv_ok H.
  rename v into StartIndex, v0 into NumColors.
  destruct v1 as [ChunkData1 Colors1]. simpl in H.
  exists StartIndex, NumColors, Colors1.
  apply AsepriteParseOldPalette_colors_spec in Hv1 as (-> & _ & Hin & Hout).
  unfold NumColors16 in *.
  assert (Hc : 0 <= (if NumColors =? 0 then 256 else NumColors)).
  { unfold read_u8 in Hv0. inv_ok Hv0. injection Hv0 as <-.
    destruct (Z.eqb_spec (v mod 256) 0); [lia|].
    pose proof (Z.mod_pos_bound v 256). lia. }
  rewrite Z2Nat.id in * by assumption.
  repeat split; auto.
Qed.

(** The decoder leaves a table of 256 entries. *)
Lemma AsepriteParseOldPalette_table File ChunkData File' :
  AsepriteParseOldPalette FileData File ChunkData = Ok File' ->
  exists Packets ChunkData' Colors,
    read_u16 FileData ChunkData = Ok Packets /\
    AsepriteParseOldPalette_packets FileData (Z.to_nat Packets)
      (ChunkData + 2) (fresh_array 256) = Ok (ChunkData', Colors) /\
    pal_Colors (file_Palette File') = Block Colors /\
    length Colors = 256%nat.
Proof.
  unfold AsepriteParseOldPalette. intros H. inv_ok H.
  destruct v0 as [ChunkData' Colors]. simpl in H. injection H as <-.
  exists v, ChunkData', Colors. repeat split; auto.
  apply AsepriteParseOldPalette_packets_length in Hv0.
  rewrite Hv0. reflexivity.
Qed.
End OldPalette.


(** ** The chunk dispatcher *)

Section Dispatch.
Variable FileData : list Z.
Variable inflate : list Z -> option (list Z).

Lemma AsepriteParseLayer_keeps File Parser ChunkData File' Parser' :
  AsepriteParseLayer FileData File Parser ChunkData = Ok (File', Parser') ->
  file_Palette File' = file_Palette File /\
  file_Frames File' = file_Frames File /\
  UsesNewPalette Parser' = UsesNewPalette Parser /\
  At Parser' = At Parser.
Proof.
  unfold AsepriteParseLayer. intros H.
  destruct (file_NumLayers File =? AvailableLayers Parser);
    inv_ok H; injection H as <- <-; auto.
Qed.



(** Case analysis on a successful chunk step. *)
Ltac chunk_cases H :=
  unfold AsepriteParseChunk in H;
  let h := fresh "ChunkHeader" in
  let Hh := fresh "Hheader" in
  apply bind_Ok in H as (h & Hh & H); simpl in H;
  repeat match type of H with
         | context [if ?b =? ?c then _ else _] =>
             destruct (Z.eqb_spec b c)
         | context [if negb ?b then _ else _] =>
             let E := fresh "E" in destruct b eqn:E; simpl in H
         end;
  inv_ok H;
  repeat match goal with
         | p : (_ * _)%type |- _ => destruct p; simpl in H
         end.

(** A successful chunk step leaves the cursor at the chunk start plus the
    declared chunk size, whatever the handler read. *)
Lemma AsepriteParseChunk_cursor File Frame Parser File' Frame' Parser' :
  AsepriteParseChunk FileData inflate File Frame Parser
  = Ok (File', Frame', Parser') ->
  exists ChunkHeader,
    read_aseprite_chunk_header FileData (At Parser) = Ok ChunkHeader /\
    At Parser' = At Parser + ch_ChunkSize ChunkHeader.
Proof.
  intros H. chunk_cases H; exists ChunkHeader; (split; [assumption|]);
    injection H as <- <- <-; try reflexivity.
  apply AsepriteParseLayer_keeps in Hv as (_ & _ & _ & ->). reflexivity.
Qed.

(** The flag [UsesNewPalette] is set by a modern palette chunk and never
    cleared by any chunk. *)
Lemma AsepriteParseChunk_flag File Frame Parser File' Frame' Parser'
    ChunkHeader :
  read_aseprite_chunk_header FileData (At Parser) = Ok ChunkHeader ->
  AsepriteParseChunk FileData inflate File Frame Parser
  = Ok (File', Frame', Parser') ->
  (ch_ChunkType ChunkHeader = AsepriteChunk_Palette ->
     UsesNewPalette Parser' = true) /\
  (UsesNewPalette Parser = true -> UsesNewPalette Parser' = true).
Proof.
  intros Hh H. chunk_cases H; rewrite Hh in Hheader;
    injection Hheader as <-; injection H as <- <- <-;
    try match goal with
        | Hv : AsepriteParseLayer _ _ _ _ = Ok _ |- _ =>
            apply AsepriteParseLayer_keeps in Hv as (_ & _ & Hf & _);
            rewrite Hf
        end;
    simpl; split; intros; try assumption; try reflexivity;
    try discriminate;
    match goal with
    | H : ch_ChunkType _ = AsepriteChunk_Palette |- _ =>
        rewrite H in *; try contradiction; discriminate
    end.
Qed.

(** What a chunk of legacy palette type does. *)
Lemma AsepriteParseChunk_legacy File Frame Parser ChunkHeader :
  read_aseprite_chunk_header FileData (At Parser) = Ok ChunkHeader ->
  let Next := set_At Parser (At Parser + ch_ChunkSize ChunkHeader) in
  let ChunkData := At Parser + sizeof_aseprite_chunk_header in
  (ch_ChunkType ChunkHeader = AsepriteChunk_OldPalette ->
   UsesNewPalette Parser = false ->
     AsepriteParseChunk FileData inflate File Frame Parser
     = (let* File' := AsepriteParseOldPalette FileData File ChunkData in
        Ok (File', Frame, Next))) /\
  (ch_ChunkType ChunkHeader = AsepriteChunk_OldPalette ->
   UsesNewPalette Parser = true ->
     AsepriteParseChunk FileData inflate File Frame Parser
     = Ok (File, Frame, Next)) /\
  (ch_ChunkType ChunkHeader = AsepriteChunk_OldPalette2 ->
     AsepriteParseChunk FileData inflate File Frame Parser
     = Ok (File, Frame, Next)).
Proof.
  intros Hh Next ChunkData. unfold AsepriteParseChunk. rewrite Hh. simpl.
  repeat split.
  - intros -> ->. reflexivity.
  - intros -> ->. reflexivity.
  - intros ->. reflexivity.
Qed.

(** A chunk whose type the [switch] does not list changes nothing but
    the cursor. *)
Lemma AsepriteParseChunk_unknown File Frame Parser ChunkHeader :
  read_aseprite_chunk_header FileData (At Parser) = Ok ChunkHeader ->
  ch_ChunkType ChunkHeader ∉ recognised_chunk_types ->
  AsepriteParseChunk FileData inflate File Frame Parser
  = Ok (File, Frame, set_At Parser (At Parser + ch_ChunkSize ChunkHeader)).
Proof.
  intros Hh Hn. unfold recognised_chunk_types in Hn.
  rewrite !not_elem_of_cons in Hn.
  destruct Hn as (? & ? & ? & ? & ? & ? & ? & ? & ? & _).
  unfold AsepriteParseChunk. rewrite Hh. simpl.
  repeat match goal with
         | |- context [if ?b =? ?c then _ else _] =>
             destruct (Z.eqb_spec b c); [contradiction|]
         end.
  reflexivity.
Qed.

(** ** Cels *)

Lemma AsepriteParseCel_Ok Frame ChunkData ChunkLength Frame' :
  AsepriteParseCel FileData inflate
    Frame ChunkData ChunkLength = Ok Frame' ->
  exists CelHeader Layers Layer,
    read_aseprite_cel_header FileData ChunkData = Ok CelHeader /\
    frame_Layers Frame = Block Layers /\
    0 <= cel_LayerIndex CelHeader < Z.of_nat (length Layers) /\
    layer_Header Layer = Some CelHeader /\
    frame_Layers Frame'
    = Block (<[Z.to_nat (cel_LayerIndex CelHeader) := Layer]> Layers) /\
    frame_NumLayers Frame' = frame_NumLayers Frame /\
    frame_Header Frame' = frame_Header Frame.
Proof.
  unfold AsepriteParseCel. intros H. inv_ok H.
  rename v into CelHeader, v0 into Layers, v1 into Old, v2 into Layer.
  injection H as <-. apply store_Ok in Hv3 as [Hi ->].
  exists CelHeader, Layers, Layer. simpl.
  destruct (frame_Layers Frame) as [| |cells] eqn:EL; try discriminate.
  injection Hv0 as ->.
  assert (HL : layer_Header Layer = Some CelHeader).
  { destruct (cel_CelType CelHeader =? AsepriteCelType_Raw).
    - inv_ok Hv2. destruct (cel_DataSize ChunkLength <? 0); [discriminate|].
      inv_ok Hv2. now injection Hv2 as <-.
    - destruct (cel_CelType CelHeader =? AsepriteCelType_Compressed).
      + inv_ok Hv2.
        destruct (cel_DataSize ChunkLength <? 0); [discriminate|].
        inv_ok Hv2. now injection Hv2 as <-.
      + now injection Hv2 as <-. }
  repeat split; auto; lia.
Qed.

(** What a cel chunk does. *)
Lemma AsepriteParseChunk_cel File Frame Parser ChunkHeader :
  read_aseprite_chunk_header FileData (At Parser) = Ok ChunkHeader ->
  ch_ChunkType ChunkHeader = AsepriteChunk_Cel ->
  let Next := set_At Parser (At Parser + ch_ChunkSize ChunkHeader) in
  let ChunkData := At Parser + sizeof_aseprite_chunk_header in
  let ChunkLength :=
    to_int (ch_ChunkSize ChunkHeader - sizeof_aseprite_chunk_header) in
  let Fresh :=
    {| frame_Header := frame_Header Frame;
       frame_NumLayers := file_NumLayers File;
       frame_Layers :=
         Block (replicate (Z.to_nat (file_NumLayers File)) fresh_layer) |} in
  AsepriteParseChunk FileData inflate File Frame Parser
  = (let* Frame' :=
       AsepriteParseCel FileData inflate
         (if decide (frame_NumLayers Frame = file_NumLayers File)
          then Frame else Fresh)
         ChunkData ChunkLength in
     Ok (File, Frame', Next)).
Proof.
  intros Hh Ht. unfold AsepriteParseChunk. rewrite Hh. simpl. rewrite Ht.
  simpl.
  destruct (Z.eqb_spec (frame_NumLayers Frame) (file_NumLayers File));
    destruct (decide (frame_NumLayers Frame = file_NumLayers File));
    try contradiction; reflexivity.
Qed.
End Dispatch.


(** ** Runs of the parser *)

Section Runs.
Variable FileData : list Z.
Variable inflate : list Z -> option (list Z).

Lemma AsepriteParseChunks_steps (n : nat) :
  forall File Frame Parser s',
  AsepriteParseChunks FileData inflate
    n File Frame Parser = Ok s' ->
  rtc (parser_step FileData inflate) (File, Frame, Parser) s'.
Proof.
  induction n as [|n IH]; intros File Frame Parser s' H; simpl in H.
  - injection H as <-. apply rtc_refl.
  - apply bind_Ok in H as ([[File1 Frame1] Parser1] & H1 & H). simpl in H.
    eapply rtc_l; [apply step_chunk; exact H1 | apply IH; exact H].
Qed.

Lemma AsepriteParseFrame_steps File Frame Parser s' :
  AsepriteParseFrame FileData inflate
    File Frame Parser = Ok s' ->
  rtc (parser_step FileData inflate) (File, Frame, Parser) s'.
Proof.
  unfold AsepriteParseFrame. intros H.
  apply bind_Ok in H as (FrameHeader & Hh & H). simpl in H.
  eapply rtc_l; [apply step_frame_header; exact Hh|].
  apply AsepriteParseChunks_steps in H. exact H.
Qed.

(** The frame loop is a sequence of steps; what it returns is the last
    state with the last frame put back into the frame array. *)
Lemma AsepriteParseFrames_steps (n : nat) :
  forall FrameIndex File Parser File' Parser',
  AsepriteParseFrames FileData inflate
    (S n) FrameIndex File Parser = Ok (File', Parser') ->
  exists Frame File'' Frame'' Frames',
    load (file_Frames File) FrameIndex = Ok Frame /\
    rtc (parser_step FileData inflate) (File, Frame, Parser)
      (File'', Frame'', Parser') /\
    File' = set_Frames File'' Frames'.
Proof.
  induction n as [|n IH]; intros FrameIndex File Parser File' Parser' H;
    cbn [AsepriteParseFrames] in H.
  - apply bind_Ok in H as (Frame & HF & H).
    apply bind_Ok in H as ([[File1 Frame1] Parser1] & H1 & H).
    cbv beta iota in H.
    apply bind_Ok in H as (Frames1 & HS & H). cbv beta iota in H.
    injection H as <- <-.
    exists Frame, File1, Frame1, Frames1.
    split; [assumption|]. split; [|reflexivity].
    apply AsepriteParseFrame_steps. exact H1.
  - apply bind_Ok in H as (Frame & HF & H).
    apply bind_Ok in H as ([[File1 Frame1] Parser1] & H1 & H).
    cbv beta iota in H.
    apply bind_Ok in H as (Frames1 & HS & H).
    apply IH in H as (Frame2 & File'' & Frame'' & Frames' & HL & Hrtc & ->).
    exists Frame, File'', Frame'', Frames'.
    split; [assumption|]. split; [|reflexivity].
    eapply rtc_trans; [apply AsepriteParseFrame_steps; exact H1|].
    eapply rtc_l; [|exact Hrtc].
    eapply step_next_frame; [exact HS | exact HL].
Qed.

(** The flag is never cleared. *)
Lemma parser_step_flag s s' :
  parser_step FileData inflate s s' ->
  UsesNewPalette (state_Parser s) = true ->
  UsesNewPalette (state_Parser s') = true.
Proof.
  intros Hs. destruct Hs as [File Frame Parser [[File' Frame'] Parser'] H
                            | File Frame Parser FrameHeader H
                            | File Frame Parser FrameIndex Frames Frame' H];
    unfold state_Parser; simpl; auto.
  pose proof (AsepriteParseChunk_cursor _ _ _ _ _ _ _ _ H) as (h & Hh & _).
  apply (AsepriteParseChunk_flag _ _ _ _ _ _ _ _ h Hh H).
Qed.

Lemma parser_steps_flag s s' :
  rtc (parser_step FileData inflate) s s' ->
  UsesNewPalette (state_Parser s) = true ->
  UsesNewPalette (state_Parser s') = true.
Proof.
  induction 1 as [|s s1 s' Hs _ IH]; [auto|].
  intros Hf. apply IH. eapply parser_step_flag; eauto.
Qed.

Lemma chunk_type_at_Ok s t :
  chunk_type_at FileData s = Ok t ->
  exists ChunkHeader,
    read_aseprite_chunk_header FileData (At (state_Parser s))
    = Ok ChunkHeader /\ ch_ChunkType ChunkHeader = t.
Proof.
  unfold chunk_type_at. intros H.
  apply bind_Ok in H as (h & Hh & H). injection H as <-. eauto.
Qed.

Lemma parser_step_legacy_table s s' :
  parser_step FileData inflate s s' -> legacy_table s -> legacy_table s'.
Proof.
  intros Hs. destruct Hs as [File Frame Parser [[File' Frame'] Parser'] H
                            | File Frame Parser FrameHeader H
                            | File Frame Parser FrameIndex Frames Frame' H];
    unfold legacy_table, state_Parser, state_File; simpl; auto.
  intros Inv Hflag Colors HC.
  unfold AsepriteParseChunk in H.
  apply bind_Ok in H as (h & Hh & H). simpl in H.
  repeat match type of H with
         | context [if ?b =? ?c then _ else _] =>
             destruct (Z.eqb_spec b c)
         | context [if negb ?b then _ else _] =>
             let E := fresh "E" in destruct b eqn:E; simpl in H
         end;
    inv_ok H;
    repeat match goal with
           | p : (_ * _)%type |- _ => destruct p; simpl in H
           end;
    injection H as <- <- <-; simpl in *;
    try (apply Inv; assumption); try discriminate; try congruence.
  - match goal with
    | Hv : AsepriteParseOldPalette _ _ _ = Ok _ |- _ =>
        apply AsepriteParseOldPalette_table in Hv
          as (? & ? & Colors' & _ & _ & HB & HL256)
    end.
    rewrite HB in HC. now injection HC as <-.
  - match goal with
    | Hv : AsepriteParseLayer _ _ _ _ = Ok _ |- _ =>
        apply AsepriteParseLayer_keeps in Hv as (HP & _ & HU & _)
    end.
    rewrite HP in HC. rewrite HU in Hflag. simpl in Hflag. now apply Inv.
Qed.

Lemma parser_steps_legacy_table s s' :
  rtc (parser_step FileData inflate) s s' ->
  legacy_table s -> legacy_table s'.
Proof.
  induction 1 as [|s s1 s' Hs _ IH]; [auto|].
  intros Inv. apply IH. eapply parser_step_legacy_table; eauto.
Qed.
End Runs.


(** ** The palette encodings *)

(** The run of [AsepriteParseFile] over a file with at least one frame is
    a sequence of parser steps from the state in which the first frame
    header is about to be read. *)
Lemma AsepriteParseFile_run_steps FileData inflate fresh_NumLayers
    File0 Parser0 File Parser :
  AsepriteParseFile_init FileData fresh_NumLayers = Ok (File0, Parser0) ->
  0 < hdr_Frames (file_Header File0) ->
  AsepriteParseFile_run FileData inflate fresh_NumLayers = Ok (File, Parser) ->
  exists Frame0 File' Frame' Frames',
    load (file_Frames File0) 0 = Ok Frame0 /\
    rtc (parser_step FileData inflate) (File0, Frame0, Parser0)
      (File', Frame', Parser) /\
    File = set_Frames File' Frames'.
Proof.
  intros Hinit Hn H. unfold AsepriteParseFile_run in H. rewrite Hinit in H.
  simpl in H.
  destruct (Z.to_nat (hdr_Frames (file_Header File0))) as [|n] eqn:E; [lia|].
  now apply AsepriteParseFrames_steps in H.
Qed.

(** C5: once a chunk step has processed a modern palette chunk, a legacy
    palette chunk dispatched at any later point of the parse (after any
    number of chunks, frame headers and frame changes) leaves the palette
    as it is. *)
Theorem C5_modern_palette_wins (FileData : list Z)
    (inflate : list Z -> option (list Z)) (s0 s1 s2 s3 : parse_state) :
  chunk_type_at FileData s0 = Ok AsepriteChunk_Palette ->
  chunk_step FileData inflate s0 = Ok s1 ->
  rtc (parser_step FileData inflate) s1 s2 ->
  chunk_type_at FileData s2 = Ok AsepriteChunk_OldPalette \/
  chunk_type_at FileData s2 = Ok AsepriteChunk_OldPalette2 ->
  chunk_step FileData inflate s2 = Ok s3 ->
  file_Palette (state_File s3) = file_Palette (state_File s2).
Proof.
  intros Ht0 H01 H12 Ht2 H23.
  destruct s0 as [[File0 Frame0] Parser0], s1 as [[File1 Frame1] Parser1].
  destruct s2 as [[File2 Frame2] Parser2], s3 as [[File3 Frame3] Parser3].
  apply chunk_type_at_Ok in Ht0 as (h0 & Hh0 & Hty0).
  assert (Hflag1 : UsesNewPalette Parser1 = true).
  { exact (proj1 (AsepriteParseChunk_flag _ _ _ _ _ _ _ _ h0 Hh0 H01) Hty0). }
  assert (Hflag2 : UsesNewPalette Parser2 = true).
  { exact (parser_steps_flag _ _ _ _ H12 Hflag1). }
  unfold state_File, chunk_step in *. simpl in *.
  destruct Ht2 as [Ht2 | Ht2];
    apply chunk_type_at_Ok in Ht2 as (h2 & Hh2 & Hty2);
    pose proof (AsepriteParseChunk_legacy FileData inflate File2 Frame2
                  Parser2 h2 Hh2) as (_ & Hset & H11).
  - rewrite (Hset Hty2 Hflag2) in H23. now injection H23 as <- <- <-.
  - rewrite (H11 Hty2) in H23. now injection H23 as <- <- <-.
Qed.

Lemma modern_then_legacy_start_reached :
  exists File0 Frame0 Parser0,
    AsepriteParseFile_init modern_then_legacy_file junk_NumLayers
    = Ok (File0, Parser0) /\
    load (file_Frames File0) 0 = Ok Frame0 /\
    parser_step modern_then_legacy_file no_inflate (File0, Frame0, Parser0)
      modern_then_legacy_start.
Proof.
  pose (Parser0 := {| At := 128; AvailableLayers := 2;
                      UsesNewPalette := false |}).
  pose (FrameHeader := {| fh_BytesInFrame := 71; fh_MagicNumber := 61946;
                          fh_ChunksInFrame := 2; fh_FrameDuration := 100 |}).
  exists (state_File modern_then_legacy_start), junk_frame, Parser0.
  split; [vm_compute; reflexivity|]. split; [reflexivity|].
  change modern_then_legacy_start
    with (state_File modern_then_legacy_start,
          {| frame_Header := Some FrameHeader;
             frame_NumLayers := frame_NumLayers junk_frame;
             frame_Layers := frame_Layers junk_frame |},
          set_At Parser0 (At Parser0 + sizeof_aseprite_frame_header)).
  apply step_frame_header. vm_compute. reflexivity.
Qed.

Lemma C5_modern_palette_wins_witness :
  exists s1 s3,
    chunk_step modern_then_legacy_file no_inflate modern_then_legacy_start
    = Ok s1 /\
    chunk_step modern_then_legacy_file no_inflate s1 = Ok s3 /\
    file_Palette (state_File s3) = file_Palette (state_File s1).
Proof.
  destruct (chunk_step modern_then_legacy_file no_inflate
              modern_then_legacy_start)
    as [s1|e] eqn:H01; [|vm_compute in H01; discriminate].
  assert (Ht1 : chunk_type_at modern_then_legacy_file s1
                = Ok AsepriteChunk_OldPalette)
    by (vm_compute in H01; injection H01 as <-; reflexivity).
  destruct (chunk_step modern_then_legacy_file no_inflate s1)
    as [s3|e] eqn:H13;
    [|exfalso; vm_compute in H01; injection H01 as <-;
      vm_compute in H13; discriminate].
  exists s1, s3. split; [reflexivity|]. split; [exact H13|].
  apply (C5_modern_palette_wins modern_then_legacy_file no_inflate
           modern_then_legacy_start s1 s1 s3).
  - reflexivity.
  - exact H01.
  - apply rtc_refl.
  - left. exact Ht1.
  - exact H13.
Defined.


(** ** The modern palette decoder *)

Lemma read_u8_range FileData At v :
  read_u8 FileData At = Ok v -> 0 <= v < 256.
Proof.
  unfold read_u8. intros H. inv_ok H. injection H as <-.
  apply Z.mod_pos_bound. lia.
Qed.

Lemma read_u16_range FileData At v :
  read_u16 FileData At = Ok v -> 0 <= v < 65536.
Proof.
  unfold read_u16. intros H. inv_ok H. injection H as <-.
  apply read_u8_range in Hv, Hv0. lia.
Qed.

Lemma read_u32_range FileData At v :
  read_u32 FileData At = Ok v -> 0 <= v < 2 ^ 32.
Proof.
  unfold read_u32. intros H. inv_ok H. injection H as <-.
  apply read_u16_range in Hv, Hv0. lia.
Qed.

Lemma to_int_small u : 0 <= u < 2 ^ 31 -> to_int u = u.
Proof. intros H. unfold to_int. rewrite Z.mod_small; lia. Qed.

Lemma to_int_large u : 2 ^ 31 <= u < 2 ^ 32 -> to_int u = u - 2 ^ 32.
Proof.
  intros H. unfold to_int.
  replace (u + 2 ^ 31) with (u - 2 ^ 31 + 1 * 2 ^ 32) by lia.
  rewrite Z.mod_add by lia. rewrite Z.mod_small; lia.
Qed.

Section Palette.
Variable FileData : list Z.

(** The loop writes a colour at each of its [n] indices, nothing
    elsewhere, and its first index is a valid one. *)
Lemma AsepriteParsePalette_loop_spec (n : nat) :
  forall EntryIndex ChunkData Colors Colors',
  AsepriteParsePalette_loop FileData n EntryIndex ChunkData Colors
  = Ok Colors' ->
  length Colors' = length Colors /\
  (forall i, ~ (EntryIndex <= i < EntryIndex + Z.of_nat n) ->
     load Colors' i = load Colors i) /\
  (forall i, EntryIndex <= i < EntryIndex + Z.of_nat n ->
     exists Color, load Colors' i = Ok (Some Color)) /\
  (0 < Z.of_nat n -> 0 <= EntryIndex).
Proof.
  induction n as [|n IH]; intros EntryIndex ChunkData Colors Colors' H;
    simpl in H.
  - injection H as <-. repeat split; intros; lia.
  - inv_ok H. rename v into PaletteEntry, v0 into Next, v1 into Colors1.
    apply IH in H as (Hlen & Hout & Hin & _).
    pose proof (store_Ok _ _ _ _ Hv1) as [Hrange _].
    split; [rewrite Hlen; eapply store_length; eauto|].
    split; [|split].
    + intros i Hi. rewrite Hout by lia.
      eapply load_store_ne; eauto. lia.
    + intros i Hi. destruct (Z.eq_dec i EntryIndex) as [->|Hne].
      * eexists. rewrite Hout by lia. eapply load_store_eq; eauto.
      * apply Hin. lia.
    + intros _. lia.
Qed.

(** The decoder leaves a table of the declared size that it has just
    allocated: the entries from first to last hold the colours read, and
    every other entry holds nothing, whatever the palette held before. *)
Lemma AsepriteParsePalette_table File ChunkData File' :
  AsepriteParsePalette FileData File ChunkData = Ok File' ->
  exists PaletteHeader Colors,
    read_aseprite_palette_header FileData ChunkData = Ok PaletteHeader /\
    let NewPaletteSize := ph_NewPaletteSize PaletteHeader in
    let First := ph_FirstColorIndexToChange PaletteHeader in
    let Last := ph_LastColorIndexToChange PaletteHeader in
    pal_NumColors (file_Palette File') = Some (to_int NewPaletteSize) /\
    pal_Colors (file_Palette File') = Block Colors /\
    length Colors = Z.to_nat NewPaletteSize /\
    (forall i, First <= i <= Last ->
       exists Color, load Colors i = Ok (Some Color)) /\
    (forall i, 0 <= i < NewPaletteSize -> ~ (First <= i <= Last) ->
       load Colors i = Ok None).
Proof.
  unfold AsepriteParsePalette. intros H. inv_ok H.
  rename v into PaletteHeader, v0 into Colors. injection H as <-.
  exists PaletteHeader, Colors. split; [assumption|]. simpl.
  apply AsepriteParsePalette_loop_spec in Hv0 as (Hlen & Hout & Hin & Hpos).
  rewrite length_fresh_array in Hlen.
  assert (HF : 0 <= ph_FirstColorIndexToChange PaletteHeader < 2 ^ 32).
  { unfold read_aseprite_palette_header in Hv. inv_ok Hv.
    injection Hv as <-. simpl. eapply read_u32_range; eauto. }
  set (First := ph_FirstColorIndexToChange PaletteHeader) in *.
  set (Last := ph_LastColorIndexToChange PaletteHeader) in *.
  destruct (Z.le_gt_cases First Last) as [Hle | Hgt].
  - rewrite Z2Nat.id in * by lia.
    assert (Hs : to_int First = First).
    { destruct (Z.lt_ge_cases First (2 ^ 31)) as [Hlt | Hge].
      - apply to_int_small. lia.
      - rewrite to_int_large in Hpos by lia. lia. }
    rewrite Hs in *.
    repeat split; try assumption.
    + intros i Hi. apply Hin. lia.
    + intros i Hi Hn. rewrite Hout by lia. now apply load_fresh_array.
  - replace (Z.to_nat (Last + 1 - First)) with 0%nat in * by lia.
    repeat split; try assumption.
    + intros i Hi. lia.
    + intros i Hi Hn. rewrite Hout by lia. now apply load_fresh_array.
Qed.
End Palette.

(** C3 at [partial_update_file]: the first modern chunk leaves the palette
    (1, 2, 3, 255), (4, 5, 6, 255); the second one, which changes index 1
    only, leaves a table of the declared size 2 whose entry 0 holds nothing:
    the colour (1, 2, 3, 255) of the earlier chunk is gone. *)
Theorem C3_partial_update_drops_prior_entries :
  exists s1 s2,
    chunk_step partial_update_file no_inflate partial_update_start = Ok s1 /\
    pal_Colors (file_Palette (state_File s1))
    = Block [Some (AsepriteColorFromR8G8B8A8 1 2 3 255);
             Some (AsepriteColorFromR8G8B8A8 4 5 6 255)] /\
    chunk_step partial_update_file no_inflate s1 = Ok s2 /\
    pal_NumColors (file_Palette (state_File s2)) = Some 2 /\
    pal_Colors (file_Palette (state_File s2))
    = Block [None; Some (AsepriteColorFromR8G8B8A8 7 8 9 255)].
Proof.
  destruct (chunk_step partial_update_file no_inflate partial_update_start)
    as [s1|e] eqn:H01; [|vm_compute in H01; discriminate].
  vm_compute in H01. injection H01 as <-.
  eexists _, _. split; [reflexivity|].
  split; [vm_compute; reflexivity|].
  split; [vm_compute; reflexivity|].
  split; vm_compute; reflexivity.
Qed.


(** ** Chunk dispatch *)

(** C6 (as stated) fails on type 0x0011: the case prints and breaks.  The
    one chunk of [old_palette2_file] leaves the document without a palette
    table, while the legacy decoder run on its payload, and the same bytes
    under type 0x0004, give the table with (10, 20, 30, 255) at index 0. *)
Lemma C6_old_palette2_counterexample :
  let Color := AsepriteColorFromR8G8B8A8 10 20 30 255 in
  match AsepriteParseFile old_palette2_file no_inflate junk_NumLayers,
        AsepriteParseFile old_palette_file no_inflate junk_NumLayers with
  | Ok File2, Ok File1 =>
      pal_Colors (file_Palette File2) = Wild /\
      pal_Colors (file_Palette File1)
      = Block (Some Color :: replicate 255 None) /\
      (let* File' := AsepriteParseOldPalette old_palette2_file File2 150 in
       Ok (pal_Colors (file_Palette File')))
      = Ok (Block (Some Color :: replicate 255 None))
  | _, _ => False
  end.
Proof. vm_compute. repeat split. Qed.

(** C6 (amended): a chunk step that succeeds leaves the cursor at the chunk
    start plus the declared chunk size, whatever the type and whatever the
    handler read; type 0x0004 is handed to the legacy palette decoder as
    long as no modern palette chunk has been seen; type 0x0011 and every
    type that is not recognised change nothing in the document and are not
    an error. *)
Theorem C6_chunk_dispatch (FileData : list Z)
    (inflate : list Z -> option (list Z))
    (File : aseprite_file) (Frame : aseprite_frame) (Parser : aseprite_parser)
    (ChunkHeader : aseprite_chunk_header) :
  read_aseprite_chunk_header FileData (At Parser) = Ok ChunkHeader ->
  let Next := set_At Parser (At Parser + ch_ChunkSize ChunkHeader) in
  let ChunkData := At Parser + sizeof_aseprite_chunk_header in
  let ChunkType := ch_ChunkType ChunkHeader in
  (forall File' Frame' Parser',
     AsepriteParseChunk FileData inflate File Frame Parser
     = Ok (File', Frame', Parser') ->
     At Parser' = At Parser + ch_ChunkSize ChunkHeader)
  /\
  (ChunkType = AsepriteChunk_OldPalette -> UsesNewPalette Parser = false ->
     AsepriteParseChunk FileData inflate File Frame Parser
     = (let* File' := AsepriteParseOldPalette FileData File ChunkData in
        Ok (File', Frame, Next)))
  /\
  (ChunkType = AsepriteChunk_OldPalette2 ->
     AsepriteParseChunk FileData inflate File Frame Parser
     = Ok (File, Frame, Next))
  /\
  (ChunkType ∉ recognised_chunk_types ->
     AsepriteParseChunk FileData inflate File Frame Parser
     = Ok (File, Frame, Next)).
Proof.
  intros Hh Next ChunkData ChunkType. split; [|split; [|split]].
  - intros File' Frame' Parser' H.
    apply AsepriteParseChunk_cursor in H as (h & Hh' & ->).
    rewrite Hh in Hh'. now injection Hh' as <-.
  - exact (proj1 (AsepriteParseChunk_legacy FileData inflate File Frame
                    Parser ChunkHeader Hh)).
  - exact (proj2 (proj2 (AsepriteParseChunk_legacy FileData inflate File
                           Frame Parser ChunkHeader Hh))).
  - intros Hn.
    exact (AsepriteParseChunk_unknown FileData inflate File Frame Parser
             ChunkHeader Hh Hn).
Qed.

Lemma C6_chunk_dispatch_witness :
  let '(File, Frame, Parser) := modern_then_legacy_start in
  AsepriteParseChunk old_palette2_file no_inflate File Frame Parser
  = Ok (File, Frame, set_At Parser (144 + 13)).
Proof.
  exact (proj1 (proj2 (proj2
           (C6_chunk_dispatch old_palette2_file no_inflate
              (state_File modern_then_legacy_start)
              (modern_then_legacy_start.1.2)
              (state_Parser modern_then_legacy_start)
              {| ch_ChunkSize := 13; ch_ChunkType := 0x0011 |}
              eq_refl))) eq_refl).
Defined.


(** ** The compositor's assertion *)

(** Only the assertion gives [FrameIndexOutOfRange]. *)
Lemma bind_not_assert {T U} (m : outcome T) (k : T -> outcome U) :
  m <> Err FrameIndexOutOfRange ->
  (forall v, k v <> Err FrameIndexOutOfRange) ->
  bind m k <> Err FrameIndexOutOfRange.
Proof.
  destruct m as [v|e]; simpl; intros Hm Hk; [apply Hk|].
  intros [= ->]. now apply Hm.
Qed.

Lemma load_not_assert {T} (cells : list T) i :
  load cells i <> Err FrameIndexOutOfRange.
Proof.
  unfold load. destruct (i <? 0); [discriminate|].
  destruct (cells !! Z.to_nat i); discriminate.
Qed.

Lemma store_not_assert {T} (cells : list T) i v :
  store cells i v <> Err FrameIndexOutOfRange.
Proof. unfold store. destruct (_ && _); discriminate. Qed.

Lemma deref_not_assert {T} (p : ptr T) :
  deref p <> Err FrameIndexOutOfRange.
Proof. destruct p; discriminate. Qed.

Lemma initialised_not_assert {T} (v : option T) :
  initialised v <> Err FrameIndexOutOfRange.
Proof. destruct v; discriminate. Qed.

Lemma read_u8_not_assert data i :
  read_u8 data i <> Err FrameIndexOutOfRange.
Proof.
  unfold read_u8. apply bind_not_assert; [apply load_not_assert|].
  discriminate.
Qed.

Create HintDb not_assert.
#[local] Hint Resolve load_not_assert store_not_assert deref_not_assert
  initialised_not_assert read_u8_not_assert : not_assert.

(** Goes through a sequence of monadic steps none of which asserts. *)
Ltac not_assert :=
  repeat first
    [ solve [auto with not_assert]
    | discriminate
    | apply bind_not_assert; [|intros ?]
    | match goal with
      | |- (if ?b then _ else _) <> _ => destruct b
      end ].

Lemma FetchSourceColor_not_assert depth tpe pal CelData Source :
  FetchSourceColor depth tpe pal CelData Source <> Err FrameIndexOutOfRange.
Proof. unfold FetchSourceColor. not_assert. Qed.

Section AssertOnly.
Variable File : aseprite_file.
Variables DestWidth DestHeight DestX DestY : Z.

Lemma AsepriteFrame_row_not_assert LayerIndex BlendMode LayerOpacity
    CelData (n : nat) :
  forall X Source Dest DestTexture,
  AsepriteFrame_row File DestWidth DestX LayerIndex BlendMode LayerOpacity
    CelData n X Source Dest DestTexture <> Err FrameIndexOutOfRange.
Proof.
  induction n as [|n IH]; intros X Source Dest DestTexture; simpl;
    [discriminate|].
  destruct (X + DestX <? 0); [apply IH|].
  destruct (X + DestX >=? DestWidth); [discriminate|].
  apply bind_not_assert; [apply FetchSourceColor_not_assert|].
  intros [SourceColor Source']. unfold load_px, store_px.
  apply bind_not_assert; [apply load_not_assert|]. intros Old.
  apply bind_not_assert; [apply store_not_assert|]. intros Tex.
  apply IH.
Qed.

Lemma AsepriteFrame_rows_not_assert LayerIndex BlendMode LayerOpacity
    CelData DestPitch DestStartX DataPitch StartY StartX (n : nat) :
  forall Y DestTexture,
  AsepriteFrame_rows File DestWidth DestHeight DestX DestY LayerIndex
    BlendMode LayerOpacity CelData DestPitch DestStartX DataPitch StartY
    StartX n Y DestTexture <> Err FrameIndexOutOfRange.
Proof.
  induction n as [|n IH]; intros Y DestTexture; simpl; [discriminate|].
  destruct (Y + DestY <? 0); [apply IH|].
  destruct (Y + DestY >=? DestHeight); [discriminate|].
  apply bind_not_assert; [apply AsepriteFrame_row_not_assert|].
  intros Tex. apply IH.
Qed.

Lemma AsepriteFrame_layers_not_assert FrameNumber (n : nat) :
  forall LayerIndex DestTexture,
  AsepriteFrame_layers File DestWidth DestHeight DestX DestY FrameNumber
    n LayerIndex DestTexture <> Err FrameIndexOutOfRange.
Proof.
  induction n as [|n IH]; intros LayerIndex DestTexture; simpl;
    [discriminate|].
  apply bind_not_assert; [apply load_not_assert|]. intros Slot.
  apply bind_not_assert; [apply initialised_not_assert|]. intros LayerInfo.
  apply bind_not_assert; [|intros Tex; apply IH].
  destruct (layer_skipped LayerInfo); [discriminate|].
  unfold AsepriteFrame_layer.
  apply bind_not_assert; [apply load_not_assert|]. intros Frame.
  apply bind_not_assert; [apply deref_not_assert|]. intros Layers.
  apply bind_not_assert; [apply load_not_assert|]. intros Layer.
  apply bind_not_assert; [apply initialised_not_assert|]. intros DataWidth.
  apply bind_not_assert; [apply initialised_not_assert|]. intros Header.
  apply AsepriteFrame_rows_not_assert.
Qed.
End AssertOnly.

(** ** Placement of a cel *)

(** C7 at two documents whose cel is smaller than the canvas.  In
    [offset_cel_file] the cel covers column 1 only: for canvas pixel (0, 0)
    the compositor reads the cel data 4 bytes before its start.  In
    [narrow_cel_file] the cel covers column 0 only: destination pixel
    (1, 0), outside the cel's rectangle, is written, with the cel's pixel
    (0, 1). *)
Theorem C7_cel_rectangle_not_clipped :
  match AsepriteParseFile offset_cel_file no_inflate junk_NumLayers,
        AsepriteParseFile narrow_cel_file no_inflate junk_NumLayers with
  | Ok Offset, Ok Narrow =>
      AsepriteGetEntireFrameRGBA Offset 2 1 0 0 0 [zero_px; zero_px]
      = Err OutOfBounds /\
      AsepriteGetEntireFrameRGBA Narrow 2 1 0 0 0 [zero_px; zero_px]
      = Ok [ {| px_r := 255; px_g := 0; px_b := 0; px_a := 255 |};
             {| px_r := 0; px_g := 0; px_b := 255; px_a := 255 |} ]
  | _, _ => False
  end.
Proof. vm_compute. split; reflexivity. Qed.


(** The destination side of the placement holds: a call that returns has
    written only destination pixels that lie under the canvas rectangle
    placed at ([DestX], [DestY]) and inside the destination rectangle. *)
Section DestinationBounds.
Variable File : aseprite_file.
Variables DestWidth DestHeight DestX DestY : Z.

Lemma AsepriteFrame_row_writes LayerIndex BlendMode LayerOpacity CelData
    (base : Z) (n : nat) :
  forall X Source Dest DestTexture DestTexture',
  Dest = 4 * (base + Z.max (X + DestX) 0) ->
  AsepriteFrame_row File DestWidth DestX LayerIndex BlendMode LayerOpacity
    CelData n X Source Dest DestTexture = Ok DestTexture' ->
  length DestTexture' = length DestTexture /\
  forall i,
    (forall x, X <= x < X + Z.of_nat n -> 0 <= x + DestX < DestWidth ->
               i <> base + (x + DestX)) ->
    load DestTexture' i = load DestTexture i.
Proof.
  induction n as [|n IH]; intros X Source Dest Tex Tex' HD H; simpl in H.
  - injection H as <-. auto.
  - destruct (Z.ltb_spec (X + DestX) 0).
    + apply IH in H as [Hlen Hout]; [|lia].
      split; [assumption|]. intros i Hi. apply Hout.
      intros x Hx. apply Hi. lia.
    + destruct (Z.geb_spec (X + DestX) DestWidth).
      * injection H as <-. auto.
      * apply bind_Ok in H as ([SourceColor Source'] & _ & H).
        cbv beta iota in H.
        apply bind_Ok in H as (Old & _ & H).
        apply bind_Ok in H as (Tex1 & Hst & H).
        unfold store_px in Hst.
        assert (Hq : Dest / 4 = base + (X + DestX)).
        { subst Dest. rewrite Z.mul_comm, Z.div_mul by lia. lia. }
        rewrite Hq in Hst.
        apply IH in H as [Hlen Hout]; [|lia].
        split; [rewrite Hlen; eapply store_length; eauto|].
        intros i Hi. rewrite Hout.
        -- eapply load_store_ne; eauto.
           intros Heq. apply (Hi X); [lia | lia | congruence].
        -- intros x Hx. apply Hi. lia.
Qed.

Lemma AsepriteFrame_rows_writes LayerIndex BlendMode LayerOpacity CelData
    DataPitch StartY StartX (n : nat) :
  forall Y DestTexture DestTexture',
  AsepriteFrame_rows File DestWidth DestHeight DestX DestY LayerIndex
    BlendMode LayerOpacity CelData (DestWidth * 4)
    (if DestX <? 0 then 0 else DestX * 4) DataPitch StartY StartX
    n Y DestTexture = Ok DestTexture' ->
  length DestTexture' = length DestTexture /\
  forall i,
    (forall x y, Y <= y < Y + Z.of_nat n ->
                 0 <= x < hdr_WidthInPixels (file_Header File) ->
                 0 <= x + DestX < DestWidth ->
                 0 <= y + DestY < DestHeight ->
                 i <> (y + DestY) * DestWidth + (x + DestX)) ->
    load DestTexture' i = load DestTexture i.
Proof.
  induction n as [|n IH]; intros Y Tex Tex' H; simpl in H.
  - injection H as <-. auto.
  - destruct (Z.ltb_spec (Y + DestY) 0).
    + apply IH in H as [Hlen Hout]. split; [assumption|].
      intros i Hi. apply Hout. intros x y Hy. apply Hi. lia.
    + destruct (Z.geb_spec (Y + DestY) DestHeight).
      * injection H as <-. auto.
      * apply bind_Ok in H as (Tex1 & Hrow & H).
        apply (AsepriteFrame_row_writes _ _ _ _ ((Y + DestY) * DestWidth))
          in Hrow as [Hlen1 Hout1];
          [|destruct (Z.ltb_spec DestX 0); lia].
        apply IH in H as [Hlen Hout].
        split; [congruence|].
        intros i Hi. rewrite Hout, Hout1; [reflexivity | |].
        -- intros x Hx Hc. apply Hi; lia.
        -- intros x y Hy. apply Hi. lia.
Qed.

Lemma AsepriteFrame_layers_writes FrameNumber (n : nat) :
  forall LayerIndex DestTexture DestTexture',
  AsepriteFrame_layers File DestWidth DestHeight DestX DestY FrameNumber
    n LayerIndex DestTexture = Ok DestTexture' ->
  length DestTexture' = length DestTexture /\
  forall i,
    (forall x y, 0 <= x < hdr_WidthInPixels (file_Header File) ->
                 0 <= y < hdr_HeightInPixels (file_Header File) ->
                 0 <= x + DestX < DestWidth ->
                 0 <= y + DestY < DestHeight ->
                 i <> (y + DestY) * DestWidth + (x + DestX)) ->
    load DestTexture' i = load DestTexture i.
Proof.
  induction n as [|n IH]; intros LayerIndex Tex Tex' H; simpl in H.
  - injection H as <-. auto.
  - apply bind_Ok in H as (Slot & _ & H).
    apply bind_Ok in H as (LayerInfo & _ & H).
    apply bind_Ok in H as (Tex1 & Hlayer & H).
    apply IH in H as [Hlen Hout].
    assert (H1 : length Tex1 = length Tex /\
                 forall i,
                   (forall x y,
                      0 <= x < hdr_WidthInPixels (file_Header File) ->
                      0 <= y < hdr_HeightInPixels (file_Header File) ->
                      0 <= x + DestX < DestWidth ->
                      0 <= y + DestY < DestHeight ->
                      i <> (y + DestY) * DestWidth + (x + DestX)) ->
                   load Tex1 i = load Tex i).
    { destruct (layer_skipped LayerInfo).
      - injection Hlayer as <-. auto.
      - unfold AsepriteFrame_layer in Hlayer. inv_ok Hlayer.
        apply AsepriteFrame_rows_writes in Hlayer as [Hl Ho].
        split; [assumption|]. intros i Hi. apply Ho.
        intros x y Hy Hx. apply Hi; lia. }
    destruct H1 as [Hlen1 Hout1]. split; [congruence|].
    intros i Hi. rewrite Hout, Hout1; auto.
Qed.

Lemma AsepriteGetEntireFrameRGBA_writes FrameNumber DestTexture
    DestTexture' :
  AsepriteGetEntireFrameRGBA File DestWidth DestHeight DestX DestY
    FrameNumber DestTexture = Ok DestTexture' ->
  length DestTexture' = length DestTexture /\
  forall i,
    (forall x y, 0 <= x < hdr_WidthInPixels (file_Header File) ->
                 0 <= y < hdr_HeightInPixels (file_Header File) ->
                 0 <= x + DestX < DestWidth ->
                 0 <= y + DestY < DestHeight ->
                 i <> (y + DestY) * DestWidth + (x + DestX)) ->
    load DestTexture' i = load DestTexture i.
Proof.
  unfold AsepriteGetEntireFrameRGBA. intros H.
  apply bind_Ok in H as (_ & _ & H).
  now apply AsepriteFrame_layers_writes in H.
Qed.
End DestinationBounds.


(** * Further properties of the parser *)

(** ** What each chunk touches *)

Section ChunkFootprint.
Variable FileData : list Z.
Variable inflate : list Z -> option (list Z).

Lemma AsepriteParsePalette_footprint File ChunkData File' :
  AsepriteParsePalette FileData File ChunkData = Ok File' ->
  file_Header File' = file_Header File /\
  file_NumFrames File' = file_NumFrames File /\
  file_Frames File' = file_Frames File /\
  file_NumLayers File' = file_NumLayers File /\
  file_LayerInfo File' = file_LayerInfo File.
Proof.
  unfold AsepriteParsePalette. intros H. inv_ok H. now injection H as <-.
Qed.

Lemma AsepriteParseOldPalette_footprint File ChunkData File' :
  AsepriteParseOldPalette FileData File ChunkData = Ok File' ->
  file_Header File' = file_Header File /\
  file_NumFrames File' = file_NumFrames File /\
  file_Frames File' = file_Frames File /\
  file_NumLayers File' = file_NumLayers File /\
  file_LayerInfo File' = file_LayerInfo File /\
  pal_Header (file_Palette File') = pal_Header (file_Palette File) /\
  pal_NumColors (file_Palette File') = pal_NumColors (file_Palette File).
Proof.
  unfold AsepriteParseOldPalette. intros H. inv_ok H.
  destruct v0. simpl in H. now injection H as <-.
Qed.

Lemma AsepriteParseLayer_footprint File Parser ChunkData File' Parser' :
  AsepriteParseLayer FileData File Parser ChunkData = Ok (File', Parser') ->
  file_Header File' = file_Header File /\
  file_NumFrames File' = file_NumFrames File /\
  file_Frames File' = file_Frames File /\
  file_Palette File' = file_Palette File /\
  At Parser' = At Parser /\
  UsesNewPalette Parser' = UsesNewPalette Parser.
Proof.
  unfold AsepriteParseLayer. intros H.
  destruct (file_NumLayers File =? AvailableLayers Parser);
    inv_ok H; injection H as <- <-; auto 10.
Qed.

(** Case analysis on a successful chunk step, by the handler that ran. *)
Lemma AsepriteParseChunk_cases File Frame Parser File' Frame' Parser' :
  AsepriteParseChunk FileData inflate File Frame Parser
  = Ok (File', Frame', Parser') ->
  exists ChunkHeader,
    read_aseprite_chunk_header FileData (At Parser) = Ok ChunkHeader /\
    let Next := set_At Parser (At Parser + ch_ChunkSize ChunkHeader) in
    let ChunkData := At Parser + sizeof_aseprite_chunk_header in
    (* nothing decoded *)
    ((File', Frame', Parser') = (File, Frame, Next) /\
     ch_ChunkType ChunkHeader <> AsepriteChunk_Layer /\
     ch_ChunkType ChunkHeader <> AsepriteChunk_Cel /\
     ch_ChunkType ChunkHeader <> AsepriteChunk_Palette)
    \/
    (* legacy palette *)
    (ch_ChunkType ChunkHeader = AsepriteChunk_OldPalette /\
     UsesNewPalette Parser = false /\
     AsepriteParseOldPalette FileData File ChunkData = Ok File' /\
     Frame' = Frame /\ Parser' = Next)
    \/
    (* layer *)
    (ch_ChunkType ChunkHeader = AsepriteChunk_Layer /\
     AsepriteParseLayer FileData File Next ChunkData = Ok (File', Parser') /\
     Frame' = Frame)
    \/
    (* cel *)
    (ch_ChunkType ChunkHeader = AsepriteChunk_Cel /\
     File' = File /\ Parser' = Next /\
     AsepriteParseCel FileData inflate
       (if decide (frame_NumLayers Frame = file_NumLayers File)
        then Frame
        else {| frame_Header := frame_Header Frame;
                frame_NumLayers := file_NumLayers File;
                frame_Layers :=
                  Block (replicate (Z.to_nat (file_NumLayers File))
                           fresh_layer) |})
       ChunkData
       (to_int (ch_ChunkSize ChunkHeader - sizeof_aseprite_chunk_header))
     = Ok Frame')
    \/
    (* modern palette *)
    (ch_ChunkType ChunkHeader = AsepriteChunk_Palette /\
     AsepriteParsePalette FileData File ChunkData = Ok File' /\
     Frame' = Frame /\
     Parser' = {| At := At Next; AvailableLayers := AvailableLayers Next;
                  UsesNewPalette := true |}).
Proof.
  intros H.
  pose proof (AsepriteParseChunk_cursor _ _ _ _ _ _ _ _ H) as (h & Hh & _).
  exists h. split; [exact Hh|]. cbv zeta.
  destruct (Z.eq_dec (ch_ChunkType h) AsepriteChunk_Cel) as [Hc|Hc].
  { rewrite (AsepriteParseChunk_cel _ _ _ _ _ _ Hh Hc) in H.
    apply bind_Ok in H as (Fr & Hcel & H). injection H as <- <- <-.
    right. right. right. left. auto. }
  unfold AsepriteParseChunk in H. rewrite Hh in H. simpl in H.
  repeat match type of H with
         | context [if ?b =? ?c then _ else _] =>
             destruct (Z.eqb_spec b c)
         end; try contradiction.
  - destruct (UsesNewPalette Parser) eqn:E; simpl in H.
    + injection H as <- <- <-. left. rewrite e. repeat split; discriminate.
    + apply bind_Ok in H as (F1 & H1 & H). injection H as <- <- <-.
      right. left. auto.
  - injection H as <- <- <-. left. rewrite e. repeat split; discriminate.
  - apply bind_Ok in H as ([F1 P1] & H1 & H). injection H as <- <- <-.
    right. right. left. auto.
  - injection H as <- <- <-. left.
    first [rewrite e; repeat split; discriminate | repeat split; assumption].
  - injection H as <- <- <-. left.
    first [rewrite e; repeat split; discriminate | repeat split; assumption].
  - injection H as <- <- <-. left.
    first [rewrite e; repeat split; discriminate | repeat split; assumption].
  - apply bind_Ok in H as (F1 & H1 & H). injection H as <- <- <-.
    right. right. right. right. auto.
  - injection H as <- <- <-. left.
    first [rewrite e; repeat split; discriminate | repeat split; assumption].
  - injection H as <- <- <-. left.
    first [rewrite e; repeat split; discriminate | repeat split; assumption].
Qed.
End ChunkFootprint.

(** ** Invariants carried through the loops of the parser *)

Section FileInvariant.
Variable FileData : list Z.
Variable inflate : list Z -> option (list Z).
Variable Inv : aseprite_file -> aseprite_parser -> Prop.

Hypothesis Inv_chunk :
  forall File Frame Parser File' Frame' Parser',
    AsepriteParseChunk FileData inflate File Frame Parser
    = Ok (File', Frame', Parser') ->
    Inv File Parser -> Inv File' Parser'.
Hypothesis Inv_cursor :
  forall File Parser p, Inv File Parser -> Inv File (set_At Parser p).
Hypothesis Inv_frames :
  forall File Parser FrameIndex Frame Frames,
    store (file_Frames File) FrameIndex Frame = Ok Frames ->
    Inv File Parser -> Inv (set_Frames File Frames) Parser.

Lemma AsepriteParseChunks_invariant (n : nat) :
  forall File Frame Parser File' Frame' Parser',
  AsepriteParseChunks FileData inflate n File Frame Parser
  = Ok (File', Frame', Parser') ->
  Inv File Parser -> Inv File' Parser'.
Proof.
  induction n as [|n IH]; intros File Frame Parser File' Frame' Parser' H;
    simpl in H.
  - now injection H as <- <- <-.
  - apply bind_Ok in H as ([[F1 Fr1] P1] & H1 & H). cbv beta iota in H.
    intros HI. eapply IH; [exact H|]. eapply Inv_chunk; eauto.
Qed.

Lemma AsepriteParseFrame_invariant File Frame Parser File' Frame' Parser' :
  AsepriteParseFrame FileData inflate File Frame Parser
  = Ok (File', Frame', Parser') ->
  Inv File Parser -> Inv File' Parser'.
Proof.
  unfold AsepriteParseFrame. intros H HI.
  apply bind_Ok in H as (h & _ & H). simpl in H.
  eapply AsepriteParseChunks_invariant; [exact H|]. now apply Inv_cursor.
Qed.

Lemma AsepriteParseFrames_invariant (n : nat) :
  forall FrameIndex File Parser File' Parser',
  AsepriteParseFrames FileData inflate n FrameIndex File Parser
  = Ok (File', Parser') ->
  Inv File Parser -> Inv File' Parser'.
Proof.
  induction n as [|n IH]; intros FrameIndex File Parser File' Parser' H HI;
    cbn [AsepriteParseFrames] in H.
  - now injection H as <- <-.
  - apply bind_Ok in H as (Frame & _ & H).
    apply bind_Ok in H as ([[F1 Fr1] P1] & H1 & H). cbv beta iota in H.
    apply bind_Ok in H as (Frames1 & HS & H).
    eapply IH; [exact H|]. eapply Inv_frames; [exact HS|].
    eapply AsepriteParseFrame_invariant; eauto.
Qed.
End FileInvariant.

(** ** The layer table *)

Section LayerTable.
Variable FileData : list Z.
Variable inflate : list Z -> option (list Z).

(** A layer chunk appends one descriptor: the count goes up by one, the
    descriptors already there stay where they are, and the new one holds
    the header read from the chunk and the name, copied and closed by a
    zero byte.  The capacity doubles when the table is full. *)
Lemma AsepriteParseLayer_appends File Parser ChunkData File' Parser' :
  0 <= file_NumLayers File <= Z.of_nat (length (file_LayerInfo File)) ->
  AsepriteParseLayer FileData File Parser ChunkData = Ok (File', Parser') ->
  file_NumLayers File' = file_NumLayers File + 1 /\
  (forall i, 0 <= i < file_NumLayers File ->
     load (file_LayerInfo File') i = load (file_LayerInfo File) i) /\
  (exists LayerHeader Length Name,
     read_aseprite_layer_header FileData ChunkData = Ok LayerHeader /\
     read_u16 FileData (ChunkData + sizeof_aseprite_layer_header)
     = Ok Length /\
     read_bytes FileData (ChunkData + sizeof_aseprite_layer_header + 2)
       (Z.to_nat Length) = Ok Name /\
     load (file_LayerInfo File') (file_NumLayers File)
     = Ok (Some {| info_Header := LayerHeader;
                   info_Name := Name ++ [0] |})) /\
  AvailableLayers Parser'
  = (if file_NumLayers File =? AvailableLayers Parser
     then AvailableLayers Parser * 2 else AvailableLayers Parser) /\
  length (file_LayerInfo File')
  = (if file_NumLayers File =? AvailableLayers Parser
     then Z.to_nat (AvailableLayers Parser * 2)
     else length (file_LayerInfo File)).
Proof.
  intros HN H. unfold AsepriteParseLayer in H.
  destruct (file_NumLayers File =? AvailableLayers Parser) eqn:E;
    inv_ok H; injection H as <- <-; simpl;
    unfold AsepriteParseString in Hv0; inv_ok Hv0; injection Hv0 as <-;
    simpl in *; pose proof (store_Ok _ _ _ _ Hv2) as [Hr Heq];
    (split; [reflexivity|]); (split; [|split; [|split]]).
  - intros i Hi. rewrite (load_store_ne _ _ _ _ _ Hv2) by lia.
    unfold load. destruct (i <? 0); [reflexivity|].
    rewrite length_resize in Hr.
    rewrite lookup_resize by lia. reflexivity.
  - eexists _, _, _. repeat split; eauto. eapply load_store_eq; eauto.
  - reflexivity.
  - rewrite Heq, length_insert, length_resize. reflexivity.
  - intros i Hi. now rewrite (load_store_ne _ _ _ _ _ Hv2) by lia.
  - eexists _, _, _. repeat split; eauto. eapply load_store_eq; eauto.
  - reflexivity.
  - rewrite Heq, length_insert. reflexivity.
Qed.

Lemma AsepriteParseLayer_layer_table File Parser ChunkData File' Parser' :
  AsepriteParseLayer FileData File Parser ChunkData = Ok (File', Parser') ->
  layer_table_ok File Parser -> layer_table_ok File' Parser'.
Proof.
  intros H (Hlen & HN & Hpos & Hdesc).
  apply AsepriteParseLayer_appends in H
    as (HN' & Hkeep & (h & l & nm & _ & _ & _ & Hnew) & HAv & Hlen');
    [|lia].
  unfold layer_table_ok. rewrite HN', HAv, Hlen'.
  destruct (Z.eqb_spec (file_NumLayers File) (AvailableLayers Parser)).
  - repeat split; try lia.
    intros i Hi. destruct (Z.eq_dec i (file_NumLayers File)) as [->|];
      [eauto|]. rewrite Hkeep by lia. apply Hdesc. lia.
  - repeat split; try lia.
    intros i Hi. destruct (Z.eq_dec i (file_NumLayers File)) as [->|];
      [eauto|]. rewrite Hkeep by lia. apply Hdesc. lia.
Qed.

Lemma AsepriteParseChunk_layer_table File Frame Parser File' Frame' Parser' :
  AsepriteParseChunk FileData inflate File Frame Parser
  = Ok (File', Frame', Parser') ->
  layer_table_ok File Parser -> layer_table_ok File' Parser'.
Proof.
  intros H HI.
  apply AsepriteParseChunk_cases in H as (h & Hh & Hcases).
  destruct Hcases as [(Heq & _) | [(_ & _ & Hp & _ & ->)
    | [(_ & Hl & _) | [(_ & -> & -> & _) | (_ & Hp & _ & ->)]]]].
  - injection Heq as -> -> ->. exact HI.
  - apply AsepriteParseOldPalette_footprint in Hp
      as (_ & _ & _ & HNL & HLI & _).
    unfold layer_table_ok in *. simpl. now rewrite HNL, HLI.
  - eapply AsepriteParseLayer_layer_table; [exact Hl|]. exact HI.
  - exact HI.
  - apply AsepriteParsePalette_footprint in Hp as (_ & _ & _ & HNL & HLI).
    unfold layer_table_ok in *. simpl. now rewrite HNL, HLI.
Qed.
End LayerTable.

(** X1: a parse that returns leaves the layer table well formed: it has
    [AvailableLayers] cells, at most that many layers are counted, and each
    of the first [NumLayers] cells holds a descriptor, so the loop of the
    compositor over the layers finds every descriptor it asks for. *)
Theorem parsed_layer_table (FileData : list Z)
    (inflate : list Z -> option (list Z)) (fresh_NumLayers : nat -> Z)
    (File : aseprite_file) (Parser : aseprite_parser) :
  AsepriteParseFile_run FileData inflate fresh_NumLayers = Ok (File, Parser) ->
  layer_table_ok File Parser.
Proof.
  unfold AsepriteParseFile_run. intros H.
  apply bind_Ok in H as ([File0 Parser0] & Hinit & H). cbv beta iota in H.
  eapply (AsepriteParseFrames_invariant FileData inflate layer_table_ok);
    [ | | | exact H | ].
  - apply AsepriteParseChunk_layer_table.
  - intros F P p HI. exact HI.
  - intros F P i Fr Frs _ HI. exact HI.
  - unfold AsepriteParseFile_init in Hinit. inv_ok Hinit.
    injection Hinit as <- <-. unfold layer_table_ok. simpl.
    repeat split; lia.
Qed.

Lemma parsed_layer_table_witness :
  exists File Parser,
    AsepriteParseFile_run hidden_bottom_file no_inflate junk_NumLayers
    = Ok (File, Parser) /\
    file_NumLayers File = 2 /\ layer_table_ok File Parser.
Proof.
  destruct (AsepriteParseFile_run hidden_bottom_file no_inflate
              junk_NumLayers) as [[File Parser]|e] eqn:Hrun;
    [|vm_compute in Hrun; discriminate].
  exists File, Parser. split; [reflexivity|]. split.
  - vm_compute in Hrun. now injection Hrun as <- <-.
  - exact (parsed_layer_table _ _ _ _ _ Hrun).
Defined.


(** X2: a chunk of type 0x2004 appends one layer descriptor to a well
    formed layer table: the count goes up by one, every descriptor already
    in the table is still at its index, the new one holds the header at
    the chunk's payload and the name that follows it, closed by a zero
    byte; the frame, the frame array and the palette are as before. *)
Theorem layer_chunk_appends (FileData : list Z)
    (inflate : list Z -> option (list Z))
    (File : aseprite_file) (Frame : aseprite_frame) (Parser : aseprite_parser)
    (ChunkHeader : aseprite_chunk_header)
    (File' : aseprite_file) (Frame' : aseprite_frame)
    (Parser' : aseprite_parser) :
  layer_table_ok File Parser ->
  read_aseprite_chunk_header FileData (At Parser) = Ok ChunkHeader ->
  ch_ChunkType ChunkHeader = AsepriteChunk_Layer ->
  AsepriteParseChunk FileData inflate File Frame Parser
  = Ok (File', Frame', Parser') ->
  let ChunkData := At Parser + sizeof_aseprite_chunk_header in
  file_NumLayers File' = file_NumLayers File + 1 /\
  (forall i, 0 <= i < file_NumLayers File ->
     load (file_LayerInfo File') i = load (file_LayerInfo File) i) /\
  (exists LayerHeader Length Name,
     read_aseprite_layer_header FileData ChunkData = Ok LayerHeader /\
     read_u16 FileData (ChunkData + sizeof_aseprite_layer_header)
     = Ok Length /\
     read_bytes FileData (ChunkData + sizeof_aseprite_layer_header + 2)
       (Z.to_nat Length) = Ok Name /\
     load (file_LayerInfo File') (file_NumLayers File)
     = Ok (Some {| info_Header := LayerHeader; info_Name := Name ++ [0] |})) /\
  Frame' = Frame /\
  file_Frames File' = file_Frames File /\
  file_Palette File' = file_Palette File.
Proof.
  intros (Hlen & HN & Hpos & Hdesc) Hh Ht H. cbv zeta.
  apply AsepriteParseChunk_cases in H as (h & Hh' & Hcases).
  rewrite Hh in Hh'. injection Hh' as <-. cbv zeta in Hcases.
  destruct Hcases as [(_ & Hn & _) | [(Ho & _)
    | [(_ & Hl & ->) | [(Hc & _) | (Hp & _)]]]];
    try contradiction; try (rewrite Ht in *; discriminate).
  pose proof (AsepriteParseLayer_footprint _ _ _ _ _ _ Hl)
    as (_ & _ & HFr & HPal & _).
  apply AsepriteParseLayer_appends in Hl as (HN' & Hkeep & Hnew & _);
    [|lia].
  auto 10.
Qed.

Lemma layer_chunk_appends_witness :
  exists File' Frame' Parser',
    AsepriteParseChunk three_layers_file no_inflate
      two_layers_doc junk_frame
      {| At := 194; AvailableLayers := 2; UsesNewPalette := false |}
    = Ok (File', Frame', Parser') /\
    file_NumLayers File' = 3 /\
    load (file_LayerInfo File') 0 = load (file_LayerInfo two_layers_doc) 0 /\
    load (file_LayerInfo File') 1 = load (file_LayerInfo two_layers_doc) 1.
Proof.
  destruct (AsepriteParseChunk three_layers_file no_inflate
              two_layers_doc junk_frame
              {| At := 194; AvailableLayers := 2; UsesNewPalette := false |})
    as [[[File' Frame'] Parser']|e] eqn:Hrun;
    [|vm_compute in Hrun; discriminate].
  exists File', Frame', Parser'. split; [reflexivity|].
  assert (Hok : layer_table_ok two_layers_doc
                  {| At := 194; AvailableLayers := 2;
                     UsesNewPalette := false |}).
  { unfold layer_table_ok. simpl. split; [reflexivity|].
    split; [lia|]. split; [lia|]. intros i Hi.
    assert (Hc : i = 0 \/ i = 1) by lia.
    destruct Hc as [-> | ->]; eexists; reflexivity. }
  destruct (layer_chunk_appends three_layers_file no_inflate _ _ _
              {| ch_ChunkSize := 25; ch_ChunkType := AsepriteChunk_Layer |}
              _ _ _ Hok eq_refl eq_refl Hrun)
    as (HN & Hkeep & _).
  split; [exact HN|].
  split; apply Hkeep; simpl; lia.
Defined.

(** ** Descriptors stay *)

Section LayersStay.
Variable FileData : list Z.
Variable inflate : list Z -> option (list Z).

Lemma AsepriteParseChunk_extends File Frame Parser File' Frame' Parser' :
  AsepriteParseChunk FileData inflate File Frame Parser
  = Ok (File', Frame', Parser') ->
  layer_table_ok File Parser ->
  extends_layers (File, Frame, Parser) (File', Frame', Parser').
Proof.
  intros H (Hlen & HN & Hpos & Hdesc).
  apply AsepriteParseChunk_cases in H as (h & Hh & Hcases).
  unfold extends_layers, state_File. simpl.
  destruct Hcases as [(Heq & _) | [(_ & _ & Hp & _ & ->)
    | [(_ & Hl & _) | [(_ & -> & -> & _) | (_ & Hp & _ & ->)]]]].
  - injection Heq as -> -> ->. split; [lia | auto].
  - apply AsepriteParseOldPalette_footprint in Hp
      as (_ & _ & _ & -> & -> & _). split; [lia | auto].
  - apply AsepriteParseLayer_appends in Hl as (-> & Hkeep & _);
      [|simpl; lia]. split; [lia | auto].
  - split; [lia | auto].
  - apply AsepriteParsePalette_footprint in Hp as (_ & _ & _ & -> & ->).
    split; [lia | auto].
Qed.

Lemma parser_step_layers s s' :
  parser_step FileData inflate s s' ->
  layer_table_ok (state_File s) (state_Parser s) ->
  layer_table_ok (state_File s') (state_Parser s') /\ extends_layers s s'.
Proof.
  intros Hstep HI. destruct Hstep as [F Fr P [[F' Fr'] P'] H | | ].
  - split.
    + eapply AsepriteParseChunk_layer_table; eauto.
    + eapply AsepriteParseChunk_extends; eauto.
  - split; [exact HI | split; [reflexivity | auto]].
  - split; [exact HI | split; [reflexivity | auto]].
Qed.
End LayersStay.

(** X3: along any sequence of parser steps (chunk dispatch, frame header,
    next frame) that starts with a well formed layer table, the number of
    layers never goes down and a descriptor, once in the table, stays at
    its index unchanged: no chunk removes, replaces or reorders layers. *)
Theorem layers_persist (FileData : list Z)
    (inflate : list Z -> option (list Z)) (s s' : parse_state) :
  rtc (parser_step FileData inflate) s s' ->
  layer_table_ok (state_File s) (state_Parser s) ->
  file_NumLayers (state_File s) <= file_NumLayers (state_File s') /\
  forall i, 0 <= i < file_NumLayers (state_File s) ->
    load (file_LayerInfo (state_File s')) i
    = load (file_LayerInfo (state_File s)) i.
Proof.
  intros Hrun. induction Hrun as [s | s s1 s' Hstep Hrun IH]; intros HI.
  - split; [lia | auto].
  - apply parser_step_layers in Hstep as [HI1 [Hle Hkeep]]; [|exact HI].
    destruct (IH HI1) as [Hle' Hkeep']. split; [lia|].
    intros i Hi. rewrite Hkeep' by lia. now apply Hkeep.
Qed.

Lemma layers_persist_witness :
  exists s',
    chunk_step three_layers_file no_inflate
      (two_layers_doc, junk_frame,
       {| At := 194; AvailableLayers := 2; UsesNewPalette := false |})
    = Ok s' /\
    2 <= file_NumLayers (state_File s') /\
    load (file_LayerInfo (state_File s')) 1
    = load (file_LayerInfo two_layers_doc) 1.
Proof.
  destruct (chunk_step three_layers_file no_inflate
              (two_layers_doc, junk_frame,
               {| At := 194; AvailableLayers := 2;
                  UsesNewPalette := false |}))
    as [s'|e] eqn:Hrun; [|vm_compute in Hrun; discriminate].
  exists s'. split; [reflexivity|].
  assert (Hok : layer_table_ok two_layers_doc
                  {| At := 194; AvailableLayers := 2;
                     UsesNewPalette := false |}).
  { unfold layer_table_ok. simpl. split; [reflexivity|].
    split; [lia|]. split; [lia|]. intros i Hi.
    assert (Hc : i = 0 \/ i = 1) by lia.
    destruct Hc as [-> | ->]; eexists; reflexivity. }
  destruct (layers_persist three_layers_file no_inflate _ s'
              (rtc_once _ _ (step_chunk _ _ _ _ _ _ Hrun)) Hok)
    as [Hle Hkeep].
  split; [exact Hle|]. apply Hkeep. simpl. lia.
Defined.


(** ** The frame array *)

Lemma load_Ok {T} (cells : list T) (i : Z) (v : T) :
  load cells i = Ok v ->
  0 <= i < Z.of_nat (length cells) /\ cells !! Z.to_nat i = Some v.
Proof.
  unfold load. destruct (Z.ltb_spec i 0); [discriminate|].
  destruct (cells !! Z.to_nat i) as [x|] eqn:E; [|discriminate].
  intros [= ->]. apply lookup_lt_Some in E as Hlt. split; [lia | reflexivity].
Qed.

Lemma length_fresh_frames fresh_NumLayers (n : nat) :
  length (fresh_frames fresh_NumLayers n) = n.
Proof. unfold fresh_frames. now rewrite length_map, length_seq. Qed.

Section FrameArray.
Variable FileData : list Z.
Variable inflate : list Z -> option (list Z).

(** No chunk touches the file header, the frame count, the frame array
    or the header of the frame being filled. *)
Lemma AsepriteParseChunk_frame_array File Frame Parser File' Frame'
    Parser' :
  AsepriteParseChunk FileData inflate File Frame Parser
  = Ok (File', Frame', Parser') ->
  file_Header File' = file_Header File /\
  file_NumFrames File' = file_NumFrames File /\
  file_Frames File' = file_Frames File /\
  frame_Header Frame' = frame_Header Frame.
Proof.
  intros H. apply AsepriteParseChunk_cases in H as (h & Hh & Hcases).
  destruct Hcases as [(Heq & _) | [(_ & _ & Hp & -> & ->)
    | [(_ & Hl & ->) | [(_ & -> & -> & Hc) | (_ & Hp & -> & ->)]]]].
  - now injection Heq as -> -> ->.
  - apply AsepriteParseOldPalette_footprint in Hp
      as (-> & -> & -> & _). auto.
  - apply AsepriteParseLayer_footprint in Hl as (-> & -> & -> & _). auto.
  - apply AsepriteParseCel_Ok in Hc
      as (c & Ls & L & _ & _ & _ & _ & _ & _ & ->).
    now destruct (decide _).
  - apply AsepriteParsePalette_footprint in Hp as (-> & -> & -> & _). auto.
Qed.

Lemma AsepriteParseChunks_frame_array (n : nat) :
  forall File Frame Parser File' Frame' Parser',
  AsepriteParseChunks FileData inflate n File Frame Parser
  = Ok (File', Frame', Parser') ->
  file_Header File' = file_Header File /\
  file_NumFrames File' = file_NumFrames File /\
  file_Frames File' = file_Frames File /\
  frame_Header Frame' = frame_Header Frame.
Proof.
  induction n as [|n IH]; intros File Frame Parser File' Frame' Parser' H;
    simpl in H.
  - now injection H as <- <- <-.
  - apply bind_Ok in H as ([[F1 Fr1] P1] & H1 & H). cbv beta iota in H.
    apply IH in H as (-> & -> & -> & ->).
    now apply AsepriteParseChunk_frame_array in H1.
Qed.

Lemma AsepriteParseFrame_frame_array File Frame Parser File' Frame'
    Parser' :
  AsepriteParseFrame FileData inflate File Frame Parser
  = Ok (File', Frame', Parser') ->
  file_Header File' = file_Header File /\
  file_NumFrames File' = file_NumFrames File /\
  file_Frames File' = file_Frames File /\
  exists FrameHeader,
    read_aseprite_frame_header FileData (At Parser) = Ok FrameHeader /\
    frame_Header Frame' = Some FrameHeader.
Proof.
  unfold AsepriteParseFrame. intros H.
  apply bind_Ok in H as (h & Hh & H). simpl in H.
  apply AsepriteParseChunks_frame_array in H as (-> & -> & -> & ->).
  eauto 10.
Qed.

Lemma AsepriteParseFrames_frame_array (n : nat) :
  forall FrameIndex File Parser File' Parser',
  0 <= FrameIndex ->
  AsepriteParseFrames FileData inflate n FrameIndex File Parser
  = Ok (File', Parser') ->
  file_Header File' = file_Header File /\
  file_NumFrames File' = file_NumFrames File /\
  length (file_Frames File') = length (file_Frames File) /\
  frames_read (file_Frames File') FrameIndex n /\
  forall i, i < FrameIndex ->
    load (file_Frames File') i = load (file_Frames File) i.
Proof.
  induction n as [|n IH]; intros FrameIndex File Parser File' Parser' Hpos H;
    cbn [AsepriteParseFrames] in H.
  - injection H as <- <-. repeat split; try reflexivity.
    intros i Hi. lia.
  - apply bind_Ok in H as (Frame & _ & H).
    apply bind_Ok in H as ([[F1 Fr1] P1] & H1 & H). cbv beta iota in H.
    apply bind_Ok in H as (Frames1 & HS & H).
    apply AsepriteParseFrame_frame_array in H1
      as (HH & HNF & HFr & h & _ & Hhdr).
    apply IH in H as (HH' & HNF' & Hlen' & Hread & Hbelow); [|lia].
    simpl in HH', HNF', Hlen', Hbelow.
    rewrite HH', HNF', Hlen', HH, HNF.
    rewrite (store_length _ _ _ _ HS), HFr.
    repeat split; try reflexivity.
    + intros i Hi. destruct (Z.eq_dec i FrameIndex) as [->|Hne].
      * exists Fr1, h. split; [|exact Hhdr].
        rewrite Hbelow by lia. eapply load_store_eq; eauto.
      * apply Hread. lia.
    + intros i Hi. rewrite Hbelow by lia. rewrite <- HFr.
      eapply load_store_ne; eauto. lia.
Qed.
End FrameArray.

(** X4: a parse that returns has kept the file header it read at offset
    0, has a frame array of exactly the number of frames that header
    declares, and has read a frame header into every element of it. *)
Theorem parsed_frames (FileData : list Z)
    (inflate : list Z -> option (list Z)) (fresh_NumLayers : nat -> Z)
    (File : aseprite_file) (Parser : aseprite_parser) :
  AsepriteParseFile_run FileData inflate fresh_NumLayers = Ok (File, Parser) ->
  read_aseprite_header FileData 0 = Ok (file_Header File) /\
  frames_ok File /\
  frames_read (file_Frames File) 0 (Z.to_nat (file_NumFrames File)).
Proof.
  unfold AsepriteParseFile_run. intros H.
  apply bind_Ok in H as ([File0 Parser0] & Hinit & H). cbv beta iota in H.
  apply AsepriteParseFrames_frame_array in H
    as (HH & HNF & Hlen & Hread & _); [|lia].
  unfold AsepriteParseFile_init in Hinit. inv_ok Hinit.
  injection Hinit as <- <-. simpl in *.
  unfold frames_ok. rewrite HH, HNF, Hlen, length_fresh_frames.
  auto.
Qed.

Lemma parsed_frames_witness :
  exists File Parser,
    AsepriteParseFile_run two_frames_file no_inflate junk_NumLayers
    = Ok (File, Parser) /\
    file_NumFrames File = 2 /\
    frames_read (file_Frames File) 0 2.
Proof.
  destruct (AsepriteParseFile_run two_frames_file no_inflate junk_NumLayers)
    as [[File Parser]|e] eqn:Hrun; [|vm_compute in Hrun; discriminate].
  exists File, Parser. split; [reflexivity|].
  destruct (parsed_frames _ _ _ _ _ Hrun) as (_ & _ & Hread).
  assert (HN : file_NumFrames File = 2).
  { vm_compute in Hrun. now injection Hrun as <- <-. }
  rewrite HN in Hread. split; [exact HN | exact Hread].
Defined.

(** ** The cursor *)

Section Cursor.
Variable FileData : list Z.
Variable inflate : list Z -> option (list Z).

Lemma AsepriteParseChunks_cursor (n : nat) :
  forall File Frame Parser File' Frame' Parser',
  AsepriteParseChunks FileData inflate n File Frame Parser
  = Ok (File', Frame', Parser') ->
  chunks_end FileData n (At Parser) = Ok (At Parser').
Proof.
  induction n as [|n IH]; intros File Frame Parser File' Frame' Parser' H;
    simpl in H.
  - now injection H as <- <- <-.
  - apply bind_Ok in H as ([[F1 Fr1] P1] & H1 & H). cbv beta iota in H.
    apply AsepriteParseChunk_cursor in H1 as (h & Hh & HAt).
    apply IH in H. simpl. rewrite Hh. simpl. now rewrite <- HAt.
Qed.

Lemma AsepriteParseFrames_cursor (n : nat) :
  forall FrameIndex File Parser File' Parser',
  AsepriteParseFrames FileData inflate n FrameIndex File Parser
  = Ok (File', Parser') ->
  frames_end FileData n (At Parser) = Ok (At Parser').
Proof.
  induction n as [|n IH]; intros FrameIndex File Parser File' Parser' H;
    cbn [AsepriteParseFrames] in H.
  - now injection H as <- <-.
  - apply bind_Ok in H as (Frame & _ & H).
    apply bind_Ok in H as ([[F1 Fr1] P1] & H1 & H). cbv beta iota in H.
    apply bind_Ok in H as (Frames1 & _ & H).
    apply IH in H. unfold AsepriteParseFrame in H1.
    apply bind_Ok in H1 as (h & Hh & H1). simpl in H1.
    apply AsepriteParseChunks_cursor in H1. simpl in H1.
    simpl. rewrite Hh. simpl. rewrite H1. simpl. exact H.
Qed.
End Cursor.

(** X5: where a parse that returns has left its cursor depends only on
    the frame count of the file header, the chunk count of each frame
    header and the declared size of each chunk: frame after frame, the
    frame header is passed, then as many chunks as it counts, each by its
    declared size.  The byte count of a frame header and what the chunks
    contain play no part. *)
Theorem parse_follows_declared_sizes (FileData : list Z)
    (inflate : list Z -> option (list Z)) (fresh_NumLayers : nat -> Z)
    (File : aseprite_file) (Parser : aseprite_parser) :
  AsepriteParseFile_run FileData inflate fresh_NumLayers = Ok (File, Parser) ->
  frames_end FileData (Z.to_nat (hdr_Frames (file_Header File)))
    sizeof_aseprite_header
  = Ok (At Parser).
Proof.
  unfold AsepriteParseFile_run. intros H.
  apply bind_Ok in H as ([File0 Parser0] & Hinit & H). cbv beta iota in H.
  pose proof (AsepriteParseFrames_frame_array _ _ _ _ _ _ _ _
                (Z.le_refl 0) H) as (HH & _).
  apply AsepriteParseFrames_cursor in H.
  unfold AsepriteParseFile_init in Hinit. inv_ok Hinit.
  injection Hinit as <- <-. simpl in H, HH. rewrite HH. exact H.
Qed.

Lemma parse_follows_declared_sizes_witness :
  exists File Parser,
    AsepriteParseFile_run two_frames_file no_inflate junk_NumLayers
    = Ok (File, Parser) /\
    frames_end two_frames_file 2 128 = Ok (At Parser) /\
    At Parser = len two_frames_file.
Proof.
  destruct (AsepriteParseFile_run two_frames_file no_inflate junk_NumLayers)
    as [[File Parser]|e] eqn:Hrun; [|vm_compute in Hrun; discriminate].
  exists File, Parser. split; [reflexivity|].
  pose proof (parse_follows_declared_sizes _ _ _ _ _ Hrun) as Hend.
  assert (HF : hdr_Frames (file_Header File) = 2 /\
               At Parser = len two_frames_file).
  { vm_compute in Hrun. injection Hrun as <- <-. split; reflexivity. }
  destruct HF as [HF HAt]. rewrite HF in Hend.
  split; [exact Hend | exact HAt].
Defined.


(** ** Cels *)

(** [read_bytes] copies: as many bytes as asked for, each the byte of the
    file at its offset. *)
Lemma read_bytes_spec FileData (n : nat) :
  forall At Data,
  read_bytes FileData At n = Ok Data ->
  length Data = n /\
  forall (k : nat) b, Data !! k = Some b ->
    read_u8 FileData (At + Z.of_nat k) = Ok b.
Proof.
  induction n as [|n IH]; intros At Data H; simpl in H.
  - injection H as <-. split; [reflexivity|]. intros k b Hk. discriminate.
  - inv_ok H. injection H as <-. apply IH in Hv0 as [Hlen Hget].
    split; [simpl; congruence|]. intros [|k] b Hk; simpl in Hk.
    + injection Hk as <-. now rewrite Z.add_0_r.
    + apply Hget in Hk. rewrite <- Hk. f_equal. lia.
Qed.

Section Cels.
Variable FileData : list Z.
Variable inflate : list Z -> option (list Z).

(** The shape of a successful [AsepriteParseCel]: the cel that the
    [switch] on the cel type builds goes into the slot of the declared
    layer index. *)
Lemma AsepriteParseCel_slot Frame ChunkData ChunkLength Frame' CelHeader :
  read_aseprite_cel_header FileData ChunkData = Ok CelHeader ->
  AsepriteParseCel FileData inflate Frame ChunkData ChunkLength
  = Ok Frame' ->
  exists Layers Old Layer,
    frame_Layers Frame = Block Layers /\
    load Layers (cel_LayerIndex CelHeader) = Ok Old /\
    frame_Layers Frame'
    = Block (<[Z.to_nat (cel_LayerIndex CelHeader) := Layer]> Layers) /\
    (if cel_CelType CelHeader =? AsepriteCelType_Raw then
       let* WidthInPixels :=
         read_u16 FileData (ChunkData + sizeof_aseprite_cel_header) in
       let* HeightInPixels :=
         read_u16 FileData (ChunkData + sizeof_aseprite_cel_header + 2) in
       if cel_DataSize ChunkLength <? 0 then Err BadPointer else
       let* Data :=
         read_bytes FileData (ChunkData + sizeof_aseprite_cel_header + 4)
           (Z.to_nat (cel_DataSize ChunkLength)) in
       Ok {| layer_Header := Some CelHeader;
             layer_DataWidth := Some WidthInPixels;
             layer_DataHeight := Some HeightInPixels;
             layer_Data := Block Data |}
     else if cel_CelType CelHeader =? AsepriteCelType_Compressed then
       let* WidthInPixels :=
         read_u16 FileData (ChunkData + sizeof_aseprite_cel_header) in
       let* HeightInPixels :=
         read_u16 FileData (ChunkData + sizeof_aseprite_cel_header + 2) in
       if cel_DataSize ChunkLength <? 0 then Err OutOfBounds else
       let* Compressed :=
         read_bytes FileData (ChunkData + sizeof_aseprite_cel_header + 4)
           (Z.to_nat (cel_DataSize ChunkLength)) in
       Ok {| layer_Header := Some CelHeader;
             layer_DataWidth := Some WidthInPixels;
             layer_DataHeight := Some HeightInPixels;
             layer_Data :=
               match inflate Compressed with
               | Some Data => Block Data
               | None => Null
               end |}
     else
       Ok {| layer_Header := Some CelHeader;
             layer_DataWidth := layer_DataWidth Old;
             layer_DataHeight := layer_DataHeight Old;
             layer_Data := layer_Data Old |}) = Ok Layer.
Proof.
  intros Hh H. unfold AsepriteParseCel in H. rewrite Hh in H. simpl in H.
  apply bind_Ok in H as (Layers & HL & H).
  apply bind_Ok in H as (Old & HO & H).
  apply bind_Ok in H as (Layer & HLayer & H).
  apply bind_Ok in H as (Layers' & HS & H). injection H as <-.
  apply store_Ok in HS as [_ ->].
  destruct (frame_Layers Frame) as [| |cells]; try discriminate.
  injection HL as ->. exists Layers, Old, Layer.
  repeat split; assumption.
Qed.
End Cels.

(** X6: a raw cel (cel type 0) stores, in the slot of its layer index,
    the cel header, the two dimensions read after it, and a copy of the
    [DataSize] bytes that follow, [DataSize] being what the chunk length
    leaves after the 16-byte cel header and the two 16-bit dimensions.
    The number of bytes copied is taken from the chunk length alone: the
    declared width and height do not enter it. *)
Theorem raw_cel_copied (FileData : list Z)
    (inflate : list Z -> option (list Z)) (Frame : aseprite_frame)
    (ChunkData ChunkLength : Z) (CelHeader : aseprite_cel_header)
    (Frame' : aseprite_frame) :
  read_aseprite_cel_header FileData ChunkData = Ok CelHeader ->
  cel_CelType CelHeader = AsepriteCelType_Raw ->
  AsepriteParseCel FileData inflate Frame ChunkData ChunkLength = Ok Frame' ->
  exists Layers WidthInPixels HeightInPixels Data,
    frame_Layers Frame = Block Layers /\
    read_u16 FileData (ChunkData + 16) = Ok WidthInPixels /\
    read_u16 FileData (ChunkData + 18) = Ok HeightInPixels /\
    Z.of_nat (length Data) = to_int (ChunkLength - 20) /\
    (forall (k : nat) b, Data !! k = Some b ->
       read_u8 FileData (ChunkData + 20 + Z.of_nat k) = Ok b) /\
    frame_Layers Frame'
    = Block (<[Z.to_nat (cel_LayerIndex CelHeader) :=
                 {| layer_Header := Some CelHeader;
                    layer_DataWidth := Some WidthInPixels;
                    layer_DataHeight := Some HeightInPixels;
                    layer_Data := Block Data |}]> Layers).
Proof.
  intros Hh Ht H.
  destruct (AsepriteParseCel_slot _ _ _ _ _ _ _ Hh H)
    as (Layers & Old & Layer & HL & _ & HF & HLayer).
  rewrite Ht in HLayer. simpl in HLayer.
  apply bind_Ok in HLayer as (W & HW & HLayer).
  apply bind_Ok in HLayer as (Ht' & HHt & HLayer).
  destruct (Z.ltb_spec (cel_DataSize ChunkLength) 0) as [|Hpos];
    [discriminate|].
  apply bind_Ok in HLayer as (Data & HD & HLayer). injection HLayer as <-.
  apply read_bytes_spec in HD as [Hlen Hget].
  exists Layers, W, Ht', Data.
  unfold sizeof_aseprite_cel_header in *.
  replace (ChunkData + 16 + 2) with (ChunkData + 18) in HHt by lia.
  replace (ChunkData + 16 + 4) with (ChunkData + 20) in Hget by lia.
  repeat split; try assumption.
  rewrite Hlen. unfold cel_DataSize, sizeof_aseprite_cel_header in *.
  replace (ChunkLength - 20) with (ChunkLength - 16 - 2 * 2) by lia. lia.
Qed.

Lemma raw_cel_copied_witness :
  exists Frame' Data,
    AsepriteParseCel (sample_raw_cel 0 0 0 1 1 [9; 8; 7; 6]) no_inflate
      one_cell_frame 0 24 = Ok Frame' /\
    Z.of_nat (length Data) = 4 /\
    (forall (k : nat) b, Data !! k = Some b ->
       read_u8 (sample_raw_cel 0 0 0 1 1 [9; 8; 7; 6]) (20 + Z.of_nat k)
       = Ok b) /\
    exists Layer,
      frame_Layers Frame' = Block [Layer] /\ layer_Data Layer = Block Data.
Proof.
  destruct (AsepriteParseCel (sample_raw_cel 0 0 0 1 1 [9; 8; 7; 6])
              no_inflate one_cell_frame 0 24) as [Frame'|e] eqn:Hrun;
    [|vm_compute in Hrun; discriminate].
  destruct (raw_cel_copied (sample_raw_cel 0 0 0 1 1 [9; 8; 7; 6])
              no_inflate one_cell_frame 0 24
              {| cel_LayerIndex := 0; cel_XPos := 0; cel_YPos := 0;
                 cel_Opacity := 255; cel_CelType := 0 |}
              _ eq_refl eq_refl Hrun)
    as (Layers & W & Ht & Data & HL & _ & _ & Hlen & Hget & HF).
  injection HL as <-.
  exists Frame', Data. split; [reflexivity|]. split; [exact Hlen|].
  split; [exact Hget|]. eexists. split; [exact HF | reflexivity].
Defined.

(** X7: a compressed cel (cel type 2) hands the [DataSize] bytes after
    the dimensions to the inflater and stores what it returns; when the
    inflater returns nothing the cel's data pointer is null and the parse
    goes on all the same, the cel keeping its header and dimensions. *)
Theorem compressed_cel_inflated (FileData : list Z)
    (inflate : list Z -> option (list Z)) (Frame : aseprite_frame)
    (ChunkData ChunkLength : Z) (CelHeader : aseprite_cel_header)
    (Frame' : aseprite_frame) :
  read_aseprite_cel_header FileData ChunkData = Ok CelHeader ->
  cel_CelType CelHeader = AsepriteCelType_Compressed ->
  AsepriteParseCel FileData inflate Frame ChunkData ChunkLength = Ok Frame' ->
  exists Layers WidthInPixels HeightInPixels Compressed,
    frame_Layers Frame = Block Layers /\
    read_u16 FileData (ChunkData + 16) = Ok WidthInPixels /\
    read_u16 FileData (ChunkData + 18) = Ok HeightInPixels /\
    Z.of_nat (length Compressed) = to_int (ChunkLength - 20) /\
    (forall (k : nat) b, Compressed !! k = Some b ->
       read_u8 FileData (ChunkData + 20 + Z.of_nat k) = Ok b) /\
    frame_Layers Frame'
    = Block (<[Z.to_nat (cel_LayerIndex CelHeader) :=
                 {| layer_Header := Some CelHeader;
                    layer_DataWidth := Some WidthInPixels;
                    layer_DataHeight := Some HeightInPixels;
                    layer_Data :=
                      match inflate Compressed with
                      | Some Data => Block Data
                      | None => Null
                      end |}]> Layers).
Proof.
  intros Hh Ht H.
  destruct (AsepriteParseCel_slot _ _ _ _ _ _ _ Hh H)
    as (Layers & Old & Layer & HL & _ & HF & HLayer).
  rewrite Ht in HLayer. simpl in HLayer.
  apply bind_Ok in HLayer as (W & HW & HLayer).
  apply bind_Ok in HLayer as (Ht' & HHt & HLayer).
  destruct (Z.ltb_spec (cel_DataSize ChunkLength) 0) as [|Hpos];
    [discriminate|].
  apply bind_Ok in HLayer as (Data & HD & HLayer). injection HLayer as <-.
  apply read_bytes_spec in HD as [Hlen Hget].
  exists Layers, W, Ht', Data.
  unfold sizeof_aseprite_cel_header in *.
  replace (ChunkData + 16 + 2) with (ChunkData + 18) in HHt by lia.
  replace (ChunkData + 16 + 4) with (ChunkData + 20) in Hget by lia.
  repeat split; try assumption.
  rewrite Hlen. unfold cel_DataSize, sizeof_aseprite_cel_header in *.
  replace (ChunkLength - 20) with (ChunkLength - 16 - 2 * 2) by lia. lia.
Qed.

Lemma compressed_cel_inflated_witness :
  exists Frame' Layer,
    AsepriteParseCel
      (sample_cel 0 AsepriteCelType_Compressed (le16 1 ++ le16 1 ++ [7; 5]))
      sample_inflate one_cell_frame 0 22 = Ok Frame' /\
    frame_Layers Frame' = Block [Layer] /\
    layer_Data Layer = Null /\ layer_DataWidth Layer = Some 1.
Proof.
  destruct (AsepriteParseCel
              (sample_cel 0 AsepriteCelType_Compressed
                 (le16 1 ++ le16 1 ++ [7; 5]))
              sample_inflate one_cell_frame 0 22) as [Frame'|e] eqn:Hrun;
    [|vm_compute in Hrun; discriminate].
  destruct (compressed_cel_inflated
              (sample_cel 0 AsepriteCelType_Compressed
                 (le16 1 ++ le16 1 ++ [7; 5]))
              sample_inflate one_cell_frame 0 22
              {| cel_LayerIndex := 0; cel_XPos := 0; cel_YPos := 0;
                 cel_Opacity := 255; cel_CelType := 2 |}
              _ eq_refl eq_refl Hrun)
    as (Layers & W & Ht & Data & HL & HW & _ & Hlen & Hget & HF).
  injection HL as <-. injection HW as <-.
  assert (HD : Data = [7; 5]).
  { change (to_int (22 - 20)) with 2 in Hlen.
    assert (Hl : length Data = 2%nat) by lia.
    destruct Data as [|b0 [|b1 [|b2 Data]]]; try discriminate Hl.
    pose proof (Hget 0%nat b0 eq_refl) as H0.
    pose proof (Hget 1%nat b1 eq_refl) as H1.
    vm_compute in H0, H1. congruence. }
  subst Data. exists Frame'. eexists. split; [reflexivity|].
  split; [exact HF|]. split; reflexivity.
Defined.

(** X8: a cel of any other type (linked cels, type 1, among them) only
    replaces the cel header of its slot: the width, the height and the
    data pointer the slot held before are kept as they were, and the
    linked frame position is not read. *)
Theorem linked_cel_keeps_data (FileData : list Z)
    (inflate : list Z -> option (list Z)) (Frame : aseprite_frame)
    (ChunkData ChunkLength : Z) (CelHeader : aseprite_cel_header)
    (Frame' : aseprite_frame) :
  read_aseprite_cel_header FileData ChunkData = Ok CelHeader ->
  cel_CelType CelHeader <> AsepriteCelType_Raw ->
  cel_CelType CelHeader <> AsepriteCelType_Compressed ->
  AsepriteParseCel FileData inflate Frame ChunkData ChunkLength = Ok Frame' ->
  exists Layers Old,
    frame_Layers Frame = Block Layers /\
    load Layers (cel_LayerIndex CelHeader) = Ok Old /\
    frame_Layers Frame'
    = Block (<[Z.to_nat (cel_LayerIndex CelHeader) :=
                 {| layer_Header := Some CelHeader;
                    layer_DataWidth := layer_DataWidth Old;
                    layer_DataHeight := layer_DataHeight Old;
                    layer_Data := layer_Data Old |}]> Layers).
Proof.
  intros Hh Hr Hc H.
  destruct (AsepriteParseCel_slot _ _ _ _ _ _ _ Hh H)
    as (Layers & Old & Layer & HL & HO & HF & HLayer).
  destruct (Z.eqb_spec (cel_CelType CelHeader) AsepriteCelType_Raw);
    [contradiction|].
  destruct (Z.eqb_spec (cel_CelType CelHeader) AsepriteCelType_Compressed);
    [contradiction|].
  injection HLayer as <-. eauto.
Qed.

Lemma linked_cel_keeps_data_witness :
  exists Frame' Layer,
    AsepriteParseCel (sample_cel 0 AsepriteCelType_Linked (le16 0))
      no_inflate one_cel_frame 0 18 = Ok Frame' /\
    frame_Layers Frame' = Block [Layer] /\
    layer_Data Layer = Block [9; 8; 7; 6] /\
    (cel_CelType <$> layer_Header Layer) = Some AsepriteCelType_Linked.
Proof.
  destruct (AsepriteParseCel (sample_cel 0 AsepriteCelType_Linked (le16 0))
              no_inflate one_cel_frame 0 18) as [Frame'|e] eqn:Hrun;
    [|vm_compute in Hrun; discriminate].
  destruct (linked_cel_keeps_data
              (sample_cel 0 AsepriteCelType_Linked (le16 0))
              no_inflate one_cel_frame 0 18
              {| cel_LayerIndex := 0; cel_XPos := 0; cel_YPos := 0;
                 cel_Opacity := 255; cel_CelType := 1 |}
              _ eq_refl ltac:(discriminate) ltac:(discriminate) Hrun)
    as (Layers & Old & HL & HO & HF).
  injection HL as <-. injection HO as <-.
  exists Frame'. eexists. split; [reflexivity|].
  split; [exact HF|]. split; reflexivity.
Defined.


(** ** Cel arrays *)

Section CelArrays.
Variable FileData : list Z.
Variable inflate : list Z -> option (list Z).

Lemma AsepriteParseChunk_cels File Frame Parser File' Frame' Parser' :
  AsepriteParseChunk FileData inflate File Frame Parser
  = Ok (File', Frame', Parser') ->
  layer_table_ok File Parser -> cels_ok Frame -> cels_ok Frame'.
Proof.
  intros H (_ & HN & _) HQ.
  apply AsepriteParseChunk_cases in H as (h & Hh & Hcases).
  destruct Hcases as [(Heq & _) | [(_ & _ & _ & -> & _)
    | [(_ & _ & ->) | [(_ & _ & _ & Hc) | (_ & _ & -> & _)]]]];
    try assumption.
  - now injection Heq as -> -> ->.
  - apply AsepriteParseCel_Ok in Hc
      as (c & Ls & L & _ & HL & _ & _ & HL' & HNL & _).
    intros Layers' HB. rewrite HL' in HB. injection HB as <-.
    rewrite length_insert, HNL.
    destruct (decide (frame_NumLayers Frame = file_NumLayers File)).
    + now apply HQ.
    + simpl in *. injection HL as <-. rewrite length_replicate. lia.
Qed.

Lemma AsepriteParseChunks_cels (n : nat) :
  forall File Frame Parser File' Frame' Parser',
  AsepriteParseChunks FileData inflate n File Frame Parser
  = Ok (File', Frame', Parser') ->
  layer_table_ok File Parser -> cels_ok Frame ->
  layer_table_ok File' Parser' /\ cels_ok Frame'.
Proof.
  induction n as [|n IH]; intros File Frame Parser File' Frame' Parser' H;
    simpl in H.
  - injection H as <- <- <-. auto.
  - apply bind_Ok in H as ([[F1 Fr1] P1] & H1 & H). cbv beta iota in H.
    intros HI HQ. eapply IH; [exact H | |].
    + eapply AsepriteParseChunk_layer_table; eauto.
    + eapply AsepriteParseChunk_cels; eauto.
Qed.

Lemma AsepriteParseFrames_cels (n : nat) :
  forall FrameIndex File Parser File' Parser',
  AsepriteParseFrames FileData inflate n FrameIndex File Parser
  = Ok (File', Parser') ->
  layer_table_ok File Parser -> Forall cels_ok (file_Frames File) ->
  Forall cels_ok (file_Frames File').
Proof.
  induction n as [|n IH]; intros FrameIndex File Parser File' Parser' H
    HI HQ; cbn [AsepriteParseFrames] in H.
  - now injection H as <- <-.
  - apply bind_Ok in H as (Frame & HLd & H).
    apply bind_Ok in H as ([[F1 Fr1] P1] & H1 & H). cbv beta iota in H.
    apply bind_Ok in H as (Frames1 & HS & H).
    pose proof (AsepriteParseFrame_frame_array _ _ _ _ _ _ _ _ H1)
      as (_ & _ & HFr & _).
    unfold AsepriteParseFrame in H1.
    apply bind_Ok in H1 as (h & _ & H1). simpl in H1.
    apply load_Ok in HLd as [_ HLd].
    apply AsepriteParseChunks_cels in H1 as [HI1 HQ1];
      [|exact HI|exact (proj1 (Forall_lookup _ _) HQ _ _ HLd)].
    eapply IH; [exact H | exact HI1 |]. simpl.
    apply store_Ok in HS as [_ ->]. rewrite HFr.
    now apply Forall_insert.
Qed.
End CelArrays.

(** X9: in a parsed document every frame whose cel array was allocated
    records, as its layer count, exactly the number of cells of that
    array. *)
Theorem parsed_cel_arrays (FileData : list Z)
    (inflate : list Z -> option (list Z)) (fresh_NumLayers : nat -> Z)
    (File : aseprite_file) (Parser : aseprite_parser) :
  AsepriteParseFile_run FileData inflate fresh_NumLayers = Ok (File, Parser) ->
  forall Frame Layers,
    Frame ∈ file_Frames File ->
    frame_Layers Frame = Block Layers ->
    Z.of_nat (length Layers) = frame_NumLayers Frame.
Proof.
  unfold AsepriteParseFile_run. intros H.
  apply bind_Ok in H as ([File0 Parser0] & Hinit & H). cbv beta iota in H.
  apply AsepriteParseFrames_cels in H.
  - intros Frame Layers Hin. revert Layers.
    exact (proj1 (Forall_forall _ _) H Frame Hin).
  - unfold AsepriteParseFile_init in Hinit. inv_ok Hinit.
    injection Hinit as <- <-. unfold layer_table_ok. simpl.
    repeat split; lia.
  - unfold AsepriteParseFile_init in Hinit. inv_ok Hinit.
    injection Hinit as <- <-. simpl. unfold fresh_frames.
    apply Forall_forall. intros Frame Hin.
    apply list_elem_of_fmap in Hin as (i & -> & _).
    intros Layers HB. discriminate.
Qed.

Lemma parsed_cel_arrays_witness :
  exists File Parser Frame Layers,
    AsepriteParseFile_run hidden_bottom_file no_inflate junk_NumLayers
    = Ok (File, Parser) /\
    file_Frames File = [Frame] /\
    frame_Layers Frame = Block Layers /\
    Z.of_nat (length Layers) = frame_NumLayers Frame.
Proof.
  destruct (AsepriteParseFile_run hidden_bottom_file no_inflate
              junk_NumLayers) as [[File Parser]|e] eqn:Hrun;
    [|vm_compute in Hrun; discriminate].
  pose proof (parsed_cel_arrays _ _ _ _ _ Hrun) as Hcels.
  vm_compute in Hrun. injection Hrun as <- <-.
  do 4 eexists. split; [reflexivity|]. split; [reflexivity|].
  split; [reflexivity|].
  apply Hcels; [apply list_elem_of_here | reflexivity].
Defined.

(** ** The palette record *)

Section PaletteRecord.
Variable FileData : list Z.
Variable inflate : list Z -> option (list Z).

Lemma AsepriteParsePalette_record File ChunkData File' :
  AsepriteParsePalette FileData File ChunkData = Ok File' ->
  exists PaletteHeader Colors,
    pal_Header (file_Palette File') = Some PaletteHeader /\
    pal_NumColors (file_Palette File')
    = Some (to_int (ph_NewPaletteSize PaletteHeader)) /\
    pal_Colors (file_Palette File') = Block Colors /\
    length Colors = Z.to_nat (ph_NewPaletteSize PaletteHeader).
Proof.
  unfold AsepriteParsePalette. intros H. inv_ok H.
  injection H as <-. simpl.
  apply AsepriteParsePalette_loop_spec in Hv0 as (Hlen & _).
  rewrite length_fresh_array in Hlen. eauto 10.
Qed.

Lemma AsepriteParseChunk_palette File Frame Parser File' Frame' Parser' :
  AsepriteParseChunk FileData inflate File Frame Parser
  = Ok (File', Frame', Parser') ->
  palette_ok File Parser -> palette_ok File' Parser'.
Proof.
  intros H HI.
  apply AsepriteParseChunk_cases in H as (h & Hh & Hcases).
  destruct Hcases as [(Heq & _) | [(_ & Hflag & Hp & _ & ->)
    | [(_ & Hl & _) | [(_ & -> & -> & _) | (_ & Hp & _ & ->)]]]].
  - injection Heq as -> -> ->. exact HI.
  - apply AsepriteParseOldPalette_footprint in Hp
      as (_ & _ & _ & _ & _ & HH & HNC).
    unfold palette_ok in *. simpl. rewrite Hflag in *.
    now rewrite HH, HNC.
  - apply AsepriteParseLayer_footprint in Hl
      as (_ & _ & _ & HP & _ & HU).
    unfold palette_ok in *. simpl in HU. now rewrite HU, HP.
  - exact HI.
  - apply AsepriteParsePalette_record in Hp. exact Hp.
Qed.
End PaletteRecord.

(** X10: what a parse that returns leaves in the palette record.  When a
    modern palette chunk was seen, the record holds the header of such a
    chunk, as colour count the size that header declares converted to
    [int] (so a negative count for a declared size of 2^31 or more), and a
    table of exactly the declared number of entries.  When none was seen,
    the header and the colour count of the record were never written,
    also when legacy chunks filled the table: the legacy decoder sets the
    table only. *)
Theorem parsed_palette_record (FileData : list Z)
    (inflate : list Z -> option (list Z)) (fresh_NumLayers : nat -> Z)
    (File : aseprite_file) (Parser : aseprite_parser) :
  AsepriteParseFile_run FileData inflate fresh_NumLayers = Ok (File, Parser) ->
  palette_ok File Parser.
Proof.
  unfold AsepriteParseFile_run. intros H.
  apply bind_Ok in H as ([File0 Parser0] & Hinit & H). cbv beta iota in H.
  eapply (AsepriteParseFrames_invariant FileData inflate palette_ok);
    [ | | | exact H | ].
  - apply AsepriteParseChunk_palette.
  - intros F P p HI. exact HI.
  - intros F P i Fr Frs _ HI. exact HI.
  - unfold AsepriteParseFile_init in Hinit. inv_ok Hinit.
    injection Hinit as <- <-. unfold palette_ok. simpl. auto.
Qed.

Lemma parsed_palette_record_witness :
  exists File Parser Colors,
    AsepriteParseFile_run old_palette_file no_inflate junk_NumLayers
    = Ok (File, Parser) /\
    pal_Colors (file_Palette File) = Block Colors /\
    load Colors 0 = Ok (Some (AsepriteColorFromR8G8B8A8 10 20 30 255)) /\
    pal_NumColors (file_Palette File) = None.
Proof.
  destruct (AsepriteParseFile_run old_palette_file no_inflate
              junk_NumLayers) as [[File Parser]|e] eqn:Hrun;
    [|vm_compute in Hrun; discriminate].
  pose proof (parsed_palette_record _ _ _ _ _ Hrun) as Hpal.
  assert (HU : UsesNewPalette Parser = false).
  { vm_compute in Hrun. now injection Hrun as <- <-. }
  unfold palette_ok in Hpal. rewrite HU in Hpal. destruct Hpal as [_ HNC].
  assert (HC : exists Colors,
             pal_Colors (file_Palette File) = Block Colors /\
             load Colors 0
             = Ok (Some (AsepriteColorFromR8G8B8A8 10 20 30 255))).
  { vm_compute in Hrun. injection Hrun as <- <-.
    eexists. split; reflexivity. }
  destruct HC as (Colors & HB & HL).
  exists File, Parser, Colors. auto.
Defined.

(** X11: the modern palette decoder does not check the index range of a
    chunk against the size the chunk declares.  It returns only when
    every index from first to last lies inside the table it allocated:
    a chunk with first <= last whose last index is not below the declared
    size makes the decoder write outside the table. *)
Theorem palette_indices_unchecked (FileData : list Z)
    (File : aseprite_file) (ChunkData : Z)
    (PaletteHeader : aseprite_palette_header) :
  read_aseprite_palette_header FileData ChunkData = Ok PaletteHeader ->
  ph_FirstColorIndexToChange PaletteHeader
  <= ph_LastColorIndexToChange PaletteHeader ->
  ph_NewPaletteSize PaletteHeader
  <= ph_LastColorIndexToChange PaletteHeader ->
  exists e, AsepriteParsePalette FileData File ChunkData = Err e.
Proof.
  intros Hh Hle Hsize.
  destruct (AsepriteParsePalette FileData File ChunkData) as [File'|e] eqn:H;
    [|eauto].
  exfalso.
  apply AsepriteParsePalette_table in H
    as (h & Colors & Hh' & _ & _ & Hlen & Hin & _).
  rewrite Hh in Hh'. injection Hh' as <-.
  destruct (Hin (ph_LastColorIndexToChange PaletteHeader)) as [c Hc];
    [lia|].
  apply load_Ok in Hc as [Hr _]. lia.
Qed.

Lemma palette_indices_unchecked_witness :
  exists e,
    AsepriteParsePalette
      (sample_palette 1 1 1 [sample_palette_entry (7, 8, 9, 255) None])
      two_layers_doc 0 = Err e.
Proof.
  apply (palette_indices_unchecked
           (sample_palette 1 1 1 [sample_palette_entry (7, 8, 9, 255) None])
           two_layers_doc 0
           {| ph_NewPaletteSize := 1; ph_FirstColorIndexToChange := 1;
              ph_LastColorIndexToChange := 1 |});
    [reflexivity | simpl; lia | simpl; lia].
Defined.

(** X21: a cel chunk that is decoded has stayed inside the frame's cel
    array.  On a well formed layer table, and with a frame whose cel
    array matches its layer count, the chunk returns only when the cel's
    layer index is below the number of layers read so far; the frame then
    has exactly that many cells.  The index is not checked: a cel for a
    layer that no layer chunk has declared yet makes the parser write
    outside the array. *)
Theorem cel_chunk_within_layers (FileData : list Z)
    (inflate : list Z -> option (list Z))
    (File : aseprite_file) (Frame : aseprite_frame) (Parser : aseprite_parser)
    (ChunkHeader : aseprite_chunk_header)
    (File' : aseprite_file) (Frame' : aseprite_frame)
    (Parser' : aseprite_parser) :
  layer_table_ok File Parser ->
  cels_ok Frame ->
  read_aseprite_chunk_header FileData (At Parser) = Ok ChunkHeader ->
  ch_ChunkType ChunkHeader = AsepriteChunk_Cel ->
  AsepriteParseChunk FileData inflate File Frame Parser
  = Ok (File', Frame', Parser') ->
  exists CelHeader Layers,
    read_aseprite_cel_header FileData
      (At Parser + sizeof_aseprite_chunk_header) = Ok CelHeader /\
    0 <= cel_LayerIndex CelHeader < file_NumLayers File /\
    frame_Layers Frame' = Block Layers /\
    Z.of_nat (length Layers) = file_NumLayers File /\
    frame_NumLayers Frame' = file_NumLayers File.
Proof.
  intros (_ & HN & _) HQ Hh Ht H.
  apply AsepriteParseChunk_cases in H as (h & Hh' & Hcases).
  rewrite Hh in Hh'. injection Hh' as <-. cbv zeta in Hcases.
  destruct Hcases as [(_ & _ & Hn & _) | [(Ho & _)
    | [(Hl & _) | [(_ & _ & _ & Hc) | (Hp & _)]]]];
    try contradiction; try (rewrite Ht in *; discriminate).
  apply AsepriteParseCel_Ok in Hc
    as (c & Ls & L & Hc & HL & Hidx & _ & HL' & HNL & _).
  exists c, (<[Z.to_nat (cel_LayerIndex c) := L]> Ls).
  rewrite length_insert, HNL.
  destruct (decide (frame_NumLayers Frame = file_NumLayers File)) as [E|E].
  - pose proof (HQ _ HL) as Hlen. rewrite E in Hlen.
    repeat split; try assumption; lia.
  - simpl in HL. injection HL as <-. rewrite length_replicate in *. simpl.
    repeat split; try assumption; lia.
Qed.

Lemma cel_chunk_within_layers_witness :
  exists File' Frame' Parser' Layers,
    AsepriteParseChunk hidden_bottom_file no_inflate
      two_layers_doc junk_frame at_cel_chunk = Ok (File', Frame', Parser') /\
    frame_Layers Frame' = Block Layers /\
    Z.of_nat (length Layers) = 2.
Proof.
  destruct (AsepriteParseChunk hidden_bottom_file no_inflate
              two_layers_doc junk_frame at_cel_chunk)
    as [[[File' Frame'] Parser']|e] eqn:Hrun;
    [|vm_compute in Hrun; discriminate].
  assert (Hok : layer_table_ok two_layers_doc at_cel_chunk).
  { unfold layer_table_ok. simpl. split; [reflexivity|].
    split; [lia|]. split; [lia|]. intros i Hi.
    assert (Hc : i = 0 \/ i = 1) by lia.
    destruct Hc as [-> | ->]; eexists; reflexivity. }
  assert (Hcels : cels_ok junk_frame).
  { intros Layers HB. discriminate. }
  destruct (cel_chunk_within_layers hidden_bottom_file no_inflate
              two_layers_doc junk_frame at_cel_chunk
              {| ch_ChunkSize := 30; ch_ChunkType := AsepriteChunk_Cel |}
              _ _ _ Hok Hcels eq_refl eq_refl Hrun)
    as (c & Layers & _ & _ & HL & Hlen & _).
  exists File', Frame', Parser', Layers. auto.
Defined.


(** * Further properties of the colour arithmetic *)

Lemma for_bytes_spec (P : Z -> F32.float -> bool) :
  for_bytes P = true ->
  forall b, 0 <= b < 256 -> P b (channel_of_byte b) = true.
Proof.
  unfold for_bytes. rewrite forallb_forall. intros H b Hb.
  apply (H (b, channel_of_byte b)).
  unfold byte_channels. apply in_map_iff. exists b. split; [reflexivity|].
  apply list_elem_of_In, elem_of_seqZ. lia.
Qed.

Lemma for_byte_pairs_spec (P : Z -> F32.float -> Z -> F32.float -> bool) :
  for_byte_pairs P = true ->
  forall a b, 0 <= a < 256 -> 0 <= b < 256 ->
    P a (channel_of_byte a) b (channel_of_byte b) = true.
Proof.
  unfold for_byte_pairs. cbv zeta. intros H a b Ha Hb.
  apply (for_bytes_spec (P a (channel_of_byte a))); [|exact Hb].
  exact (for_bytes_spec (fun a fa => for_bytes (P a fa)) H a Ha).
Qed.

(** ** [AsepriteMin] and [AsepriteAbs] *)

Lemma SFltb_irrefl (x : F32.float) : SFltb x x = false.
Proof.
  unfold SFltb. destruct x as [s|s| |s m e]; simpl; try reflexivity.
  - now destruct s.
  - destruct s; rewrite Z.compare_refl, Pos.compare_cont_refl; reflexivity.
Qed.

(** X12: [AsepriteMin a b] is never above [b], and [AsepriteAbs] never
    returns a value below zero, for every pair of floats, infinities and
    NaN included. *)
Theorem min_abs_bounds (a b : F32.float) :
  (b <? AsepriteMin a b)%f32 = false /\
  (AsepriteAbs a <? F32.zero)%f32 = false.
Proof.
  split.
  - unfold AsepriteMin. destruct (b <? a)%f32 eqn:E; [|exact E].
    apply SFltb_irrefl.
  - unfold AsepriteAbs. destruct (a <? F32.zero)%f32 eqn:E; [|exact E].
    destruct a as [s|s| |s m e]; try discriminate.
    + now destruct s.
    + now destruct s.
Qed.

(** ** Bytes and channels *)

Lemma byte_round_trip_check :
  for_bytes (fun b f => F32.to_u8 (f * F32.f255)%f32 =? b) = true.
Proof. vm_cast_no_check (eq_refl true). Qed.

Lemma byte_round_trip (b : Z) :
  0 <= b < 256 -> F32.to_u8 (channel_of_byte b * F32.f255)%f32 = b.
Proof.
  intros Hb. apply Z.eqb_eq.
  exact (for_bytes_spec _ byte_round_trip_check b Hb).
Qed.

(** X13: the two colour constructors agree on bytes: building a colour
    from four bytes and building it again from the four floats of the
    result gives the same colour, bytes included.  Dividing a byte by 255
    and multiplying by 255 in single precision, then truncating, gives
    the byte back, for each of the 256 bytes. *)
Theorem color_bytes_round_trip (r8 g8 b8 a8 : Z) :
  0 <= r8 < 256 -> 0 <= g8 < 256 -> 0 <= b8 < 256 -> 0 <= a8 < 256 ->
  let Color := AsepriteColorFromR8G8B8A8 r8 g8 b8 a8 in
  AsepriteColorFromRGBA (R Color) (G Color) (B Color) (A Color) = Color.
Proof.
  intros Hr Hg Hb Ha. cbv zeta.
  unfold AsepriteColorFromRGBA, AsepriteColorFromR8G8B8A8. simpl.
  fold (channel_of_byte r8) (channel_of_byte g8) (channel_of_byte b8)
    (channel_of_byte a8).
  now rewrite !byte_round_trip.
Qed.

Lemma color_bytes_round_trip_witness :
  AsepriteColorFromRGBA
    (R (AsepriteColorFromR8G8B8A8 1 127 254 255))
    (G (AsepriteColorFromR8G8B8A8 1 127 254 255))
    (B (AsepriteColorFromR8G8B8A8 1 127 254 255))
    (A (AsepriteColorFromR8G8B8A8 1 127 254 255))
  = AsepriteColorFromR8G8B8A8 1 127 254 255.
Proof.
  apply (color_bytes_round_trip 1 127 254 255); lia.
Defined.

(** ** Layer opacity *)

Lemma opacity_check :
  for_bytes (fun o fo =>
    ((o =? 0) || negb (fo == F32.zero)%f32)
    && bool_decide ((fo == F32.one)%f32 = (o =? 255))
    && (F32.to_u8 ((channel_of_byte 255 * fo) * F32.f255)%f32 =? o)
    && (F32.to_u8 ((channel_of_byte 0 * fo) * F32.f255)%f32 =? 0)) = true.
Proof. vm_cast_no_check (eq_refl true). Qed.

(** X14: on a layer of opacity 1 to 255 the opacity adjustment touches
    the alpha of a pixel only: the three colour bytes and the three colour
    floats stay.  Opacity 255 leaves the pixel as it is, an opaque pixel
    gets the opacity byte as its alpha byte, and a pixel of alpha byte 0
    keeps alpha byte 0. *)
Theorem opacity_scales_alpha (Opacity r8 g8 b8 a8 : Z) :
  1 <= Opacity < 256 ->
  let Color := AsepriteColorFromR8G8B8A8 r8 g8 b8 a8 in
  let Scaled := ApplyLayerOpacity (LayerOpacity_of Opacity) Color in
  (R8 Scaled, G8 Scaled, B8 Scaled) = (r8, g8, b8) /\
  (R Scaled, G Scaled, B Scaled) = (R Color, G Color, B Color) /\
  (Opacity = 255 -> Scaled = Color) /\
  (a8 = 255 -> A8 Scaled = Opacity) /\
  (a8 = 0 -> A8 Scaled = 0).
Proof.
  intros Ho. cbv zeta.
  pose proof (for_bytes_spec _ opacity_check Opacity ltac:(lia)) as H.
  cbv beta in H.
  apply andb_prop in H as [H H4]. apply andb_prop in H as [H H3].
  apply andb_prop in H as [H1 H2].
  apply bool_decide_eq_true in H2. apply Z.eqb_eq in H3, H4.
  apply orb_prop in H1 as [H1 | H1]; [apply Z.eqb_eq in H1; lia|].
  apply negb_true_iff in H1.
  unfold ApplyLayerOpacity, LayerOpacity_of.
  fold (channel_of_byte Opacity). rewrite H1, H2.
  destruct (Z.eqb_spec Opacity 255) as [->|Hne]; simpl.
  - split; [reflexivity|]. split; [reflexivity|]. split; [reflexivity|].
    split; [intros ->; reflexivity | intros ->; reflexivity].
  - fold (channel_of_byte a8).
    split; [reflexivity|]. split; [reflexivity|]. split; [intros; lia|].
    split; [intros ->; exact H3 | intros ->; exact H4].
Qed.

Lemma opacity_scales_alpha_witness :
  A8 (ApplyLayerOpacity (LayerOpacity_of 128)
        (AsepriteColorFromR8G8B8A8 10 20 30 255)) = 128.
Proof.
  apply (opacity_scales_alpha 128 10 20 30 255); [lia | reflexivity].
Defined.


(** ** Combining colours built from bytes *)

Lemma out_alpha_check :
  for_byte_pairs (fun a fa d fd =>
    let Alpha := (fa + fd * (F32.one - fa))%f32 in
    let Alpha8 := F32.to_u8 (Alpha * F32.f255)%f32 in
    (a <=? Alpha8) && (d <=? Alpha8)
    && bool_decide ((Alpha == F32.zero)%f32 = (a =? 0) && (d =? 0))) = true.
Proof. vm_cast_no_check (eq_refl true). Qed.

(** X15: combining never lowers alpha.  For a source and a destination
    colour built from bytes, in every blend mode, the alpha byte of the
    combined colour is at least the alpha byte of the source and at least
    that of the destination; the zero branch is taken exactly when both
    alpha bytes are 0. *)
Theorem combined_alpha_bounds (BlendMode r g b a dr dg db da : Z) :
  0 <= a < 256 -> 0 <= da < 256 ->
  let Src := AsepriteColorFromR8G8B8A8 r g b a in
  let Dest := AsepriteColorFromR8G8B8A8 dr dg db da in
  let Out := AsepriteCombineColors Src Dest BlendMode in
  a <= A8 Out /\ da <= A8 Out /\
  ((OutAlpha Src Dest == F32.zero)%f32 = true <-> a = 0 /\ da = 0).
Proof.
  intros Ha Hd. cbv zeta.
  pose proof (for_byte_pairs_spec _ out_alpha_check a da Ha Hd) as H.
  cbv zeta in H.
  apply andb_prop in H as [H H3]. apply andb_prop in H as [H1 H2].
  apply bool_decide_eq_true in H3. apply Z.leb_le in H1, H2.
  unfold AsepriteCombineColors, OutAlpha.
  change (A (AsepriteColorFromR8G8B8A8 r g b a)) with (channel_of_byte a).
  change (A (AsepriteColorFromR8G8B8A8 dr dg db da))
    with (channel_of_byte da).
  rewrite H3.
  destruct (Z.eqb_spec a 0) as [->|Hna];
    [destruct (Z.eqb_spec da 0) as [->|Hnd]|]; cbn [andb].
  - change (A8 (AsepriteColorFromRGBA F32.zero F32.zero F32.zero F32.zero))
      with 0.
    split; [lia|]. split; [lia|]. split; auto.
  - split; [exact H1|]. split; [exact H2|]. split; [discriminate|lia].
  - split; [exact H1|]. split; [exact H2|]. split; [discriminate|lia].
Qed.

Lemma combined_alpha_bounds_witness :
  let Out :=
    AsepriteCombineColors (AsepriteColorFromR8G8B8A8 200 0 0 100)
      (AsepriteColorFromR8G8B8A8 0 0 200 50) AsepriteBlendMode_Screen in
  100 <= A8 Out /\ 50 <= A8 Out.
Proof.
  cbv zeta.
  destruct (combined_alpha_bounds AsepriteBlendMode_Screen
              200 0 0 100 0 0 200 50 ltac:(lia) ltac:(lia))
    as (H1 & H2 & _).
  split; [exact H1 | exact H2].
Defined.

(** ** An opaque source *)

Lemma mul_check :
  for_byte_pairs (fun d fd a fa => finite_nonneg (fd * fa)%f32) = true.
Proof. vm_cast_no_check (eq_refl true). Qed.

Lemma opaque_check :
  for_bytes (fun a fa =>
    bool_decide
      ((channel_of_byte 255 + fa * (F32.one - channel_of_byte 255))%f32
       = F32.one)
    && bool_decide (opaque_channel fa = fa)) = true.
Proof. vm_cast_no_check (eq_refl true). Qed.

Lemma one_div_one : (F32.one / F32.one)%f32 = F32.one.
Proof. vm_compute. reflexivity. Qed.

Lemma channel_of_byte_255 : channel_of_byte 255 = F32.one.
Proof. vm_compute. reflexivity. Qed.

Lemma one_sub_one : (F32.one - F32.one)%f32 = F32.zero.
Proof. vm_compute. reflexivity. Qed.

Lemma finite_nonneg_mul_zero (x : F32.float) :
  finite_nonneg x = true -> (x * F32.zero)%f32 = F32.zero.
Proof.
  destruct x as [[|]|[|]| |[|] m e]; try discriminate; reflexivity.
Qed.

Lemma opaque_CompositeChannel (r g b dr dg db da d : Z) blend :
  0 <= d < 256 -> 0 <= da < 256 ->
  CompositeChannel (AsepriteColorFromR8G8B8A8 r g b 255)
    (AsepriteColorFromR8G8B8A8 dr dg db da) blend (channel_of_byte d)
  = opaque_channel blend /\
  OutAlpha (AsepriteColorFromR8G8B8A8 r g b 255)
    (AsepriteColorFromR8G8B8A8 dr dg db da) = F32.one.
Proof.
  intros Hd Ha.
  pose proof (for_byte_pairs_spec _ mul_check d da Hd Ha) as H1.
  cbv beta in H1. apply finite_nonneg_mul_zero in H1.
  pose proof (for_bytes_spec _ opaque_check da Ha) as H2.
  cbv beta in H2. apply andb_prop in H2 as [H2 _].
  apply bool_decide_eq_true in H2.
  unfold CompositeChannel, OutAlpha.
  change (A (AsepriteColorFromR8G8B8A8 r g b 255))
    with (channel_of_byte 255).
  change (A (AsepriteColorFromR8G8B8A8 dr dg db da))
    with (channel_of_byte da).
  rewrite H2, one_div_one, channel_of_byte_255, one_sub_one, H1.
  split; reflexivity.
Qed.

(** X16: an opaque source hides the destination.  In normal mode, and in
    any mode the [switch] does not list, a source of alpha byte 255
    combined over any destination built from bytes gives the source
    colour itself, bytes and floats: the destination term vanishes, the
    output alpha is exactly 1, and the products with 1 and with the
    reciprocal of 1 change nothing. *)
Theorem opaque_source_combined (BlendMode r g b dr dg db da : Z) :
  0 <= r < 256 -> 0 <= g < 256 -> 0 <= b < 256 ->
  0 <= dr < 256 -> 0 <= dg < 256 -> 0 <= db < 256 -> 0 <= da < 256 ->
  ~ (1 <= BlendMode <= 11) ->
  let Src := AsepriteColorFromR8G8B8A8 r g b 255 in
  let Dest := AsepriteColorFromR8G8B8A8 dr dg db da in
  AsepriteCombineColors Src Dest BlendMode = Src.
Proof.
  intros Hr Hg Hb Hdr Hdg Hdb Hda Hm. cbv zeta.
  unfold AsepriteCombineColors.
  rewrite !(proj2 (BlendChannel_modes _ _) BlendMode Hm).
  destruct (opaque_CompositeChannel r g b dr dg db da dr
              (channel_of_byte r) Hdr Hda) as [HR HA].
  destruct (opaque_CompositeChannel r g b dr dg db da dg
              (channel_of_byte g) Hdg Hda) as [HG _].
  destruct (opaque_CompositeChannel r g b dr dg db da db
              (channel_of_byte b) Hdb Hda) as [HB _].
  rewrite HA.
  change ((F32.one == F32.zero)%f32) with false. cbv iota zeta.
  change (R (AsepriteColorFromR8G8B8A8 r g b 255))
    with (channel_of_byte r).
  change (G (AsepriteColorFromR8G8B8A8 r g b 255))
    with (channel_of_byte g).
  change (B (AsepriteColorFromR8G8B8A8 r g b 255))
    with (channel_of_byte b).
  change (R (AsepriteColorFromR8G8B8A8 dr dg db da))
    with (channel_of_byte dr).
  change (G (AsepriteColorFromR8G8B8A8 dr dg db da))
    with (channel_of_byte dg).
  change (B (AsepriteColorFromR8G8B8A8 dr dg db da))
    with (channel_of_byte db).
  rewrite HR, HG, HB.
  assert (Hsame : forall s, 0 <= s < 256 ->
            opaque_channel (channel_of_byte s) = channel_of_byte s).
  { intros s Hs. pose proof (for_bytes_spec _ opaque_check s Hs) as H.
    cbv beta in H. apply andb_prop in H as [_ H].
    now apply bool_decide_eq_true in H. }
  rewrite !Hsame by assumption.
  unfold AsepriteColorFromRGBA, AsepriteColorFromR8G8B8A8.
  rewrite !byte_round_trip by assumption.
  rewrite <- channel_of_byte_255 at 1.
  rewrite byte_round_trip by lia.
  rewrite <- channel_of_byte_255. reflexivity.
Qed.

Lemma opaque_source_combined_witness :
  AsepriteCombineColors (AsepriteColorFromR8G8B8A8 0 128 255 255)
    (AsepriteColorFromR8G8B8A8 9 99 199 77) AsepriteBlendMode_Normal
  = AsepriteColorFromR8G8B8A8 0 128 255 255.
Proof.
  apply (opaque_source_combined AsepriteBlendMode_Normal
           0 128 255 9 99 199 77);
    unfold AsepriteBlendMode_Normal; lia.
Defined.


(** * Further properties of the compositor *)

(** X17: a call of the compositor that returns has kept the size of the
    destination texture and has left alone every destination pixel
    ([px], [py]) that is not under the canvas rectangle placed at
    ([DestX], [DestY]): nothing is written to the left of, to the right
    of, above or below the canvas, and nothing at or below row
    [DestHeight]. *)
Theorem compositor_leaves_outside (File : aseprite_file)
    (DestWidth DestHeight DestX DestY FrameNumber : Z)
    (DestTexture DestTexture' : texture) :
  AsepriteGetEntireFrameRGBA File DestWidth DestHeight DestX DestY
    FrameNumber DestTexture = Ok DestTexture' ->
  length DestTexture' = length DestTexture /\
  forall px py,
    0 <= px < DestWidth ->
    ~ (DestX <= px < DestX + hdr_WidthInPixels (file_Header File) /\
       DestY <= py < DestY + hdr_HeightInPixels (file_Header File) /\
       0 <= py < DestHeight) ->
    load DestTexture' (py * DestWidth + px)
    = load DestTexture (py * DestWidth + px).
Proof.
  intros H.
  apply AsepriteGetEntireFrameRGBA_writes in H as [Hlen Hout].
  split; [exact Hlen|].
  intros px py Hpx Hn. apply Hout.
  intros x y Hx Hy Hxd Hyd Heq. apply Hn.
  assert (Hrow : py = y + DestY) by nia.
  assert (Hcol : px = x + DestX) by nia.
  lia.
Qed.

Lemma compositor_leaves_outside_witness :
  exists DestTexture',
    AsepriteGetEntireFrameRGBA one_layer_doc 2 2 1 1 0 (grey_texture 4)
    = Ok DestTexture' /\
    load DestTexture' 0 = load (grey_texture 4) 0 /\
    load DestTexture' 3 <> load (grey_texture 4) 3.
Proof.
  destruct (AsepriteGetEntireFrameRGBA one_layer_doc 2 2 1 1 0
              (grey_texture 4)) as [DestTexture'|e] eqn:Hrun;
    [|vm_compute in Hrun; discriminate].
  exists DestTexture'. split; [reflexivity|]. split.
  - destruct (compositor_leaves_outside _ 2 2 1 1 0 _ _ Hrun) as [_ Hout].
    apply (Hout 0 0); [lia|]. simpl. lia.
  - vm_compute in Hrun. injection Hrun as <-. vm_compute. discriminate.
Defined.

(** ** Hidden layers *)

Section Hidden.
Variable File : aseprite_file.
Variables DestWidth DestHeight DestX DestY : Z.

Lemma AsepriteFrame_layers_skipped FrameNumber (n : nat) :
  forall LayerIndex DestTexture,
  0 <= LayerIndex ->
  (forall i, LayerIndex <= i < LayerIndex + Z.of_nat n ->
     exists LayerInfo,
       load (file_LayerInfo File) i = Ok (Some LayerInfo) /\
       layer_skipped LayerInfo = true) ->
  AsepriteFrame_layers File DestWidth DestHeight DestX DestY FrameNumber
    n LayerIndex DestTexture = Ok DestTexture.
Proof.
  induction n as [|n IH]; intros LayerIndex Tex Hpos Hall; simpl.
  - reflexivity.
  - destruct (Hall LayerIndex) as (info & Hld & Hsk); [lia|].
    rewrite Hld. simpl. rewrite Hsk. simpl.
    apply IH; [lia|]. intros i Hi. apply Hall. lia.
Qed.
End Hidden.

(** X18: when every layer of the document is skipped (opacity 0 or the
    visible flag clear), the compositor returns the destination texture
    as it received it, for any frame number below the frame count, and
    without looking at the frame array or at any cel. *)
Theorem hidden_layers_leave_texture (File : aseprite_file)
    (DestWidth DestHeight DestX DestY FrameNumber : Z)
    (DestTexture : texture) :
  FrameNumber < file_NumFrames File ->
  (forall i, 0 <= i < file_NumLayers File ->
     exists LayerInfo,
       load (file_LayerInfo File) i = Ok (Some LayerInfo) /\
       layer_skipped LayerInfo = true) ->
  forall Frames,
    AsepriteGetEntireFrameRGBA (set_Frames File Frames)
      DestWidth DestHeight DestX DestY FrameNumber DestTexture
    = Ok DestTexture.
Proof.
  intros HN Hall Frames. unfold AsepriteGetEntireFrameRGBA. simpl.
  destruct (Z.ltb_spec FrameNumber (file_NumFrames File)); [|lia]. simpl.
  apply AsepriteFrame_layers_skipped; [lia|].
  intros i Hi. apply Hall. lia.
Qed.

Lemma hidden_layers_leave_texture_witness :
  AsepriteGetEntireFrameRGBA (set_Frames hidden_layers_doc [])
    1 1 0 0 0 (grey_texture 1)
  = Ok (grey_texture 1).
Proof.
  apply (hidden_layers_leave_texture hidden_layers_doc 1 1 0 0 0).
  - simpl. lia.
  - intros i Hi. simpl in Hi.
    assert (Hc : i = 0 \/ i = 1) by lia.
    destruct Hc as [-> | ->]; eexists; split; reflexivity.
Defined.


(** ** A cel that covers the canvas *)

Lemma load_in_range {T} (cells : list T) (i : Z) :
  0 <= i < Z.of_nat (length cells) -> exists v, load cells i = Ok v.
Proof.
  intros Hi. unfold load. destruct (Z.ltb_spec i 0); [lia|].
  destruct (cells !! Z.to_nat i) as [v|] eqn:E; [eauto|].
  apply lookup_ge_None in E. lia.
Qed.

Lemma read_u8_in_range (Cells : list Z) (i : Z) :
  0 <= i < Z.of_nat (length Cells) -> exists b, read_u8 Cells i = Ok b.
Proof.
  intros Hi. unfold read_u8.
  destruct (load_in_range Cells i Hi) as [v ->]. simpl. eauto.
Qed.

Lemma pixel_at_in_range (Cells : list Z) (Source : Z) :
  0 <= Source -> Source + 4 <= Z.of_nat (length Cells) ->
  exists Pixel, pixel_at Cells Source = Ok Pixel.
Proof.
  intros H0 H4. unfold pixel_at.
  destruct (read_u8_in_range Cells Source) as [r ->]; [lia|].
  destruct (read_u8_in_range Cells (Source + 1)) as [g ->]; [lia|].
  destruct (read_u8_in_range Cells (Source + 2)) as [b ->]; [lia|].
  destruct (read_u8_in_range Cells (Source + 3)) as [a ->]; [lia|].
  simpl. eauto.
Qed.

Lemma FetchSourceColor_32 tpe pal (Cells : list Z) (Source : Z) Pixel :
  pixel_at Cells Source = Ok Pixel ->
  FetchSourceColor 32 tpe pal (Block Cells) Source
  = Ok (AsepriteColorFromRGBA8 Pixel, Source + 4).
Proof.
  unfold pixel_at, FetchSourceColor. intros H. simpl.
  inv_ok H. injection H as <-. rewrite Hv, Hv0, Hv1, Hv2. reflexivity.
Qed.

Lemma ApplyLayerOpacity_full (Color : aseprite_color) :
  ApplyLayerOpacity (LayerOpacity_of 255) Color = Color.
Proof.
  unfold ApplyLayerOpacity.
  change ((LayerOpacity_of 255 == F32.zero)%f32) with false.
  change ((LayerOpacity_of 255 == F32.one)%f32) with true.
  reflexivity.
Qed.

Section FullCel.
Variable File : aseprite_file.
Variable BlendMode : Z.
Variable Data : list Z.
Hypothesis Depth32 : hdr_ColorDepth (file_Header File) = 32.

(** One row of layer 0 at full opacity, destination at (0, 0): the [n]
    pixels from linear index [k] on are the cel's. *)
Lemma AsepriteFrame_row_copy DestWidth (n : nat) :
  forall X k DestTexture,
  0 <= X -> X + Z.of_nat n <= DestWidth ->
  0 <= k -> k + Z.of_nat n <= Z.of_nat (length DestTexture) ->
  4 * (k + Z.of_nat n) <= Z.of_nat (length Data) ->
  exists DestTexture',
    AsepriteFrame_row File DestWidth 0 0 BlendMode (LayerOpacity_of 255)
      (Block Data) n X (4 * k) (4 * k) DestTexture = Ok DestTexture' /\
    length DestTexture' = length DestTexture /\
    (forall j, k <= j < k + Z.of_nat n ->
       load DestTexture' j = pixel_at Data (4 * j)) /\
    (forall j, ~ (k <= j < k + Z.of_nat n) ->
       load DestTexture' j = load DestTexture j).
Proof.
  induction n as [|n IH]; intros X k Tex HX HXn Hk Hkn HD.
  - exists Tex. simpl. repeat split; try reflexivity. intros j Hj. lia.
  - cbn [AsepriteFrame_row].
    destruct (Z.ltb_spec (X + 0) 0); [lia|].
    destruct (Z.geb_spec (X + 0) DestWidth); [lia|].
    destruct (pixel_at_in_range Data (4 * k)) as [Pixel HP]; [lia|lia|].
    unfold ColorDepth. rewrite Depth32.
    rewrite (FetchSourceColor_32 _ _ _ _ _ HP). simpl bind.
    rewrite ApplyLayerOpacity_full.
    unfold load_px, store_px.
    replace (4 * k / 4) with k by (rewrite Z.mul_comm, Z.div_mul; lia).
    destruct (load_in_range Tex k) as [Old HOld]; [lia|].
    rewrite HOld. simpl bind.
    assert (HS : exists Tex1,
               store Tex k
                 (ComposePixel 0 BlendMode (AsepriteColorFromRGBA8 Pixel)
                    Old) = Ok Tex1).
    { unfold store.
      destruct (Z.leb_spec 0 k); [|lia].
      destruct (Z.ltb_spec k (Z.of_nat (length Tex))); [|lia].
      simpl. eauto. }
    destruct HS as [Tex1 HS]. rewrite HS. simpl bind.
    pose proof (store_length _ _ _ _ HS) as Hlen1.
    destruct (IH (X + 1) (k + 1) Tex1) as (Tex' & Hrun & Hlen & Hin & Hout);
      try lia.
    replace (4 * (k + 1)) with (4 * k + 4) in Hrun by lia.
    exists Tex'. split; [exact Hrun|]. split; [congruence|]. split.
    + intros j Hj. destruct (Z.eq_dec j k) as [->|Hne].
      * rewrite Hout by lia. rewrite (load_store_eq _ _ _ _ HS).
        rewrite HP. f_equal. unfold ComposePixel. simpl.
        now destruct Pixel.
      * apply Hin. lia.
    + intros j Hj. rewrite Hout by lia.
      eapply load_store_ne; eauto. lia.
Qed.

(** The rows from [Y] on. *)
Lemma AsepriteFrame_rows_copy DestHeight (n : nat) :
  let Width := hdr_WidthInPixels (file_Header File) in
  forall Y DestTexture,
  0 <= Width -> 0 <= Y -> Y + Z.of_nat n <= DestHeight ->
  (Y + Z.of_nat n) * Width <= Z.of_nat (length DestTexture) ->
  4 * ((Y + Z.of_nat n) * Width) <= Z.of_nat (length Data) ->
  exists DestTexture',
    AsepriteFrame_rows File Width DestHeight 0 0 0 BlendMode
      (LayerOpacity_of 255) (Block Data) (Width * 4) 0 (Width * 4) 0 0
      n Y DestTexture = Ok DestTexture' /\
    length DestTexture' = length DestTexture /\
    (forall j, Y * Width <= j < (Y + Z.of_nat n) * Width ->
       load DestTexture' j = pixel_at Data (4 * j)) /\
    (forall j, ~ (Y * Width <= j < (Y + Z.of_nat n) * Width) ->
       load DestTexture' j = load DestTexture j).
Proof.
  intros Width. induction n as [|n IH]; intros Y Tex HW HY HYn HT HD.
  - exists Tex. simpl. repeat split; try reflexivity. intros j Hj. lia.
  - cbn [AsepriteFrame_rows].
    destruct (Z.ltb_spec (Y + 0) 0); [lia|].
    destruct (Z.geb_spec (Y + 0) DestHeight); [lia|].
    replace ((0 + Y) * (Width * 4) + 0) with (4 * (Y * Width)) by lia.
    fold Width.
    destruct (AsepriteFrame_row_copy Width (Z.to_nat Width) 0 (Y * Width)
                Tex) as (Tex1 & Hrow & Hlen1 & Hin1 & Hout1); try nia.
    rewrite Hrow. simpl bind.
    destruct (IH (Y + 1) Tex1) as (Tex' & Hrun & Hlen & Hin & Hout);
      try lia; try (rewrite ?Hlen1; nia).
    exists Tex'. split; [exact Hrun|]. split; [congruence|]. split.
    + intros j Hj.
      destruct (Z_lt_ge_dec j ((Y + 1) * Width)) as [Hlt|Hge].
      * rewrite Hout by nia. apply Hin1. nia.
      * apply Hin. nia.
    + intros j Hj. rewrite Hout by nia. apply Hout1. nia.
Qed.
End FullCel.

(** X19: a cel that covers the canvas is copied pixel for pixel.  In a
    32-bit document whose layer 0 is visible at opacity 255 and whose
    other layers are skipped, with the cel of layer 0 at offset (0, 0),
    as wide as the canvas and holding four bytes for each canvas pixel,
    composing the frame into a destination of the canvas size at (0, 0)
    returns, and every destination pixel is then the four bytes of the
    cel at the same position, whatever the destination held and whatever
    the blend mode of the layer. *)
Theorem full_cel_copied (File : aseprite_file) (FrameNumber : Z)
    (LayerInfo : aseprite_layer_info) (Frame : aseprite_frame)
    (Layers : list aseprite_layer) (Layer : aseprite_layer)
    (Header : aseprite_cel_header) (Data : list Z) (DestTexture : texture) :
  let Width := hdr_WidthInPixels (file_Header File) in
  let Height := hdr_HeightInPixels (file_Header File) in
  hdr_ColorDepth (file_Header File) = 32 ->
  0 <= Width -> 0 <= Height ->
  FrameNumber < file_NumFrames File ->
  1 <= file_NumLayers File ->
  load (file_LayerInfo File) 0 = Ok (Some LayerInfo) ->
  layer_skipped LayerInfo = false ->
  lh_Opacity (info_Header LayerInfo) = 255 ->
  (forall i, 1 <= i < file_NumLayers File ->
     exists Other,
       load (file_LayerInfo File) i = Ok (Some Other) /\
       layer_skipped Other = true) ->
  load (file_Frames File) FrameNumber = Ok Frame ->
  frame_Layers Frame = Block Layers ->
  load Layers 0 = Ok Layer ->
  layer_Header Layer = Some Header ->
  cel_XPos Header = 0 -> cel_YPos Header = 0 ->
  layer_DataWidth Layer = Some Width ->
  layer_Data Layer = Block Data ->
  Z.of_nat (length Data) = 4 * (Height * Width) ->
  Z.of_nat (length DestTexture) = Height * Width ->
  exists DestTexture',
    AsepriteGetEntireFrameRGBA File Width Height 0 0 FrameNumber DestTexture
    = Ok DestTexture' /\
    length DestTexture' = length DestTexture /\
    forall j, 0 <= j < Height * Width ->
      load DestTexture' j = pixel_at Data (4 * j).
Proof.
  intros Width Height HD HW HH HFN HNL HLI Hvis Hop Hrest HFr HLs HL HHd
    HXP HYP HDW HDa HlenD HlenT.
  destruct (AsepriteFrame_rows_copy File (lh_BlendMode (info_Header LayerInfo))
              Data HD Height (Z.to_nat Height) 0 DestTexture)
    as (Tex' & Hrows & Hlen & Hin & _); fold Width; try nia.
  exists Tex'. split; [|split; [exact Hlen|]].
  - unfold AsepriteGetEntireFrameRGBA.
    destruct (Z.ltb_spec FrameNumber (file_NumFrames File)); [|lia].
    simpl bind.
    destruct (Z.to_nat (file_NumLayers File)) as [|n] eqn:En; [lia|].
    cbn [AsepriteFrame_layers]. rewrite HLI. simpl bind. rewrite Hvis.
    assert (Hlayer :
      AsepriteFrame_layer File Width Height 0 0 FrameNumber 0 LayerInfo
        DestTexture = Ok Tex').
    { unfold AsepriteFrame_layer. rewrite HFr. simpl bind.
      rewrite HLs. simpl bind. rewrite HL. simpl bind.
      rewrite HDW, HHd. simpl bind. rewrite HDa, Hop, HXP, HYP.
      unfold ColorDepth. rewrite HD. simpl Z.eqb. cbv iota.
      simpl Z.ltb. cbv iota.
      change (0 - 0) with 0. change (0 * 4) with 0.
      fold Width Height. exact Hrows. }
    rewrite Hlayer. simpl bind.
    apply AsepriteFrame_layers_skipped; [lia|].
    intros i Hi. apply Hrest. lia.
  - intros j Hj. apply Hin. lia.
Qed.

Lemma full_cel_copied_witness :
  exists DestTexture',
    AsepriteParseFile full_cel_file no_inflate junk_NumLayers
    = Ok full_cel_doc /\
    AsepriteGetEntireFrameRGBA full_cel_doc 2 2 0 0 0 (grey_texture 4)
    = Ok DestTexture' /\
    load DestTexture' 3
    = Ok {| px_r := 30; px_g := 31; px_b := 32; px_a := 33 |}.
Proof.
  destruct (full_cel_copied full_cel_doc 0 _ _
              _ _ _ _ (grey_texture 4)
              eq_refl ltac:(simpl; lia) ltac:(simpl; lia)
              ltac:(simpl; lia) ltac:(simpl; lia) eq_refl eq_refl eq_refl
              ltac:(simpl; intros; lia) eq_refl eq_refl eq_refl eq_refl
              eq_refl eq_refl eq_refl eq_refl eq_refl eq_refl)
    as (Tex' & Hcomp & _ & Hpix).
  exists Tex'. split; [vm_compute; reflexivity|]. split; [exact Hcomp|].
  exact (Hpix 3 ltac:(simpl; lia)).
Defined.


(** ** What the compositor never reads *)

Lemma load_map {T U} (f : T -> U) (cells : list T) (i : Z) :
  load (map f cells) i
  = match load cells i with Ok v => Ok (f v) | Err e => Err e end.
Proof.
  unfold load. destruct (i <? 0); [reflexivity|].
  change (map f cells) with (f <$> cells). rewrite list_lookup_fmap.
  now destruct (cells !! Z.to_nat i).
Qed.

Section Unread.
Variable File : aseprite_file.
Variables DestWidth DestHeight DestX DestY : Z.

Lemma AsepriteFrame_row_strip LayerIndex BlendMode LayerOpacity CelData
    (n : nat) :
  forall X Source Dest DestTexture,
  AsepriteFrame_row (strip_file File) DestWidth DestX LayerIndex BlendMode
    LayerOpacity CelData n X Source Dest DestTexture
  = AsepriteFrame_row File DestWidth DestX LayerIndex BlendMode
      LayerOpacity CelData n X Source Dest DestTexture.
Proof.
  induction n as [|n IH]; intros X Source Dest Tex; simpl; [reflexivity|].
  rewrite IH.
  destruct (X + DestX <? 0); [reflexivity|].
  destruct (X + DestX >=? DestWidth); [reflexivity|].
  change (ColorDepth (strip_file File)) with (ColorDepth File).
  change (TransparentPaletteEntry (strip_file File))
    with (TransparentPaletteEntry File).
  change (Palette (strip_file File)) with (Palette File).
  destruct (FetchSourceColor _ _ _ _ _) as [[c s]|e]; [|reflexivity].
  simpl. destruct (load_px Tex Dest) as [Old|e]; [|reflexivity].
  simpl. destruct (store_px _ _ _) as [Tex1|e]; [|reflexivity].
  simpl. apply IH.
Qed.

Lemma AsepriteFrame_rows_strip LayerIndex BlendMode LayerOpacity CelData
    DestPitch DestStartX DataPitch StartY StartX (n : nat) :
  forall Y DestTexture,
  AsepriteFrame_rows (strip_file File) DestWidth DestHeight DestX DestY
    LayerIndex BlendMode LayerOpacity CelData DestPitch DestStartX
    DataPitch StartY StartX n Y DestTexture
  = AsepriteFrame_rows File DestWidth DestHeight DestX DestY
      LayerIndex BlendMode LayerOpacity CelData DestPitch DestStartX
      DataPitch StartY StartX n Y DestTexture.
Proof.
  induction n as [|n IH]; intros Y Tex; simpl; [reflexivity|].
  rewrite IH.
  destruct (Y + DestY <? 0); [reflexivity|].
  destruct (Y + DestY >=? DestHeight); [reflexivity|].
  rewrite AsepriteFrame_row_strip.
  destruct (AsepriteFrame_row _ _ _ _ _ _ _ _ _ _ _ _) as [Tex1|e];
    [|reflexivity].
  simpl. apply IH.
Qed.

Lemma AsepriteFrame_layer_strip FrameNumber LayerIndex LayerInfo
    DestTexture :
  AsepriteFrame_layer (strip_file File) DestWidth DestHeight DestX DestY
    FrameNumber LayerIndex LayerInfo DestTexture
  = AsepriteFrame_layer File DestWidth DestHeight DestX DestY
      FrameNumber LayerIndex LayerInfo DestTexture.
Proof.
  unfold AsepriteFrame_layer.
  change (file_Frames (strip_file File))
    with (map strip_frame (file_Frames File)).
  rewrite load_map.
  destruct (load (file_Frames File) FrameNumber) as [Frame|e];
    [|reflexivity].
  cbn [bind strip_frame frame_Layers].
  destruct (frame_Layers Frame) as [| |Layers]; try reflexivity.
  cbn [bind deref]. rewrite load_map.
  destruct (load Layers LayerIndex) as [Layer|e]; [|reflexivity].
  cbn [bind strip_layer layer_DataWidth layer_Header layer_Data].
  destruct (layer_DataWidth Layer) as [DataWidth|]; [|reflexivity].
  cbn [bind initialised].
  destruct (layer_Header Layer) as [Header|]; [|reflexivity].
  cbn [bind initialised fmap option_fmap option_map cel_XPos cel_YPos].
  apply AsepriteFrame_rows_strip.
Qed.

Lemma AsepriteFrame_layers_strip FrameNumber (n : nat) :
  forall LayerIndex DestTexture,
  AsepriteFrame_layers (strip_file File) DestWidth DestHeight DestX DestY
    FrameNumber n LayerIndex DestTexture
  = AsepriteFrame_layers File DestWidth DestHeight DestX DestY
      FrameNumber n LayerIndex DestTexture.
Proof.
  induction n as [|n IH]; intros LayerIndex Tex; simpl; [reflexivity|].
  destruct (load (file_LayerInfo File) LayerIndex) as [Slot|e];
    [|reflexivity].
  simpl. destruct (initialised Slot) as [LayerInfo|e]; [|reflexivity].
  simpl. rewrite AsepriteFrame_layer_strip.
  destruct (if layer_skipped LayerInfo then _ else _) as [Tex1|e];
    [|reflexivity].
  simpl. apply IH.
Qed.
End Unread.

(** X20: what the compositor never reads.  Its result, error outcomes
    included, is the same when every cel's height, opacity, type and
    layer index and every frame's header and layer count are blanked: of
    a cel it uses the position, the width (as the pitch of the data) and
    the data, of a frame the cel array, and it counts the layers by the
    document's layer count. *)
Theorem compositor_unread_fields (File : aseprite_file)
    (DestWidth DestHeight DestX DestY FrameNumber : Z)
    (DestTexture : texture) :
  AsepriteGetEntireFrameRGBA (strip_file File) DestWidth DestHeight
    DestX DestY FrameNumber DestTexture
  = AsepriteGetEntireFrameRGBA File DestWidth DestHeight
      DestX DestY FrameNumber DestTexture.
Proof.
  unfold AsepriteGetEntireFrameRGBA.
  change (file_NumFrames (strip_file File)) with (file_NumFrames File).
  change (file_NumLayers (strip_file File)) with (file_NumLayers File).
  destruct (Assert _); [|reflexivity]. simpl.
  apply AsepriteFrame_layers_strip.
Qed.


(** * The write of the pixel loop *)

(** C1 at [green_over_red_file]: two visible layers at full opacity and
    normal blend, an opaque red pixel on layer 0 and an opaque green pixel
    on layer 1.  The source pixel of layer 1 is not transparent, and
    combined over the red destination in normal mode it gives green; the
    compositor leaves the destination red, because the test that guards
    the combination reads the red byte of the source only, and that byte
    is 0.  With the colours the other way round (red byte 255 on layer 1)
    the source is combined. *)
Theorem C1_nonzero_source_dropped :
  let Red := {| px_r := 255; px_g := 0; px_b := 0; px_a := 255 |} in
  let Green := {| px_r := 0; px_g := 255; px_b := 0; px_a := 255 |} in
  match AsepriteParseFile green_over_red_file no_inflate junk_NumLayers,
        AsepriteParseFile red_over_green_file no_inflate junk_NumLayers with
  | Ok File, Ok Swapped =>
      px_is_zero Green = false /\
      RGBA8 (AsepriteCombineColors (AsepriteColorFromRGBA8 Green)
               (AsepriteColorFromRGBA8 Red) AsepriteBlendMode_Normal)
      = Green /\
      AsepriteGetEntireFrameRGBA File 1 1 0 0 0 [zero_px] = Ok [Red] /\
      ComposePixel 1 AsepriteBlendMode_Normal
        (AsepriteColorFromRGBA8 Green) Red = Red /\
      AsepriteGetEntireFrameRGBA Swapped 1 1 0 0 0 [zero_px] = Ok [Red]
  | _, _ => False
  end.
Proof. vm_compute. repeat split. Qed.

(** * The legacy palette *)

Section LegacyEntries.
Variable FileData : list Z.

(** After [n] packets each entry holds the colour of the last packet
    that names it, and what it held before when none does. *)
Lemma AsepriteParseOldPalette_packets_entries (n : nat) :
  forall ChunkData Colors ChunkData' Colors' i,
  AsepriteParseOldPalette_packets FileData n ChunkData Colors
  = Ok (ChunkData', Colors') ->
  match legacy_source FileData n ChunkData i with
  | Ok (Some Source) =>
      exists Color,
        legacy_color FileData Source = Ok Color /\
        load Colors' i = Ok (Some Color)
  | Ok None => load Colors' i = load Colors i
  | Err _ => False
  end.
Proof.
  induction n as [|n IH]; intros ChunkData Colors ChunkData' Colors' i H.
  - simpl in H. injection H as <- <-. reflexivity.
  - apply AsepriteParseOldPalette_packet in H
      as (StartIndex & NumColors & Colors1 & HS & HN & Hin & Hout & Hrest).
    cbv zeta in Hin, Hout, Hrest.
    cbn [legacy_source]. rewrite HS, HN. cbn [bind].
    specialize (IH _ _ _ _ i Hrest).
    destruct (legacy_source FileData n
                (ChunkData + 2
                 + 3 * (if NumColors =? 0 then 256 else NumColors)) i)
      as [[Source|]|e]; cbn [bind]; [exact IH | | exact IH].
    destruct (Z.leb_spec StartIndex i) as [Hlo|Hlo];
      [destruct (Z.ltb_spec i
                   (StartIndex
                    + (if NumColors =? 0 then 256 else NumColors)))
         as [Hhi|Hhi]|]; cbn [andb].
    + destruct (Hin (i - StartIndex)) as (r & g & b & Hr & Hg & Hb & Hl);
        [lia|].
      replace (StartIndex + (i - StartIndex)) with i in Hl by lia.
      exists (AsepriteColorFromR8G8B8A8 r g b 255). split.
      * unfold legacy_color. rewrite Hr, Hg, Hb. reflexivity.
      * rewrite IH. exact Hl.
    + rewrite IH. apply Hout. lia.
    + rewrite IH. apply Hout. lia.
Qed.

(** The table of a decoded legacy chunk, entry by entry. *)
Lemma AsepriteParseOldPalette_entries File ChunkData File' :
  AsepriteParseOldPalette FileData File ChunkData = Ok File' ->
  exists Packets Colors,
    read_u16 FileData ChunkData = Ok Packets /\
    pal_Colors (file_Palette File') = Block Colors /\
    length Colors = 256%nat /\
    forall i, 0 <= i < 256 ->
      load Colors i
      = legacy_entry FileData (Z.to_nat Packets) (ChunkData + 2) i.
Proof.
  intros H.
  apply AsepriteParseOldPalette_table in H
    as (Packets & ChunkData' & Colors & HP & Hrun & HB & Hlen).
  exists Packets, Colors. repeat split; try assumption.
  intros i Hi.
  pose proof (AsepriteParseOldPalette_packets_entries _ _ _ _ _ i Hrun)
    as He.
  unfold legacy_entry.
  destruct (legacy_source FileData (Z.to_nat Packets) (ChunkData + 2) i)
    as [[Source|]|e]; cbn [bind].
  - destruct He as (Color & -> & ->). reflexivity.
  - rewrite He. apply load_fresh_array. lia.
  - contradiction.
Qed.
End LegacyEntries.

Section LegacyTable.
Variable FileData : list Z.
Variable inflate : list Z -> option (list Z).

(** What one chunk does to the palette flag and to the palette, by its
    type code. *)
Lemma AsepriteParseChunk_palette_effect File Frame Parser File' Frame'
    Parser' :
  AsepriteParseChunk FileData inflate File Frame Parser
  = Ok (File', Frame', Parser') ->
  exists ChunkHeader,
    read_aseprite_chunk_header FileData (At Parser) = Ok ChunkHeader /\
    At Parser' = At Parser + ch_ChunkSize ChunkHeader /\
    (UsesNewPalette Parser' = true <->
     UsesNewPalette Parser = true \/
     ch_ChunkType ChunkHeader = AsepriteChunk_Palette) /\
    (UsesNewPalette Parser' = false ->
     (ch_ChunkType ChunkHeader = AsepriteChunk_OldPalette ->
      has_legacy_table File') /\
     (ch_ChunkType ChunkHeader <> AsepriteChunk_OldPalette ->
      file_Palette File' = file_Palette File)).
Proof.
  intros H.
  pose proof (AsepriteParseChunk_cases _ _ _ _ _ _ _ _ H)
    as (h & Hh & Hcases).
  exists h. split; [exact Hh|]. cbv zeta in Hcases.
  destruct Hcases as [(Heq & _ & _ & Hnp) | [(Hty & Hflag & Hp & _ & ->)
    | [(Hty & Hl & _) | [(Hty & -> & -> & _) | (Hty & Hp & _ & ->)]]]].
  - injection Heq as -> -> ->. simpl. split; [reflexivity|].
    split; [tauto|]. intros Hf. split; [|reflexivity].
    intros Hold.
    rewrite (proj1 (AsepriteParseChunk_legacy FileData inflate File Frame
                      Parser h Hh) Hold Hf) in H.
    apply bind_Ok in H as (F1 & Hdec & H). injection H as <-.
    apply AsepriteParseOldPalette_table in Hdec
      as (_ & _ & Colors & _ & _ & HB & Hlen).
    exists Colors. auto.
  - simpl. split; [reflexivity|].
    split; [rewrite Hty; split; [tauto | intros [?|?]; [assumption |
                                                       discriminate]]|].
    intros _. split; [|congruence]. intros _.
    apply AsepriteParseOldPalette_table in Hp
      as (_ & _ & Colors & _ & _ & HB & Hlen).
    exists Colors. auto.
  - apply AsepriteParseLayer_footprint in Hl
      as (_ & _ & _ & HP & HAt & HU).
    simpl in HAt, HU. split; [exact HAt|]. rewrite HU, HP, Hty.
    split; [split; [tauto | intros [?|?]; [assumption | discriminate]]|].
    intros _. split; [discriminate | reflexivity].
  - simpl. split; [reflexivity|]. rewrite Hty.
    split; [split; [tauto | intros [?|?]; [assumption | discriminate]]|].
    intros _. split; [discriminate | reflexivity].
  - simpl. split; [reflexivity|]. split; [tauto|]. discriminate.
Qed.

Lemma AsepriteParseChunks_palette_effect (n : nat) :
  forall File Frame Parser File' Frame' Parser',
  AsepriteParseChunks FileData inflate n File Frame Parser
  = Ok (File', Frame', Parser') ->
  exists types,
    chunk_types FileData n (At Parser) = Ok (types, At Parser') /\
    (UsesNewPalette Parser' = true <->
     UsesNewPalette Parser = true \/ AsepriteChunk_Palette ∈ types) /\
    (UsesNewPalette Parser' = false ->
     (AsepriteChunk_OldPalette ∈ types -> has_legacy_table File') /\
     (AsepriteChunk_OldPalette ∉ types ->
      file_Palette File' = file_Palette File)).
Proof.
  induction n as [|n IH]; intros File Frame Parser File' Frame' Parser' H;
    simpl in H.
  - injection H as <- <- <-. exists []. simpl.
    split; [reflexivity|]. split.
    + split; [tauto|]. intros [?|Hin]; [assumption|].
      now apply elem_of_nil in Hin.
    + intros _. split; [|reflexivity]. intros Hin.
      now apply elem_of_nil in Hin.
  - apply bind_Ok in H as ([[F1 Fr1] P1] & H1 & H). cbv beta iota in H.
    apply AsepriteParseChunk_palette_effect in H1
      as (h & Hh & HAt & Hflag1 & Hpal1).
    apply IH in H as (types & Htypes & Hflag & Hpal).
    exists (ch_ChunkType h :: types). simpl. rewrite Hh. simpl.
    rewrite <- HAt, Htypes. simpl. split; [reflexivity|].
    split.
    + rewrite Hflag, Hflag1, elem_of_cons. intuition congruence.
    + intros Hf. specialize (Hpal Hf).
      assert (Hf1 : UsesNewPalette P1 = false).
      { destruct (UsesNewPalette P1) eqn:E; [|reflexivity].
        assert (UsesNewPalette Parser' = true) by (apply Hflag; auto).
        congruence. }
      specialize (Hpal1 Hf1). destruct Hpal as [Hin Hout].
      destruct Hpal1 as [Hin1 Hout1]. split.
      * intros Hmem. destruct (decide (AsepriteChunk_OldPalette ∈ types))
          as [Hd|Hd]; [auto|].
        apply elem_of_cons in Hmem as [Hmem|Hmem]; [|contradiction].
        destruct (Hin1 (eq_sym Hmem)) as (Colors & HB & Hlen).
        exists Colors. rewrite (Hout Hd). auto.
      * intros Hmem. apply not_elem_of_cons in Hmem as [Hne Hmem].
        rewrite (Hout Hmem). apply Hout1. congruence.
Qed.

Lemma AsepriteParseFrames_palette_effect (n : nat) :
  forall FrameIndex File Parser File' Parser',
  AsepriteParseFrames FileData inflate n FrameIndex File Parser
  = Ok (File', Parser') ->
  exists types,
    frame_chunk_types FileData n (At Parser) = Ok (types, At Parser') /\
    (UsesNewPalette Parser' = true <->
     UsesNewPalette Parser = true \/ AsepriteChunk_Palette ∈ types) /\
    (UsesNewPalette Parser' = false ->
     (AsepriteChunk_OldPalette ∈ types -> has_legacy_table File') /\
     (AsepriteChunk_OldPalette ∉ types ->
      file_Palette File' = file_Palette File)).
Proof.
  induction n as [|n IH]; intros FrameIndex File Parser File' Parser' H;
    cbn [AsepriteParseFrames] in H.
  - injection H as <- <-. exists []. simpl.
    split; [reflexivity|]. split.
    + split; [tauto|]. intros [?|Hin]; [assumption|].
      now apply elem_of_nil in Hin.
    + intros _. split; [|reflexivity]. intros Hin.
      now apply elem_of_nil in Hin.
  - apply bind_Ok in H as (Frame & _ & H).
    apply bind_Ok in H as ([[F1 Fr1] P1] & H1 & H). cbv beta iota in H.
    apply bind_Ok in H as (Frames1 & _ & H).
    unfold AsepriteParseFrame in H1.
    apply bind_Ok in H1 as (fh & Hfh & H1). simpl in H1.
    apply AsepriteParseChunks_palette_effect in H1
      as (types1 & Htypes1 & Hflag1 & Hpal1).
    simpl in Htypes1, Hflag1.
    apply IH in H as (types & Htypes & Hflag & Hpal).
    exists (types1 ++ types). simpl. rewrite Hfh. simpl.
    rewrite Htypes1. simpl. rewrite Htypes. simpl.
    split; [reflexivity|]. split.
    + rewrite Hflag, Hflag1, elem_of_app. tauto.
    + intros Hf. specialize (Hpal Hf). simpl in Hpal.
      assert (Hf1 : UsesNewPalette P1 = false).
      { destruct (UsesNewPalette P1) eqn:E; [|reflexivity].
        assert (UsesNewPalette Parser' = true) by (apply Hflag; auto).
        congruence. }
      specialize (Hpal1 Hf1). destruct Hpal as [Hin Hout].
      destruct Hpal1 as [Hin1 Hout1]. split.
      * intros Hmem. destruct (decide (AsepriteChunk_OldPalette ∈ types))
          as [Hd|Hd]; [auto|].
        apply elem_of_app in Hmem as [Hmem|Hmem]; [|contradiction].
        destruct (Hin1 Hmem) as (Colors & HB & Hlen).
        exists Colors. rewrite (Hout Hd). auto.
      * intros Hmem. apply not_elem_of_app in Hmem as [Hm1 Hm].
        rewrite (Hout Hm). now apply Hout1.
Qed.
End LegacyTable.

(** C4 (as stated) fails on "a file using only legacy palette chunks":
    the one palette chunk of [old_palette2_file] is a legacy chunk, of
    type 0x0011, and the parse ends without a palette table: the pointer
    was never assigned. *)
Lemma C4_old_palette2_only_counterexample :
  match AsepriteParseFile_run old_palette2_file no_inflate junk_NumLayers with
  | Ok (File, Parser) =>
      read_aseprite_chunk_header old_palette2_file 144
      = Ok {| ch_ChunkSize := 13; ch_ChunkType := AsepriteChunk_OldPalette2 |}
      /\ At Parser = len old_palette2_file
      /\ UsesNewPalette Parser = false
      /\ pal_Colors (file_Palette File) = Wild
  | Err _ => False
  end.
Proof. vm_compute. repeat split. Qed.

(** C4 (amended): a legacy palette chunk of type 0x0004 that is decoded
    reads a packet count and, for each packet, a start index and a count
    byte with 0 standing for 256; it leaves a table of 256 entries in
    which each index named by a packet (from start to start + count - 1)
    holds the colour of its three bytes with alpha 255, the last packet
    that names it deciding, and every other index holds nothing.  A file
    that parses and has no modern palette chunk among its chunks ends
    with a table of 256 entries when it has a chunk of type 0x0004, and
    with no table at all when it has none. *)
Theorem C4_legacy_palette (FileData : list Z) :
  (forall File ChunkData File',
     AsepriteParseOldPalette FileData File ChunkData = Ok File' ->
     exists Packets Colors,
       read_u16 FileData ChunkData = Ok Packets /\
       pal_Colors (file_Palette File') = Block Colors /\
       length Colors = 256%nat /\
       forall i, 0 <= i < 256 ->
         load Colors i
         = legacy_entry FileData (Z.to_nat Packets) (ChunkData + 2) i)
  /\
  (forall inflate fresh_NumLayers File Parser,
     AsepriteParseFile_run FileData inflate fresh_NumLayers
     = Ok (File, Parser) ->
     exists types,
       file_chunk_types FileData = Ok types /\
       (AsepriteChunk_Palette ∉ types ->
        (AsepriteChunk_OldPalette ∈ types ->
         exists Colors,
           pal_Colors (file_Palette File) = Block Colors /\
           length Colors = 256%nat) /\
        (AsepriteChunk_OldPalette ∉ types ->
         pal_Colors (file_Palette File) = Wild))).
Proof.
  split.
  - intros File ChunkData File' H.
    exact (AsepriteParseOldPalette_entries FileData File ChunkData File' H).
  - intros inflate fresh_NumLayers File Parser H.
    unfold AsepriteParseFile_run in H.
    apply bind_Ok in H as ([File0 Parser0] & Hinit & H). cbv beta iota in H.
    apply AsepriteParseFrames_palette_effect in H
      as (types & Htypes & Hflag & Hpal).
    unfold AsepriteParseFile_init in Hinit. inv_ok Hinit.
    injection Hinit as <- <-. simpl in Htypes, Hflag, Hpal, Hv.
    exists types. split.
    + change (0 + sizeof_aseprite_header) with sizeof_aseprite_header
        in Htypes.
      unfold file_chunk_types. rewrite Hv. cbn [bind]. rewrite Htypes.
      reflexivity.
    + intros Hnp.
      assert (Hf : UsesNewPalette Parser = false).
      { destruct (UsesNewPalette Parser) eqn:E; [|reflexivity].
        destruct (proj1 Hflag eq_refl) as [?|?];
          [discriminate | contradiction]. }
      destruct (Hpal Hf) as [Hin Hout]. split; [exact Hin|].
      intros Hno. now rewrite (Hout Hno).
Qed.

Lemma C4_legacy_palette_witness :
  exists File Parser Colors,
    AsepriteParseFile_run two_packets_file no_inflate junk_NumLayers
    = Ok (File, Parser) /\
    file_chunk_types two_packets_file
    = Ok [AsepriteChunk_OldPalette; AsepriteChunk_UserData] /\
    pal_Colors (file_Palette File) = Block Colors /\
    length Colors = 256%nat /\
    load Colors 0 = Ok None /\
    load Colors 1 = Ok (Some (AsepriteColorFromR8G8B8A8 1 1 1 255)) /\
    load Colors 2 = Ok (Some (AsepriteColorFromR8G8B8A8 20 20 20 255)) /\
    load Colors 3 = Ok (Some (AsepriteColorFromR8G8B8A8 30 30 30 255)) /\
    load Colors 4 = Ok None.
Proof.
  destruct (AsepriteParseFile_run two_packets_file no_inflate junk_NumLayers)
    as [[File Parser]|e] eqn:Hrun; [|vm_compute in Hrun; discriminate].
  destruct (proj2 (C4_legacy_palette two_packets_file) _ _ _ _ Hrun)
    as (types & Htypes & Hlegacy).
  assert (Ht : file_chunk_types two_packets_file
               = Ok [AsepriteChunk_OldPalette; AsepriteChunk_UserData])
    by (vm_compute; reflexivity).
  rewrite Ht in Htypes. injection Htypes as <-.
  destruct Hlegacy as [Hin _].
  { intros Hmem. apply list_elem_of_In in Hmem. simpl in Hmem.
    destruct Hmem as [?|[?|[]]]; discriminate. }
  destruct Hin as (Colors & HB & Hlen); [apply list_elem_of_here|].
  destruct (AsepriteParseOldPalette two_packets_file
              (state_File two_packets_start) 150) as [File'|e] eqn:Hdec;
    [|vm_compute in Hdec; discriminate].
  destruct (proj1 (C4_legacy_palette two_packets_file) _ _ _ Hdec)
    as (Packets & Colors' & HP & HB' & _ & Hentries).
  vm_compute in HP. injection HP as <-.
  assert (Hsame : pal_Colors (file_Palette File)
                  = pal_Colors (file_Palette File')).
  { vm_compute in Hrun. injection Hrun as <- <-.
    vm_compute in Hdec. injection Hdec as <-. reflexivity. }
  rewrite HB, HB' in Hsame. injection Hsame as <-.
  exists File, Parser, Colors.
  split; [reflexivity|]. split; [exact Ht|]. split; [exact HB|].
  split; [exact Hlen|].
  rewrite !Hentries by lia. repeat split.
Defined.


(** * Indexed colour in the pixel loop *)

(** C8: in a document of colour depth 8, at a pixel of the loop over [X]
    that is not clipped, the index byte read from the cel is compared
    with the transparent index of the document's header.  When they are
    equal the source colour is the all-zero colour, whatever the
    document's palette holds at that index and whatever the layer
    opacity: the destination pixel stays as it is, or becomes the
    all-zero pixel on layer 0 or when it was all zero.  Any other index
    is looked up in the document's palette, and the colour found there is
    what is scaled by the opacity and composed.  In both cases the loop
    goes on one byte further in the cel. *)
Theorem C8_transparent_index (File : aseprite_file)
    (DestWidth DestX LayerIndex BlendMode Opacity : Z)
    (CelData : ptr Z) (Cells : list Z) (n : nat) (X Source Dest : Z)
    (DestTexture : texture) (PaletteIndex : Z) (Old : rgba8) :
  hdr_ColorDepth (file_Header File) = 8 ->
  0 <= Opacity < 256 ->
  0 <= X + DestX < DestWidth ->
  deref CelData = Ok Cells ->
  read_u8 Cells Source = Ok PaletteIndex ->
  load_px DestTexture Dest = Ok Old ->
  (PaletteIndex = hdr_TransparentPaletteEntry (file_Header File) ->
     AsepriteFrame_row File DestWidth DestX LayerIndex BlendMode
       (LayerOpacity_of Opacity) CelData (S n) X Source Dest DestTexture
     = (let* DestTexture :=
          store_px DestTexture Dest
            (if (LayerIndex =? 0) || px_is_zero Old then zero_px else Old) in
        AsepriteFrame_row File DestWidth DestX LayerIndex BlendMode
          (LayerOpacity_of Opacity) CelData n (X + 1) (Source + 1) (Dest + 4)
          DestTexture))
  /\
  (PaletteIndex <> hdr_TransparentPaletteEntry (file_Header File) ->
     forall Colors Color,
       pal_Colors (file_Palette File) = Block Colors ->
       load Colors PaletteIndex = Ok (Some Color) ->
       AsepriteFrame_row File DestWidth DestX LayerIndex BlendMode
         (LayerOpacity_of Opacity) CelData (S n) X Source Dest DestTexture
       = (let* DestTexture :=
            store_px DestTexture Dest
              (ComposePixel LayerIndex BlendMode
                 (ApplyLayerOpacity (LayerOpacity_of Opacity) Color) Old) in
          AsepriteFrame_row File DestWidth DestX LayerIndex BlendMode
            (LayerOpacity_of Opacity) CelData n (X + 1) (Source + 1)
            (Dest + 4) DestTexture)).
Proof.
  intros Hdepth Hop HX Hd Hr Hold. split.
  - intros Heq.
    rewrite (AsepriteFrame_row_pixel File DestWidth DestX LayerIndex BlendMode
               (LayerOpacity_of Opacity) CelData n X Source Dest DestTexture
               zero_color (Source + 1) Old HX); [|  | exact Hold].
    + rewrite (opacity_keeps_zero_color Opacity Hop).
      unfold ComposePixel.
      now destruct ((LayerIndex =? 0) || px_is_zero Old).
    + unfold FetchSourceColor, ColorDepth, TransparentPaletteEntry.
      rewrite Hdepth. simpl. rewrite Hd. simpl. rewrite Hr. simpl.
      rewrite Heq, Z.eqb_refl. reflexivity.
  - intros Hne Colors Color HC HL.
    apply (AsepriteFrame_row_pixel File DestWidth DestX LayerIndex BlendMode
             (LayerOpacity_of Opacity) CelData n X Source Dest DestTexture
             Color (Source + 1) Old HX); [|exact Hold].
    unfold FetchSourceColor, ColorDepth, TransparentPaletteEntry, Palette.
    rewrite Hdepth. simpl. rewrite Hd. simpl. rewrite Hr. simpl.
    destruct (Z.eqb_spec PaletteIndex
                (hdr_TransparentPaletteEntry (file_Header File)));
      [contradiction|].
    rewrite HC. simpl. rewrite HL. reflexivity.
Qed.

Lemma C8_transparent_index_witness :
  hdr_TransparentPaletteEntry (file_Header indexed_doc) = 3 /\
  (exists Colors,
     pal_Colors (file_Palette indexed_doc) = Block Colors /\
     load Colors 3 = Ok (Some (AsepriteColorFromR8G8B8A8 200 100 50 255))) /\
  AsepriteFrame_row indexed_doc 2 0 0 0 (LayerOpacity_of 255)
    (Block [3; 1]) 2 0 0 0 (grey_texture 2)
  = Ok [zero_px; {| px_r := 10; px_g := 20; px_b := 30; px_a := 255 |}] /\
  AsepriteGetEntireFrameRGBA indexed_doc 2 1 0 0 0 (grey_texture 2)
  = Ok [zero_px; {| px_r := 10; px_g := 20; px_b := 30; px_a := 255 |}].
Proof.
  split; [reflexivity|]. split; [eexists; split; reflexivity|].
  split; [|vm_compute; reflexivity].
  rewrite (proj1 (C8_transparent_index indexed_doc 2 0 0 0 255
                    (Block [3; 1]) [3; 1] 1 0 0 0 (grey_texture 2) 3
                    {| px_r := 9; px_g := 9; px_b := 9; px_a := 9 |}
                    eq_refl ltac:(lia) ltac:(lia) eq_refl eq_refl eq_refl)
             eq_refl).
  change (store_px (grey_texture 2) 0
            (if (0 =? 0) || px_is_zero
                              {| px_r := 9; px_g := 9; px_b := 9; px_a := 9 |}
             then zero_px
             else {| px_r := 9; px_g := 9; px_b := 9; px_a := 9 |}))
    with (Ok [zero_px; {| px_r := 9; px_g := 9; px_b := 9; px_a := 9 |}]).
  cbn [bind].
  rewrite (proj2 (C8_transparent_index indexed_doc 2 0 0 0 255
                    (Block [3; 1]) [3; 1] 0 (0 + 1) (0 + 1) (0 + 4)
                    [zero_px; {| px_r := 9; px_g := 9; px_b := 9; px_a := 9 |}]
                    1 {| px_r := 9; px_g := 9; px_b := 9; px_a := 9 |}
                    eq_refl ltac:(lia) ltac:(lia) eq_refl eq_refl eq_refl)
             ltac:(discriminate) _
             (AsepriteColorFromR8G8B8A8 10 20 30 255) eq_refl eq_refl).
  vm_compute. reflexivity.
Defined.

(** * Cel dispatch *)

Section CelDispatch.
Variable FileData : list Z.
Variable inflate : list Z -> option (list Z).

(** [AsepriteParseCel] on a frame with a cel array: the header is read,
    the cel is built by the [switch] on the cel type, and it is put
    into the slot of the layer index. *)
Lemma AsepriteParseCel_returns Frame ChunkData ChunkLength CelHeader
    Layers Old Layer :
  read_aseprite_cel_header FileData ChunkData = Ok CelHeader ->
  frame_Layers Frame = Block Layers ->
  load Layers (cel_LayerIndex CelHeader) = Ok Old ->
  cel_of_type FileData inflate CelHeader Old
    (ChunkData + sizeof_aseprite_cel_header) ChunkLength = Ok Layer ->
  AsepriteParseCel FileData inflate Frame ChunkData ChunkLength
  = Ok {| frame_Header := frame_Header Frame;
          frame_NumLayers := frame_NumLayers Frame;
          frame_Layers :=
            Block (<[Z.to_nat (cel_LayerIndex CelHeader) := Layer]>
                     Layers) |}.
Proof.
  intros Hh HL HO HT. unfold AsepriteParseCel. rewrite Hh. cbn [bind].
  rewrite HL. cbn [bind deref]. rewrite HO. cbn [bind].
  unfold cel_of_type in HT. rewrite HT. cbn [bind].
  apply load_Ok in HO as [Hi _]. unfold store.
  destruct (Z.leb_spec 0 (cel_LayerIndex CelHeader)); [|lia].
  destruct (Z.ltb_spec (cel_LayerIndex CelHeader)
              (Z.of_nat (length Layers))); [|lia].
  reflexivity.
Qed.
End CelDispatch.

(** C10: a cel chunk whose cel decodes.  When the frame's layer count
    differs from the document's, the step returns the frame with the
    document's count and a fresh cel array of that many cells in which
    the cel just decoded is the only one: whatever cel array the frame
    had, with every cel decoded into it, is dropped.  When the counts are
    equal, the step returns the frame with its own array, the cel put
    into it and every other cel of the array kept.  In both cases the
    slot is the one at the cel's declared layer index, and the document
    is not changed. *)
Theorem C10_cel_dispatch (FileData : list Z)
    (inflate : list Z -> option (list Z))
    (File : aseprite_file) (Frame : aseprite_frame) (Parser : aseprite_parser)
    (ChunkHeader : aseprite_chunk_header) (CelHeader : aseprite_cel_header)
    (Layer : aseprite_layer) :
  read_aseprite_chunk_header FileData (At Parser) = Ok ChunkHeader ->
  ch_ChunkType ChunkHeader = AsepriteChunk_Cel ->
  read_aseprite_cel_header FileData
    (At Parser + sizeof_aseprite_chunk_header) = Ok CelHeader ->
  let Next := set_At Parser (At Parser + ch_ChunkSize ChunkHeader) in
  let CelData :=
    At Parser + sizeof_aseprite_chunk_header + sizeof_aseprite_cel_header in
  let ChunkLength :=
    to_int (ch_ChunkSize ChunkHeader - sizeof_aseprite_chunk_header) in
  let LayerIndex := cel_LayerIndex CelHeader in
  (frame_NumLayers Frame <> file_NumLayers File ->
   0 <= LayerIndex < file_NumLayers File ->
   cel_of_type FileData inflate CelHeader fresh_layer CelData ChunkLength
   = Ok Layer ->
   AsepriteParseChunk FileData inflate File Frame Parser
   = Ok (File,
         {| frame_Header := frame_Header Frame;
            frame_NumLayers := file_NumLayers File;
            frame_Layers :=
              Block (<[Z.to_nat LayerIndex := Layer]>
                       (replicate (Z.to_nat (file_NumLayers File))
                          fresh_layer)) |},
         Next))
  /\
  (frame_NumLayers Frame = file_NumLayers File ->
   forall Layers Old,
     frame_Layers Frame = Block Layers ->
     load Layers LayerIndex = Ok Old ->
     cel_of_type FileData inflate CelHeader Old CelData ChunkLength
     = Ok Layer ->
     AsepriteParseChunk FileData inflate File Frame Parser
     = Ok (File,
           {| frame_Header := frame_Header Frame;
              frame_NumLayers := frame_NumLayers Frame;
              frame_Layers :=
                Block (<[Z.to_nat LayerIndex := Layer]> Layers) |},
           Next)).
Proof.
  intros Hh Ht Hc. cbv zeta.
  rewrite (AsepriteParseChunk_cel FileData inflate File Frame Parser
             ChunkHeader Hh Ht).
  split.
  - intros Hne Hidx HT.
    destruct (decide (frame_NumLayers Frame = file_NumLayers File));
      [contradiction|].
    erewrite AsepriteParseCel_returns;
      [reflexivity | exact Hc | reflexivity | | exact HT].
    unfold load. destruct (Z.ltb_spec (cel_LayerIndex CelHeader) 0); [lia|].
    rewrite lookup_replicate_2 by lia. reflexivity.
  - intros Heq Layers Old HL HO HT.
    destruct (decide (frame_NumLayers Frame = file_NumLayers File));
      [|contradiction].
    erewrite AsepriteParseCel_returns;
      [reflexivity | exact Hc | exact HL | exact HO | exact HT].
Qed.

Lemma C10_cel_dispatch_witness :
  let Red :=
    {| layer_Header :=
         Some {| cel_LayerIndex := 0; cel_XPos := 0; cel_YPos := 0;
                 cel_Opacity := 255; cel_CelType := 0 |};
       layer_DataWidth := Some 1; layer_DataHeight := Some 1;
       layer_Data := Block [255; 0; 0; 255] |} in
  let Green :=
    {| layer_Header :=
         Some {| cel_LayerIndex := 1; cel_XPos := 0; cel_YPos := 0;
                 cel_Opacity := 255; cel_CelType := 0 |};
       layer_DataWidth := Some 1; layer_DataHeight := Some 1;
       layer_Data := Block [0; 255; 0; 255] |} in
  AsepriteParseChunk green_over_red_file no_inflate two_visible_layers_doc
    red_cel_frame at_second_cel
  = Ok (two_visible_layers_doc,
        {| frame_Header := None; frame_NumLayers := 2;
           frame_Layers := Block [Red; Green] |},
        set_At at_second_cel 256)
  /\
  AsepriteParseChunk green_over_red_file no_inflate two_visible_layers_doc
    one_cel_frame at_second_cel
  = Ok (two_visible_layers_doc,
        {| frame_Header := None; frame_NumLayers := 2;
           frame_Layers := Block [fresh_layer; Green] |},
        set_At at_second_cel 256).
Proof.
  intros Red Green. split.
  - apply (proj2 (C10_cel_dispatch green_over_red_file no_inflate
                    two_visible_layers_doc red_cel_frame at_second_cel
                    {| ch_ChunkSize := 30; ch_ChunkType := 0x2005 |}
                    {| cel_LayerIndex := 1; cel_XPos := 0; cel_YPos := 0;
                       cel_Opacity := 255; cel_CelType := 0 |}
                    Green eq_refl eq_refl eq_refl)
             eq_refl [Red; fresh_layer] fresh_layer eq_refl eq_refl eq_refl).
  - apply (proj1 (C10_cel_dispatch green_over_red_file no_inflate
                    two_visible_layers_doc one_cel_frame at_second_cel
                    {| ch_ChunkSize := 30; ch_ChunkType := 0x2005 |}
                    {| cel_LayerIndex := 1; cel_XPos := 0; cel_YPos := 0;
                       cel_Opacity := 255; cel_CelType := 0 |}
                    Green eq_refl eq_refl eq_refl)
             ltac:(discriminate) ltac:(simpl; lia) eq_refl).
Defined.


(** * The assertion and the destination *)

(** The effect of the compositor and its result agree: a call that
    returns leaves the texture it returns, and a call that stops gives
    the same error. *)
Section EffectAgrees.
Variable File : aseprite_file.
Variables DestWidth DestHeight DestX DestY : Z.

Lemma AsepriteFrame_row_effect_returned LayerIndex BlendMode LayerOpacity
    CelData (n : nat) :
  forall X Source Dest DestTexture,
  returned (AsepriteFrame_row_effect File DestWidth DestX LayerIndex
              BlendMode LayerOpacity CelData n X Source Dest DestTexture)
  = AsepriteFrame_row File DestWidth DestX LayerIndex BlendMode
      LayerOpacity CelData n X Source Dest DestTexture.
Proof.
  induction n as [|n IH]; intros X Source Dest Tex; simpl; [reflexivity|].
  destruct (X + DestX <? 0); [apply IH|].
  destruct (X + DestX >=? DestWidth); [reflexivity|].
  destruct (FetchSourceColor _ _ _ _ _) as [[c s]|e]; [|reflexivity].
  simpl. destruct (load_px Tex Dest) as [Old|e]; [|reflexivity].
  simpl. destruct (store_px _ _ _) as [Tex1|e]; [|reflexivity].
  simpl. apply IH.
Qed.

Lemma AsepriteFrame_rows_effect_returned LayerIndex BlendMode LayerOpacity
    CelData DestPitch DestStartX DataPitch StartY StartX (n : nat) :
  forall Y DestTexture,
  returned (AsepriteFrame_rows_effect File DestWidth DestHeight DestX DestY
              LayerIndex BlendMode LayerOpacity CelData DestPitch
              DestStartX DataPitch StartY StartX n Y DestTexture)
  = AsepriteFrame_rows File DestWidth DestHeight DestX DestY LayerIndex
      BlendMode LayerOpacity CelData DestPitch DestStartX DataPitch
      StartY StartX n Y DestTexture.
Proof.
  induction n as [|n IH]; intros Y Tex; simpl; [reflexivity|].
  destruct (Y + DestY <? 0); [apply IH|].
  destruct (Y + DestY >=? DestHeight); [reflexivity|].
  rewrite <- AsepriteFrame_row_effect_returned.
  destruct (AsepriteFrame_row_effect _ _ _ _ _ _ _ _ _ _ _ _)
    as [Tex1 [[]|e]]; simpl; [apply IH | reflexivity].
Qed.

Lemma AsepriteFrame_layer_effect_returned FrameNumber LayerIndex LayerInfo
    DestTexture :
  returned (AsepriteFrame_layer_effect File DestWidth DestHeight DestX
              DestY FrameNumber LayerIndex LayerInfo DestTexture)
  = AsepriteFrame_layer File DestWidth DestHeight DestX DestY FrameNumber
      LayerIndex LayerInfo DestTexture.
Proof.
  unfold AsepriteFrame_layer_effect, AsepriteFrame_layer.
  destruct (load (file_Frames File) FrameNumber) as [Frame|e];
    [|reflexivity].
  cbn [bind]. destruct (deref (frame_Layers Frame)) as [Layers|e];
    [|reflexivity].
  cbn [bind]. destruct (load Layers LayerIndex) as [Layer|e];
    [|reflexivity].
  cbn [bind].
  destruct (initialised (layer_DataWidth Layer)) as [DataWidth|e];
    [|reflexivity].
  cbn [bind].
  destruct (initialised (layer_Header Layer)) as [Header|e];
    [|reflexivity].
  cbn [bind]. apply AsepriteFrame_rows_effect_returned.
Qed.

Lemma AsepriteFrame_layers_effect_returned FrameNumber (n : nat) :
  forall LayerIndex DestTexture,
  returned (AsepriteFrame_layers_effect File DestWidth DestHeight DestX
              DestY FrameNumber n LayerIndex DestTexture)
  = AsepriteFrame_layers File DestWidth DestHeight DestX DestY FrameNumber
      n LayerIndex DestTexture.
Proof.
  induction n as [|n IH]; intros LayerIndex Tex; simpl; [reflexivity|].
  destruct (load (file_LayerInfo File) LayerIndex) as [Slot|e];
    [|reflexivity].
  cbn [bind]. destruct (initialised Slot) as [LayerInfo|e]; [|reflexivity].
  cbn [bind]. destruct (layer_skipped LayerInfo); [apply IH|].
  rewrite <- AsepriteFrame_layer_effect_returned.
  destruct (AsepriteFrame_layer_effect _ _ _ _ _ _ _ _ _)
    as [Tex1 [[]|e]]; simpl; [apply IH | reflexivity].
Qed.

Lemma AsepriteGetEntireFrameRGBA_effect_returned FrameNumber DestTexture :
  returned (AsepriteGetEntireFrameRGBA_effect File DestWidth DestHeight
              DestX DestY FrameNumber DestTexture)
  = AsepriteGetEntireFrameRGBA File DestWidth DestHeight DestX DestY
      FrameNumber DestTexture.
Proof.
  unfold AsepriteGetEntireFrameRGBA_effect, AsepriteGetEntireFrameRGBA.
  destruct (Assert _) as [[]|e]; [|reflexivity].
  cbn [bind]. apply AsepriteFrame_layers_effect_returned.
Qed.
End EffectAgrees.

(** C9: a frame index at or above the document's frame count makes the
    compositor fail with [FrameIndexOutOfRange], and the destination is
    then exactly as the caller passed it: the assertion comes before the
    first write.  A frame index below the frame count never gives that
    error, whatever else goes wrong.  The effect and the result of the
    call agree. *)
Theorem C9_frame_index (File : aseprite_file)
    (DestWidth DestHeight DestX DestY FrameNumber : Z)
    (DestTexture : texture) :
  (file_NumFrames File <= FrameNumber ->
     AsepriteGetEntireFrameRGBA_effect File DestWidth DestHeight DestX DestY
       FrameNumber DestTexture = (DestTexture, Err FrameIndexOutOfRange) /\
     AsepriteGetEntireFrameRGBA File DestWidth DestHeight DestX DestY
       FrameNumber DestTexture = Err FrameIndexOutOfRange)
  /\
  (FrameNumber < file_NumFrames File ->
     snd (AsepriteGetEntireFrameRGBA_effect File DestWidth DestHeight DestX
            DestY FrameNumber DestTexture) <> Err FrameIndexOutOfRange /\
     AsepriteGetEntireFrameRGBA File DestWidth DestHeight DestX DestY
       FrameNumber DestTexture <> Err FrameIndexOutOfRange)
  /\
  returned (AsepriteGetEntireFrameRGBA_effect File DestWidth DestHeight
              DestX DestY FrameNumber DestTexture)
  = AsepriteGetEntireFrameRGBA File DestWidth DestHeight DestX DestY
      FrameNumber DestTexture.
Proof.
  split; [|split].
  - intros H.
    unfold AsepriteGetEntireFrameRGBA_effect, AsepriteGetEntireFrameRGBA,
      Assert.
    destruct (Z.ltb_spec FrameNumber (file_NumFrames File)); [lia|].
    split; reflexivity.
  - intros H.
    assert (Hres :
      AsepriteGetEntireFrameRGBA File DestWidth DestHeight DestX DestY
        FrameNumber DestTexture <> Err FrameIndexOutOfRange).
    { unfold AsepriteGetEntireFrameRGBA, Assert.
      destruct (Z.ltb_spec FrameNumber (file_NumFrames File)); [|lia].
      simpl. apply AsepriteFrame_layers_not_assert. }
    split; [|exact Hres].
    rewrite <- AsepriteGetEntireFrameRGBA_effect_returned in Hres.
    destruct (AsepriteGetEntireFrameRGBA_effect _ _ _ _ _ _ _)
      as [Tex [[]|e]]; simpl in *; [discriminate|].
    intros [= ->]. now apply Hres.
  - apply AsepriteGetEntireFrameRGBA_effect_returned.
Qed.

Lemma C9_frame_index_witness :
  AsepriteGetEntireFrameRGBA_effect one_layer_doc 1 1 0 0 1 (grey_texture 1)
  = (grey_texture 1, Err FrameIndexOutOfRange)
  /\
  AsepriteGetEntireFrameRGBA_effect one_layer_doc 1 1 0 0 0 (grey_texture 1)
  = ([{| px_r := 9; px_g := 8; px_b := 7; px_a := 6 |}], Ok tt)
  /\
  snd (AsepriteGetEntireFrameRGBA_effect one_layer_doc 1 1 0 0 0
         (grey_texture 1)) <> Err FrameIndexOutOfRange.
Proof.
  split; [|split].
  - apply (proj1 (C9_frame_index one_layer_doc 1 1 0 0 1 (grey_texture 1))).
    simpl. lia.
  - vm_compute. reflexivity.
  - apply (proj1 (proj2 (C9_frame_index one_layer_doc 1 1 0 0 0
                           (grey_texture 1)))).
    simpl. lia.
Defined.
